(** * voctoyolo: PASCAL VOC annotations to YOLO labels, with a train/val/test split

    A shallow embedding of [src/voctoyolo.py] and of the Python run-time
    behaviour it relies on, followed by the properties of the conversion, of
    the annotation parser, of the splitter and of the pipeline.

    Conventions of the embedding.
    - Python [int] is [Z]; Python [float] is IEEE-754 binary64, taken from the
      standard library's executable specification [SpecFloat] at precision 53
      and maximal exponent 1024.  Every float operation of the script is the
      corresponding [SpecFloat] operation, together with the exceptions that
      Python adds on top of IEEE arithmetic.
    - Python [str] is [string]; a character stands for a code point below 256.
      [int(s)] is that of CPython 3.11, with its limit of 4300 digits.
    - An exception is a value of [exn]; code that can raise returns
      [result].  Code that also prints or touches the file system runs in
      the monad [M], which records the trace of observable events.
    - An entry of the annotation directory is what [ET.parse] makes of it:
      a tree of ElementTree elements, or one of the exceptions that it
      raises; the directory listing is a list of named entries.
    - [random.shuffle] is the Fisher-Yates loop of CPython, driven by an
      arbitrary generator. *)

From Stdlib Require Import ZArith List String Ascii Bool Lia Permutation.
From Stdlib Require Import Reals Lra Psatz.
From Stdlib Require Import Floats.SpecFloat.
Import ListNotations.
Open Scope Z_scope.

(* ================================================================= *)
(** * Python run-time model *)
(* ================================================================= *)

Module Py.

(** The exceptions that the script can meet. *)
Inductive exn : Set :=
| ParseError
| AttributeError
| ValueError
| TypeError
| ZeroDivisionError
| OverflowError
| LookupError
| OSError
| FileNotFoundError.

Inductive result (A : Type) : Type :=
| Ok (a : A)
| Raise (e : exn).
Arguments Ok {A} a.
Arguments Raise {A} e.

Definition rbind {A B} (r : result A) (f : A -> result B) : result B :=
  match r with
  | Ok a => f a
  | Raise e => Raise e
  end.

Declare Scope result_scope.
Delimit Scope result_scope with result.
Notation "x <- c1 ;; c2" := (rbind c1 (fun x => c2))
  (at level 61, c1 at next level, right associativity) : result_scope.

(** ** Floats *)

Definition prec : Z := 53.
Definition emax : Z := 1024.
Definition float : Set := spec_float.

Definition fmul : float -> float -> float := SFmul prec emax.
Definition fdiv : float -> float -> float := SFdiv prec emax.

Definition is_zero (x : float) : bool :=
  match x with
  | S754_zero _ => true
  | _ => false
  end.

(** [float(n)] for an integer [n]: rounded to nearest, ties to even;
    [OverflowError] when the rounded value is not finite. *)
Definition float_of_int (n : Z) : result float :=
  match binary_normalize prec emax n 0 false with
  | S754_infinity _ => Raise OverflowError
  | f => Ok f
  end.

(** [x * n] for a float [x] and an integer [n]: the integer is converted,
    the product is the IEEE one (it may be infinite, Python does not check). *)
Definition float_mul_int (x : float) (n : Z) : result float :=
  (y <- float_of_int n ;; Ok (fmul x y))%result.

(** [x / y] on floats: Python raises on a zero divisor. *)
Definition float_truediv (x y : float) : result float :=
  if is_zero y then Raise ZeroDivisionError else Ok (fdiv x y).

(** [n / y] for an integer [n] and a float [y]. *)
Definition int_truediv_float (n : Z) (y : float) : result float :=
  (x <- float_of_int n ;; float_truediv x y)%result.

(** An integer as an unrounded float: mantissa [|n|], exponent 0. *)
Definition exact_of_int (n : Z) : float :=
  match n with
  | Z0 => S754_zero false
  | Zpos p => S754_finite false p 0
  | Zneg p => S754_finite true p 0
  end.

(** [a / b] on integers: the correctly rounded quotient of the two exact
    integers; [ZeroDivisionError] on [b = 0], [OverflowError] when the
    quotient is too large for a float. *)
Definition int_truediv (a b : Z) : result float :=
  if b =? 0 then Raise ZeroDivisionError
  else match fdiv (exact_of_int a) (exact_of_int b) with
       | S754_infinity _ => Raise OverflowError
       | f => Ok f
       end.

(** [int(x)] for a float [x]: truncation towards zero. *)
Definition int_of_float (x : float) : result Z :=
  match x with
  | S754_zero _ => Ok 0
  | S754_finite s m e =>
      let a := if 0 <=? e then Zpos m * 2 ^ e else Zpos m / 2 ^ (- e) in
      Ok (if s then - a else a)
  | S754_infinity _ => Raise OverflowError
  | S754_nan => Raise ValueError
  end.

(** The literals of the script: the binary64 values nearest to the decimal
    numerals. *)
Definition lit_2_0 : float := S754_finite false 4503599627370496 (-51).
Definition lit_0_70 : float := S754_finite false 6305039478318694 (-53).
Definition lit_0_15 : float := S754_finite false 5404319552844595 (-55).

(** ** Decimal output *)

Definition digit_char (d : Z) : ascii := ascii_of_nat (48 + Z.to_nat d).

Fixpoint decimal_digits (fuel : nat) (n : Z) (acc : string) : string :=
  match fuel with
  | O => acc
  | S k =>
      let acc' := String (digit_char (n mod 10)) acc in
      if n <? 10 then acc' else decimal_digits k (n / 10) acc'
  end.

(** [str(n)] for [n >= 0]. *)
Definition str_of_nonneg (n : Z) : string :=
  decimal_digits (S (Z.to_nat (Z.log2 n))) n EmptyString.

(** [str(n)]. *)
Definition str_of_int (n : Z) : string :=
  if n <? 0 then String "-" (str_of_nonneg (- n)) else str_of_nonneg n.

(** [n / d] rounded to the nearest integer, ties to even ([0 <= n], [0 < d]). *)
Definition round_half_even_div (n d : Z) : Z :=
  let q := n / d in
  match 2 * (n mod d) ?= d with
  | Lt => q
  | Gt => q + 1
  | Eq => if Z.even q then q else q + 1
  end.

(** The magnitude [m * 2^e] in millionths, correctly rounded. *)
Definition micro_units (m : positive) (e : Z) : Z :=
  if 0 <=? e then Zpos m * 2 ^ e * 10 ^ 6
  else round_half_even_div (Zpos m * 10 ^ 6) (2 ^ (- e)).

Definition six_digits (u : Z) : string :=
  String (digit_char (u / 100000 mod 10))
  (String (digit_char (u / 10000 mod 10))
  (String (digit_char (u / 1000 mod 10))
  (String (digit_char (u / 100 mod 10))
  (String (digit_char (u / 10 mod 10))
  (String (digit_char (u mod 10)) EmptyString))))).

(** A sign and a number of millionths in fixed notation. *)
Definition fixed6 (neg : bool) (u : Z) : string :=
  ((if neg then "-" else EmptyString) ++ str_of_nonneg (u / 10 ^ 6) ++ "." ++
   six_digits (u mod 10 ^ 6))%string.

(** [f'{x:.6f}']. *)
Definition format_6f (x : float) : string :=
  match x with
  | S754_zero s => fixed6 s 0
  | S754_finite s m e => fixed6 s (micro_units m e)
  | S754_infinity s => if s then "-inf"%string else "inf"%string
  | S754_nan => "nan"%string
  end.

(** [sep.join(parts)]. *)
Fixpoint join (sep : string) (parts : list string) : string :=
  match parts with
  | [] => EmptyString
  | [p] => p
  | p :: rest => (p ++ sep ++ join sep rest)%string
  end.

(** ** [int(s)] for a string *)

(** The characters that [int] skips around a literal: the ASCII white
    space and, above 127, the Unicode spaces (NEL and the no-break space);
    the separators 28 to 31 are not among them. *)
Definition is_space (c : ascii) : bool :=
  let n := nat_of_ascii c in
  ((9 <=? n) && (n <=? 13) || (n =? 32) || (n =? 133) || (n =? 160))%nat.

Definition is_digit (c : ascii) : bool :=
  let n := nat_of_ascii c in ((48 <=? n) && (n <=? 57))%nat.

Definition digit_value (c : ascii) : Z := Z.of_nat (nat_of_ascii c) - 48.

Fixpoint drop_spaces (cs : list ascii) : list ascii :=
  match cs with
  | c :: rest => if is_space c then drop_spaces rest else cs
  | [] => []
  end.

Definition strip (cs : list ascii) : list ascii :=
  rev (drop_spaces (rev (drop_spaces cs))).

(** Decimal digits, with single underscores allowed between two digits. *)
Fixpoint digits_value (acc : Z) (after_digit : bool) (cs : list ascii)
  : option Z :=
  match cs with
  | [] => if after_digit then Some acc else None
  | c :: rest =>
      if is_digit c then digits_value (10 * acc + digit_value c) true rest
      else if Ascii.eqb c "_" then
        if after_digit then digits_value acc false rest else None
      else None
  end.

(** The limit that CPython puts on the number of digits of a decimal
    literal ([sys.get_int_max_str_digits()]). *)
Definition max_str_digits : nat := 4300.

Definition digit_count (cs : list ascii) : nat :=
  List.length (List.filter is_digit cs).

(** A literal without its sign: at most [max_str_digits] digits (the
    underscores do not count). *)
Definition unsigned_value (cs : list ascii) : option Z :=
  if (digit_count cs <=? max_str_digits)%nat then digits_value 0 false cs
  else None.

Definition parse_int (s : string) : option Z :=
  match strip (list_ascii_of_string s) with
  | c :: rest =>
      if Ascii.eqb c "-" then option_map Z.opp (unsigned_value rest)
      else if Ascii.eqb c "+" then unsigned_value rest
      else unsigned_value (c :: rest)
  | [] => None
  end.

(** [int(v)] where [v] is a string or [None]. *)
Definition int_of_text (v : option string) : result Z :=
  match v with
  | None => Raise TypeError
  | Some s =>
      match parse_int s with
      | Some n => Ok n
      | None => Raise ValueError
      end
  end.

(** ** Lists *)

(** [l.index(x)]: the first position of [x], [ValueError] when absent. *)
Fixpoint index (x : string) (l : list string) : result Z :=
  match l with
  | [] => Raise ValueError
  | y :: rest =>
      if String.eqb y x then Ok 0
      else (i <- index x rest ;; Ok (i + 1))%result
  end.

(** A slice bound brought into [0, n]. *)
Definition clamp_index (n i : Z) : Z :=
  if i <? 0 then Z.max 0 (i + n) else Z.min i n.

(** [l[lo:hi]], an omitted bound being [None]. *)
Definition slice {A} (l : list A) (lo hi : option Z) : list A :=
  let n := Z.of_nat (List.length l) in
  let a := match lo with None => 0 | Some i => clamp_index n i end in
  let b := match hi with None => n | Some i => clamp_index n i end in
  firstn (Z.to_nat (b - a)) (skipn (Z.to_nat a) l).

(** [x[i], x[j] = x[j], x[i]] for indices in range. *)
Fixpoint set_nth {A} (i : nat) (v : A) (l : list A) : list A :=
  match l, i with
  | [], _ => []
  | _ :: t, O => v :: t
  | h :: t, S k => h :: set_nth k v t
  end.

Definition swap {A} (l : list A) (i j : nat) : list A :=
  match nth_error l i, nth_error l j with
  | Some a, Some b => set_nth j a (set_nth i b l)
  | _, _ => l
  end.

(** [random.shuffle]: for [i] from [len(x) - 1] down to [1], swap [x[i]]
    with [x[randbelow(i + 1)]].  The generator [gen] gives, for each bound,
    the raw draw that [randbelow] reduces below the bound. *)
Definition randbelow (gen : nat -> nat) (n : nat) : nat := (gen n mod n)%nat.

Fixpoint shuffle_loop {A} (gen : nat -> nat) (i : nat) (x : list A) : list A :=
  match i with
  | O => x
  | S k => shuffle_loop gen k (swap x i (randbelow gen (S i)))
  end.

Definition shuffle {A} (gen : nat -> nat) (x : list A) : list A :=
  shuffle_loop gen (List.length x - 1) x.

(** [s.endswith(suffix)]. *)
Definition endswith (s suffix : string) : bool :=
  let n := String.length s in
  let k := String.length suffix in
  ((k <=? n)%nat && String.eqb (String.substring (n - k) k s) suffix)%bool.

(** [os.path.splitext(name)[0]] for a name without directory separator: the
    name up to its last dot, unless only dots precede that dot. *)
Fixpoint last_dot (cs : list ascii) (pos : nat) (found : option nat)
  : option nat :=
  match cs with
  | [] => found
  | c :: rest =>
      last_dot rest (S pos) (if Ascii.eqb c "." then Some pos else found)
  end.

Definition all_dots (cs : list ascii) : bool :=
  forallb (fun c => Ascii.eqb c ".") cs.

Definition splitext_root (name : string) : string :=
  let cs := list_ascii_of_string name in
  match last_dot cs 0 None with
  | Some d =>
      if all_dots (firstn d cs) then name
      else string_of_list_ascii (firstn d cs)
  | None => name
  end.

End Py.

(* ================================================================= *)
(** * ElementTree model *)
(* ================================================================= *)

Module ET.
Import Py.

(** An element: its tag, its text ([None] when it has none) and its child
    elements in document order. *)
#[local] Unset Elimination Schemes.
Inductive element : Type :=
| Element (tag : string) (text : option string) (children : list element).
#[local] Set Elimination Schemes.

Definition tag (e : element) : string :=
  match e with Element t _ _ => t end.

Definition text (e : element) : option string :=
  match e with Element _ x _ => x end.

Definition children (e : element) : list element :=
  match e with Element _ _ cs => cs end.

(** [e.find(t)]: the first child with tag [t], or [None]. *)
Definition find (e : element) (t : string) : option element :=
  List.find (fun c => String.eqb (tag c) t) (children e).

(** [e.findall(t)]: the children with tag [t], in document order. *)
Definition findall (e : element) (t : string) : list element :=
  List.filter (fun c => String.eqb (tag c) t) (children e).

(** [node.find(t)] and [node.text] where [node] may be [None]: attribute
    access on [None] raises [AttributeError]. *)
Definition node_find (node : option element) (t : string)
  : result (option element) :=
  match node with
  | Some e => Ok (find e t)
  | None => Raise AttributeError
  end.

Definition node_text (node : option element) : result (option string) :=
  match node with
  | Some e => Ok (text e)
  | None => Raise AttributeError
  end.

(** An entry of the directory, as [ET.parse] sees it: not well-formed XML,
    XML that declares a multi-byte encoding, XML that declares an encoding
    that Python does not know, an entry that cannot be opened for reading
    (a directory, or a file without the permission), or a document. *)
Inductive document : Type :=
| Malformed
| MultiByteEncoding
| UnknownEncoding
| Unreadable
| Document (root : element).

(** [ET.parse(path).getroot()] over the files of a directory. *)
Fixpoint parse (files : list (string * document)) (path : string)
  : result element :=
  match files with
  | [] => Raise FileNotFoundError
  | (name, doc) :: rest =>
      if String.eqb name path then
        match doc with
        | Malformed => Raise ParseError
        | MultiByteEncoding => Raise ValueError
        | UnknownEncoding => Raise LookupError
        | Unreadable => Raise OSError
        | Document root => Ok root
        end
      else parse rest path
  end.

End ET.

(* ================================================================= *)
(** * The script *)
(* ================================================================= *)

Import Py ET.

(** The keys of [SPLIT_RATIOS], in insertion order. *)
Inductive subset : Set := train | val | test.

Definition subsets : list subset := [train; val; test].

Definition CLASS_NAMES : list string := ["pothole"%string].

Definition SPLIT_RATIOS (s : subset) : float :=
  match s with
  | train => lit_0_70
  | val => lit_0_15
  | test => lit_0_15
  end.

Definition image_extensions : list string :=
  [".jpg"%string; ".jpeg"%string; ".png"%string].

(** What the script prints, one constructor per [print] call. *)
Inductive message : Type :=
| MsgStart
| MsgCreated (s : subset)
| MsgFatalNoDir
| MsgFatalNoXml
| MsgSummary
| MsgTotal (n : Z)
| MsgCount (s : subset) (n : Z)
| MsgRule
| MsgProcessing (s : subset)
| MsgParseError (xml_path : string)
| MsgNoSize (xml_path : string)
| MsgUnknownClass (class_name : option string)
| MsgMissingBox (xml_path : string)
| MsgNoImage (base_name : string)
| MsgComplete.

(** The observable actions of a run.  A path below the output directory is
    given by its tree ([images] or [labels]), its subset and its file name. *)
Inductive event : Type :=
| Print (m : message)
| MakeDirs (tree : string) (s : subset)
| WriteLabel (s : subset) (file_name : string) (lines : list string)
| CopyImage (src_name : string) (s : subset) (dst_name : string).

(** Computations that print, act on the file system and may raise. *)
Definition M (A : Type) : Type := list event * result A.

Definition ret {A} (a : A) : M A := ([], Ok a).

Definition bind {A B} (m : M A) (f : A -> M B) : M B :=
  match m with
  | (t, Ok a) => let (t', r) := f a in (t ++ t', r)
  | (t, Raise e) => (t, Raise e)
  end.

Definition emit (ev : event) : M unit := ([ev], Ok tt).

Definition lift {A} (r : result A) : M A := ([], r).

Declare Scope M_scope.
Delimit Scope M_scope with M.
Notation "x <- c1 ;; c2" := (bind c1 (fun x => c2))
  (at level 61, c1 at next level, right associativity) : M_scope.
Notation "c1 ;; c2" := (bind c1 (fun _ => c2))
  (at level 61, right associativity) : M_scope.

Fixpoint for_each {A} (body : A -> M unit) (l : list A) : M unit :=
  match l with
  | [] => ret tt
  | a :: rest => (body a ;; for_each body rest)%M
  end.

Definition trace {A} (m : M A) : list event := fst m.
Definition outcome {A} (m : M A) : result A := snd m.

(** ** Coordinate conversion *)

Definition convert_to_yolo_format (size : Z * Z) (box : Z * Z * Z * Z)
  : result (float * float * float * float) :=
  let '(img_w, img_h) := size in
  let '(xmin, xmax, ymin, ymax) := box in
  (dx <- float_mul_int lit_2_0 img_w ;;
   x_center <- int_truediv_float (xmin + xmax) dx ;;
   dy <- float_mul_int lit_2_0 img_h ;;
   y_center <- int_truediv_float (ymin + ymax) dy ;;
   width <- int_truediv (xmax - xmin) img_w ;;
   height <- int_truediv (ymax - ymin) img_h ;;
   Ok (x_center, y_center, width, height))%result.

(** ** Annotation parser *)

Definition newline : string := String (ascii_of_nat 10) EmptyString.

(** The f-string of a label line. *)
Definition label_line (class_id : Z) (yolo_box : float * float * float * float)
  : string :=
  let '(x_center, y_center, width, height) := yolo_box in
  (str_of_int class_id ++ " " ++
   join " " (map format_6f [x_center; y_center; width; height]) ++
   newline)%string.

(** [int(node.find(t).text)]. *)
Definition int_field (node : option element) (t : string) : result Z :=
  (child <- node_find node t ;;
   v <- node_text child ;;
   int_of_text v)%result.

(** The body of the first [try]: width, then height. *)
Definition read_size (size_node : option element) : result (Z * Z) :=
  (img_w <- int_field size_node "width" ;;
   img_h <- int_field size_node "height" ;;
   Ok (img_w, img_h))%result.

(** The body of the [try] on the bounding box: xmin, ymin, xmax, ymax. *)
Definition read_box (bndbox : option element) : result (Z * Z * Z * Z) :=
  (xmin <- int_field bndbox "xmin" ;;
   ymin <- int_field bndbox "ymin" ;;
   xmax <- int_field bndbox "xmax" ;;
   ymax <- int_field bndbox "ymax" ;;
   Ok (xmin, xmax, ymin, ymax))%result.

(** [classes.index(class_name)] where the name may be [None]. *)
Definition class_index (classes : list string) (class_name : option string)
  : result Z :=
  match class_name with
  | Some s => index s classes
  | None => Raise ValueError
  end.

(** One iteration of the loop over the objects: the line to append, or
    [None] after a [continue]. *)
Definition process_object (xml_path : string) (classes : list string)
  (size : Z * Z) (obj : element) : M (option string) :=
  (class_name <- lift (node_text (find obj "name")) ;;
   match class_index classes class_name with
   | Raise ValueError =>
       (emit (Print (MsgUnknownClass class_name)) ;; ret None)
   | Raise e => lift (Raise e)
   | Ok class_id =>
       match read_box (find obj "bndbox") with
       | Raise AttributeError =>
           (emit (Print (MsgMissingBox xml_path)) ;; ret None)
       | Raise e => lift (Raise e)
       | Ok box =>
           (yolo_box <- lift (convert_to_yolo_format size box) ;;
            ret (Some (label_line class_id yolo_box)))
       end
   end)%M.

Fixpoint process_objects (xml_path : string) (classes : list string)
  (size : Z * Z) (objs : list element) (yolo_lines : list string)
  : M (list string) :=
  match objs with
  | [] => ret yolo_lines
  | obj :: rest =>
      (r <- process_object xml_path classes size obj ;;
       process_objects xml_path classes size rest
         (match r with
          | Some line => yolo_lines ++ [line]
          | None => yolo_lines
          end))%M
  end.

Definition process_xml_file (files : list (string * document))
  (xml_path : string) (classes : list string) : M (list string) :=
  match parse files xml_path with
  | Raise ParseError => (emit (Print (MsgParseError xml_path)) ;; ret [])%M
  | Raise e => lift (Raise e)
  | Ok root =>
      match read_size (find root "size") with
      | Raise AttributeError =>
          (emit (Print (MsgNoSize xml_path)) ;; ret [])%M
      | Raise e => lift (Raise e)
      | Ok size =>
          process_objects xml_path classes size (findall root "object") []
      end
  end.

(** ** Splitter and pipeline *)

(** What a run reads: the annotation directory ([None] when it does not
    exist; its entries are regular files), the names present in the image
    directory, and the random generator. *)
Record world : Type := {
  xml_dir : option (list (string * document));
  image_exists : string -> bool;
  gen : nat -> nat
}.

(** Lines 109 to 120: shuffle, then cut into three slices. *)
Definition split (g : nat -> nat) (xml_files : list string)
  : result (list (subset * list string)) :=
  let xml_files := shuffle g xml_files in
  let num_files := Z.of_nat (List.length xml_files) in
  (t <- float_mul_int (SPLIT_RATIOS train) num_files ;;
   train_end <- int_of_float t ;;
   v <- float_mul_int (SPLIT_RATIOS val) num_files ;;
   k <- int_of_float v ;;
   let val_end := train_end + k in
   Ok [(train, slice xml_files None (Some train_end));
       (val, slice xml_files (Some train_end) (Some val_end));
       (test, slice xml_files (Some val_end) None)])%result.

(** The body of the inner loop of step 4. *)
Definition process_item (w : world) (files : list (string * document))
  (s : subset) (xml_file : string) : M unit :=
  let base_name := splitext_root xml_file in
  (yolo_lines <- process_xml_file files xml_file CLASS_NAMES ;;
   emit (WriteLabel s (base_name ++ ".txt") yolo_lines) ;;
   match List.find (fun ext => image_exists w (base_name ++ ext))
           image_extensions with
   | Some ext => emit (CopyImage (base_name ++ ext) s (base_name ++ ext))
   | None => emit (Print (MsgNoImage base_name))
   end)%M.

Definition process_subset (w : world) (files : list (string * document))
  (entry : subset * list string) : M unit :=
  let (s, names) := entry in
  (emit (Print (MsgProcessing s)) ;;
   for_each (process_item w files s) names)%M.

Definition make_dirs (s : subset) : M unit :=
  (emit (MakeDirs "images" s) ;;
   emit (MakeDirs "labels" s) ;;
   emit (Print (MsgCreated s)))%M.

Definition report (num_files : Z) (data_splits : list (subset * list string))
  : M unit :=
  (emit (Print MsgSummary) ;;
   emit (Print (MsgTotal num_files)) ;;
   for_each (fun entry : subset * list string =>
               emit (Print (MsgCount (fst entry)
                              (Z.of_nat (List.length (snd entry))))))
            data_splits ;;
   emit (Print MsgRule))%M.

Definition main (w : world) : M unit :=
  (emit (Print MsgStart) ;;
   for_each make_dirs subsets ;;
   match xml_dir w with
   | None => emit (Print MsgFatalNoDir)
   | Some files =>
       let xml_files :=
         List.filter (fun f => endswith f ".xml") (map fst files) in
       match xml_files with
       | [] => emit (Print MsgFatalNoXml)
       | _ :: _ =>
           (data_splits <- lift (split (gen w) xml_files) ;;
            report (Z.of_nat (List.length xml_files)) data_splits ;;
            for_each (process_subset w files) data_splits ;;
            emit (Print MsgComplete))
       end
   end)%M.

Definition bpow (e : Z) : R := powerRZ 2 e.

Definition inbetween (m : Z) (l : location) (x : R) : Prop :=
  match l with
  | loc_Exact => x = IZR m
  | loc_Inexact Lt => (IZR m < x < IZR m + / 2)%R
  | loc_Inexact Eq => x = (IZR m + / 2)%R
  | loc_Inexact Gt => (IZR m + / 2 < x < IZR m + 1)%R
  end.

Definition represents (mrs : shr_record) (x : R) : Prop :=
  0 <= shr_m mrs /\ inbetween (shr_m mrs) (loc_of_shr_record mrs) x.

Definition SF2R (x : spec_float) : R :=
  match x with
  | S754_finite s m e =>
      if s then (- (IZR (Zpos m) * bpow e))%R else (IZR (Zpos m) * bpow e)%R
  | _ => 0%R
  end.

(** The end of [binary_round_aux], once the mantissa is rounded. *)
Definition round_finish (sx : bool) (m1 e' : Z) : spec_float :=
  let r2 := shr_fexp prec emax m1 e' loc_Exact in
  match shr_m (fst r2) with
  | Z0 => S754_zero sx
  | Zpos m =>
      if snd r2 <=? emax - prec then S754_finite sx m (snd r2)
      else S754_infinity sx
  | Zneg _ => S754_nan
  end.

(** [res] is the float obtained by rounding the magnitude [v] with sign
    [sx]: some mantissa, location and exponent stand for [v], finely enough
    for [binary_round_aux] to round correctly. *)
Definition rounds_to (sx : bool) (v : R) (res : spec_float) : Prop :=
  exists mx ex lx x,
    0 <= mx /\ inbetween mx lx x /\
    ex <= fexp prec emax (Zdigits2 mx + ex) /\
    v = (x * bpow ex)%R /\
    res = binary_round_aux prec emax sx mx ex lx.

Definition canonical (x : spec_float) : Prop :=
  match x with
  | S754_finite _ m e => fexp prec emax (Zdigits2 (Zpos m) + e) = e
  | _ => True
  end.

(** The magnitude of a float. *)
Definition SFmag (x : spec_float) : R :=
  match x with
  | S754_finite _ m e => (IZR (Zpos m) * bpow e)%R
  | _ => 0%R
  end.

(** [a] is the integer part of the nonnegative float [x]. *)
Definition floor_of (x : spec_float) (a : Z) : Prop :=
  (IZR a <= SF2R x < IZR a + 1)%R.

(** [items[i:j]] for [0 <= i <= j <= len(items)], as the specification
    writes the contiguous slices. *)
Definition items_between {A} (items : list A) (i j : Z) : list A :=
  firstn (Z.to_nat (j - i)) (skipn (Z.to_nat i) items).

(** ** Predicates on annotations, used to state the properties *)


Definition is_object (c : element) : bool := String.eqb (tag c) "object".


(** [line] is the label line of the object entry [obj] in an image of
    dimensions [size]: the entry has a registered class name, of index
    [class_id], and a readable box that converts to [yolo_box]. *)
Definition line_of_object (classes : list string) (size : Z * Z)
  (obj : element) (class_id : Z) (yolo_box : float * float * float * float)
  (line : string) : Prop :=
  exists n name box,
    find obj "name" = Some n /\ text n = Some name /\
    index name classes = Ok class_id /\
    read_box (find obj "bndbox") = Ok box /\
    convert_to_yolo_format size box = Ok yolo_box /\
    line = label_line class_id yolo_box.

(** The four values as the specification writes them, each quotient being
    the division of its two integers: the float nearest to the exact
    quotient. *)
Definition yolo_quotients (W H xmin xmax ymin ymax : Z)
  : result (float * float * float * float) :=
  (x_center <- int_truediv (xmin + xmax) (2 * W) ;;
   y_center <- int_truediv (ymin + ymax) (2 * H) ;;
   width <- int_truediv (xmax - xmin) W ;;
   height <- int_truediv (ymax - ymin) H ;;
   Ok (x_center, y_center, width, height))%result.

(** [f] is within one rounding of the exact quotient [a / b]. *)
Definition near_quotient (f : float) (a b : Z) : Prop :=
  (Rabs (SF2R f - IZR a / IZR b) <= bpow (-53) * Rabs (IZR a / IZR b))%R.

(** The number that [format_6f] prints, counted in millionths. *)
Definition millionths (x : float) : Z :=
  match x with
  | S754_finite s m e => if s then - micro_units m e else micro_units m e
  | _ => 0
  end.

(** ** Finite floats *)

(** Neither infinite nor a NaN. *)
Definition is_finite (x : float) : bool :=
  match x with
  | S754_zero _ | S754_finite _ _ _ => true
  | _ => false
  end.

(** ** Sample inputs *)

Definition leaf (t v : string) : element := Element t (Some v) [].

Definition sample_object (name xmin ymin xmax ymax : string) : element :=
  Element "object" None
    [leaf "name" name;
     Element "bndbox" None
       [leaf "xmin" xmin; leaf "ymin" ymin; leaf "xmax" xmax; leaf "ymax" ymax]].

Definition sample_size (w h : string) : element :=
  Element "size" None [leaf "width" w; leaf "height" h; leaf "depth" "3"].

(** A 640 by 480 image with one pothole at (100, 50)-(200, 150). *)
Definition sample_annotation : element :=
  Element "annotation" None
    [leaf "filename" "img.jpg"; sample_size "640" "480";
     sample_object "pothole" "100" "50" "200" "150"].

(** The same image, with an object of an unregistered class before the
    pothole. *)
Definition sample_two_classes : element :=
  Element "annotation" None
    [sample_size "640" "480";
     sample_object "car" "1" "2" "3" "4";
     sample_object "pothole" "100" "50" "200" "150"].

(** An annotation whose width is not a number. *)
Definition sample_bad_width : element :=
  Element "annotation" None
    [sample_size "64O" "480";
     sample_object "pothole" "100" "50" "200" "150"].

Definition sample_line : string :=
  ("0 0.234375 0.208333 0.156250 0.208333" ++ newline)%string.

(** ** Well-formed annotations *)

(** The text is an integer literal below [2^52] in absolute value. *)
Definition pixel_text (v : option string) : bool :=
  match v with
  | Some s =>
      match parse_int s with
      | Some z => Z.abs z <? 2 ^ 52
      | None => false
      end
  | None => false
  end.

(** The text is an integer literal between 1 and [2^52 - 1]. *)
Definition dimension_text (v : option string) : bool :=
  match v with
  | Some s =>
      match parse_int s with
      | Some z => (0 <? z) && (z <? 2 ^ 52)
      | None => false
      end
  | None => false
  end.

(** The child [t] of [node], when there is one, has a text that [check]
    accepts. *)
Definition field_ok (check : option string -> bool) (node : option element)
  (t : string) : bool :=
  match node with
  | None => true
  | Some e =>
      match find e t with
      | None => true
      | Some c => check (text c)
      end
  end.

Definition object_ok (obj : element) : bool :=
  match find obj "name" with
  | None => false
  | Some _ =>
      let bndbox := find obj "bndbox" in
      field_ok pixel_text bndbox "xmin" && field_ok pixel_text bndbox "ymin" &&
      field_ok pixel_text bndbox "xmax" && field_ok pixel_text bndbox "ymax"
  end.

(** Every width, height and coordinate that the file gives is an integer
    literal in range, the dimensions are positive, and every object entry
    has a name element. *)
Definition well_formed (root : element) : bool :=
  let size_node := find root "size" in
  field_ok dimension_text size_node "width" &&
  field_ok dimension_text size_node "height" &&
  forallb object_ok (findall root "object").

(** The text of an element is an integer literal for [int]. *)
Definition is_int_literal (v : option string) : bool :=
  match v with
  | Some s =>
      match parse_int s with
      | Some _ => true
      | None => false
      end
  | None => false
  end.

(** The image size cannot be found: there is no size section, or it has no
    width element, or its width is an integer literal and it has no height
    element. *)
Definition size_missing (root : element) : bool :=
  match find root "size" with
  | None => true
  | Some s =>
      match find s "width" with
      | None => true
      | Some w =>
          is_int_literal (text w) &&
          match find s "height" with
          | None => true
          | Some _ => false
          end
      end
  end.

(** ** Traces of the pipeline *)

(** What [main] does before it lists the annotation directory. *)
Definition setup_trace : list event :=
  [Print MsgStart;
   MakeDirs "images" train; MakeDirs "labels" train; Print (MsgCreated train);
   MakeDirs "images" val; MakeDirs "labels" val; Print (MsgCreated val);
   MakeDirs "images" test; MakeDirs "labels" test; Print (MsgCreated test)].

(** The names of the annotation files of a listing. *)
Definition xml_names (files : list (string * document)) : list string :=
  List.filter (fun f => endswith f ".xml") (map fst files).

(** The event that ends the processing of an item: the copy of its image,
    or the warning that there is none. *)
Definition image_event (w : world) (s : subset) (base_name : string) : event :=
  match List.find (fun ext => image_exists w (base_name ++ ext))
          image_extensions with
  | Some ext => CopyImage (base_name ++ ext) s (base_name ++ ext)
  | None => Print (MsgNoImage base_name)
  end.

Definition is_output (ev : event) : bool :=
  match ev with
  | WriteLabel _ _ _ | CopyImage _ _ _ => true
  | _ => false
  end.

Definition sample_world (files : list (string * document)) : world :=
  {| xml_dir := Some files;
     image_exists := fun name => String.eqb name "img.jpg";
     gen := fun _ => 0%nat |}.

(** ** Predicates for the further properties *)

(** Among the elements [fields] of [b], taken in order, one is absent and
    those before it hold integer literals. *)
Fixpoint first_absent (b : element) (fields : list string) : bool :=
  match fields with
  | [] => false
  | t :: rest =>
      match find b t with
      | None => true
      | Some c => is_int_literal (text c) && first_absent b rest
      end
  end.

(** The box of an object entry is missing: there is no bndbox element, or
    one of xmin, ymin, xmax, ymax is absent from it, those before it in
    this order being integer literals. *)
Definition box_missing (bndbox : option element) : bool :=
  match bndbox with
  | None => true
  | Some b => first_absent b ["xmin"; "ymin"; "xmax"; "ymax"]%string
  end.

(** The object entry has a registered class name and its box is
    missing. *)
Definition missing_box (classes : list string) (obj : element) : bool :=
  match find obj "name" with
  | Some n =>
      match class_index classes (text n) with
      | Ok _ => box_missing (find obj "bndbox")
      | Raise _ => false
      end
  | None => false
  end.

(** The warning printed for a missing box. *)
Definition is_missing_box_warning (ev : event) : bool :=
  match ev with
  | Print (MsgMissingBox _) => true
  | _ => false
  end.

Definition is_print (ev : event) : bool :=
  match ev with
  | Print _ => true
  | _ => false
  end.

(** The four messages of the parser. *)
Definition is_warning (ev : event) : bool :=
  match ev with
  | Print (MsgParseError _) | Print (MsgNoSize _)
  | Print (MsgUnknownClass _) | Print (MsgMissingBox _) => true
  | _ => false
  end.

(** The lines that the parser returns for a file of the listing (none when
    it raises). *)
Definition parsed_lines (files : list (string * document)) (xml_file : string)
  : list string :=
  match outcome (process_xml_file files xml_file CLASS_NAMES) with
  | Ok yolo_lines => yolo_lines
  | Raise _ => []
  end.

(** The files that the processing of an item writes: its label file, and
    the copy of its image when there is one. *)
Definition item_outputs (w : world) (files : list (string * document))
  (s : subset) (xml_file : string) : list event :=
  WriteLabel s (splitext_root xml_file ++ ".txt") (parsed_lines files xml_file)
  :: List.filter is_output [image_event w s (splitext_root xml_file)].

(** The listing without the entries that are not annotation files. *)
Definition only_xml (files : list (string * document))
  : list (string * document) :=
  List.filter (fun entry => endswith (fst entry) ".xml") files.

(** ** The text of a label line *)

Fixpoint decimal_value_from (acc : Z) (s : string) : option Z :=
  match s with
  | EmptyString => Some acc
  | String c rest =>
      if is_digit c then decimal_value_from (10 * acc + digit_value c) rest
      else None
  end.

(** The number that a non-empty string of decimal digits denotes. *)
Definition decimal_value (s : string) : option Z :=
  match s with
  | EmptyString => None
  | String _ _ => decimal_value_from 0 s
  end.

(** The string starts with a zero that is not its only digit. *)
Definition leading_zero (s : string) : bool :=
  match s with
  | String c (String _ _) => Ascii.eqb c "0"
  | _ => false
  end.

(** [s] is the decimal numeral of [n]: its digits, without leading
    zero. *)
Definition decimal_text (s : string) (n : Z) : Prop :=
  decimal_value s = Some n /\ leading_zero s = false.

(** [f] is the number of sign [neg] and of magnitude [u] millionths in
    fixed notation: a minus sign when [neg], the numeral of the integer
    part, a point, and six digits for the fraction. *)
Definition fixed_point6 (f : string) (neg : bool) (u : Z) : Prop :=
  exists (int_part frac_part : string) (a b : Z),
    f = ((if neg then "-" else EmptyString) ++ int_part ++ "." ++ frac_part)%string
    /\ decimal_text int_part a
    /\ String.length frac_part = 6%nat /\ decimal_value frac_part = Some b
    /\ u = a * 1000000 + b.

Definition sign_bit (x : float) : bool :=
  match x with
  | S754_zero s | S754_infinity s | S754_finite s _ _ => s
  | S754_nan => false
  end.

(** [f] is the float [x] written with exactly six decimals: the sign of
    [x], then its magnitude rounded to the nearest millionth (to the even
    one on a tie, which is what [millionths] computes). *)
Definition six_decimal_text (f : string) (x : float) : Prop :=
  exists u : Z,
    fixed_point6 f (sign_bit x) u /\ u = Z.abs (millionths x) /\
    (Rabs (IZR u - 1000000 * Rabs (SF2R x)) <= / 2)%R.

(** [line] is the label line of class [class_id] and of the four values
    of [yolo_box]: the class id in decimal, then x_center, y_center, width
    and height in this order, each with six decimals, the five fields
    separated by single spaces and followed by a newline. *)
Definition is_label_line (line : string) (class_id : Z)
  (yolo_box : float * float * float * float) : Prop :=
  let '(x_center, y_center, width, height) := yolo_box in
  exists id_text f1 f2 f3 f4 : string,
    line = (id_text ++ " " ++ f1 ++ " " ++ f2 ++ " " ++ f3 ++ " " ++ f4
            ++ newline)%string /\
    decimal_text id_text class_id /\
    six_decimal_text f1 x_center /\ six_decimal_text f2 y_center /\
    six_decimal_text f3 width /\ six_decimal_text f4 height.

(** ** What the objects of a file give *)

(** [obj] is an object entry of a registered class, of index [class_id],
    whose box reads as [box] and converts to [yolo_box]. *)
Definition object_converts (classes : list string) (size : Z * Z)
  (obj : element) (class_id : Z) (yolo_box : float * float * float * float)
  : Prop :=
  exists n name box,
    find obj "name" = Some n /\ text n = Some name /\
    index name classes = Ok class_id /\
    read_box (find obj "bndbox") = Ok box /\
    convert_to_yolo_format size box = Ok yolo_box.



(** ** Sizes that cannot be read *)

(** What [int] raises on a text that is not an integer literal. *)
Definition literal_error (v : option string) : exn :=
  match v with
  | None => TypeError
  | Some _ => ValueError
  end.

(** ** Why an object entry raises *)

(** The processing of the object entry [obj] raises [e]: the entry has no
    name element; or it is of a registered class and the reading of its
    box raises, on a coordinate that is not an integer literal; or its box
    is read and the converter raises. *)
Definition object_raises (classes : list string) (size : Z * Z)
  (obj : element) (e : exn) : Prop :=
  (find obj "name" = None /\ e = AttributeError) \/
  exists n class_id,
    find obj "name" = Some n /\ class_index classes (text n) = Ok class_id /\
    ((read_box (find obj "bndbox") = Raise e /\
      (e = ValueError \/ e = TypeError)) \/
     exists box,
       read_box (find obj "bndbox") = Ok box /\
       convert_to_yolo_format size box = Raise e /\
       (e = ZeroDivisionError \/ e = OverflowError)).

(** ** The base name of an annotation file *)

(** What the script takes for the base name of [<stem>.xml]: the stem,
    unless the stem is empty or made of dots only, in which case the
    whole name has no extension for [splitext]. *)
Definition base_of_stem (stem : string) : string :=
  if all_dots (list_ascii_of_string stem) then (stem ++ ".xml")%string
  else stem.

Lemma bpow_pos e : (0 < bpow e)%R.
Proof. apply powerRZ_lt. lra. Qed.

Lemma bpow_add a b : bpow (a + b) = (bpow a * bpow b)%R.
Proof. apply powerRZ_add. lra. Qed.

Lemma bpow_0 : bpow 0 = 1%R.
Proof. reflexivity. Qed.

Lemma bpow_1 : bpow 1 = 2%R.
Proof. unfold bpow. simpl. lra. Qed.

Lemma bpow_opp e : bpow (- e) = (/ bpow e)%R.
Proof. apply powerRZ_neg'. Qed.

Lemma bpow_succ e : bpow (e + 1) = (2 * bpow e)%R.
Proof. rewrite bpow_add, bpow_1. lra. Qed.

Lemma bpow_IZR e : 0 <= e -> bpow e = IZR (2 ^ e).
Proof.
  intros He. pattern e. apply natlike_ind; [reflexivity | | exact He].
  intros x Hx IH. unfold Z.succ. rewrite bpow_succ, IH, Z.pow_add_r by lia.
  rewrite mult_IZR. simpl (2 ^ 1). lra.
Qed.

Lemma bpow_le a b : a <= b -> (bpow a <= bpow b)%R.
Proof.
  intros H. replace b with (a + (b - a)) by lia. rewrite bpow_add.
  rewrite (bpow_IZR (b - a)) by lia.
  assert (1 <= 2 ^ (b - a)) by (apply Z.lt_pred_le, Z.pow_pos_nonneg; lia).
  apply IZR_le in H0. pose proof (bpow_pos a). nra.
Qed.

Lemma bpow_lt a b : a < b -> (bpow a < bpow b)%R.
Proof.
  intros H. replace b with (a + (b - a)) by lia. rewrite bpow_add.
  rewrite (bpow_IZR (b - a)) by lia.
  assert (2 <= 2 ^ (b - a)).
  { replace (b - a) with (1 + (b - a - 1)) by lia. rewrite Z.pow_add_r by lia.
    assert (0 < 2 ^ (b - a - 1)) by (apply Z.pow_pos_nonneg; lia). lia. }
  apply IZR_le in H0. pose proof (bpow_pos a). nra.
Qed.

Lemma bpow_lt_inv a b : (bpow a < bpow b)%R -> a < b.
Proof.
  intros H. destruct (Z_lt_le_dec a b) as [Hl|Hl]; [exact Hl|].
  apply bpow_le in Hl. lra.
Qed.

(** Digits *)
Lemma digits2_pos_bounds p :
  2 ^ (Zpos (digits2_pos p) - 1) <= Zpos p < 2 ^ (Zpos (digits2_pos p)).
Proof.
  induction p as [p IH|p IH|]; simpl digits2_pos.
  - rewrite Pos2Z.inj_succ. replace (Z.succ (Z.pos (digits2_pos p)) - 1) with (1 + (Zpos (digits2_pos p) - 1)) by lia.
    unfold Z.succ. rewrite Z.add_comm. rewrite !Z.pow_add_r by lia. change (2^1) with 2. lia.
  - rewrite Pos2Z.inj_succ. replace (Z.succ (Z.pos (digits2_pos p)) - 1) with (1 + (Zpos (digits2_pos p) - 1)) by lia.
    unfold Z.succ. rewrite Z.add_comm. rewrite !Z.pow_add_r by lia. change (2^1) with 2. lia.
  - simpl. lia.
Qed.

Lemma Zdigits2_bounds m : 0 < m -> 2 ^ (Zdigits2 m - 1) <= m < 2 ^ Zdigits2 m.
Proof. destruct m; try lia. intros _. apply digits2_pos_bounds. Qed.

Lemma Zdigits2_nonneg m : 0 <= Zdigits2 m.
Proof. destruct m; simpl; lia. Qed.

Lemma Zdigits2_pos m : 0 < m -> 0 < Zdigits2 m.
Proof. destruct m; simpl; lia. Qed.

Lemma Zdigits2_unique m k : 2 ^ (k - 1) <= m < 2 ^ k -> 0 < m -> Zdigits2 m = k.
Proof.
  intros [H1 H2] Hm. pose proof (Zdigits2_bounds m Hm) as [B1 B2].
  pose proof (Zdigits2_pos m Hm).
  assert (0 < k).
  { destruct (Z_lt_le_dec 0 k) as [|Hk]; [lia|]. exfalso.
    destruct (Z.eq_dec k 0) as [->|Hk0]; [simpl in H2; lia|].
    rewrite Z.pow_neg_r in H2 by lia. lia. }
  assert (Zdigits2 m - 1 < k). { apply (Z.pow_lt_mono_r_iff 2); lia. }
  assert (k - 1 < Zdigits2 m). { apply (Z.pow_lt_mono_r_iff 2); lia. }
  lia.
Qed.

Lemma Zdigits2_le m n : 0 <= m <= n -> Zdigits2 m <= Zdigits2 n.
Proof.
  intros [H1 H2]. destruct (Z.eq_dec m 0) as [->|Hm]; [apply Zdigits2_nonneg|].
  pose proof (Zdigits2_bounds m ltac:(lia)) as [B1 _].
  pose proof (Zdigits2_bounds n ltac:(lia)) as [_ B2].
  assert (Zdigits2 m - 1 < Zdigits2 n).
  { apply (Z.pow_lt_mono_r_iff 2); try lia. pose proof (Zdigits2_pos n); lia. }
  lia.
Qed.

Lemma Zdigits2_lt_pow m k : 0 <= m < 2 ^ k -> 0 <= k -> Zdigits2 m <= k.
Proof.
  intros [H1 H2] Hk. destruct (Z.eq_dec m 0) as [->|Hm]; [simpl; lia|].
  pose proof (Zdigits2_bounds m ltac:(lia)) as [B1 _].
  assert (Zdigits2 m - 1 < k) by (apply (Z.pow_lt_mono_r_iff 2); lia). lia.
Qed.

Lemma Zdigits2_ge_pow m k : 2 ^ k <= m -> 0 <= k -> k < Zdigits2 m.
Proof.
  intros H Hk. assert (0 < 2 ^ k) by (apply Z.pow_pos_nonneg; lia).
  pose proof (Zdigits2_bounds m ltac:(lia)) as [_ B2].
  apply (Z.pow_lt_mono_r_iff 2); try lia. pose proof (Zdigits2_pos m). lia.
Qed.

Lemma IZR_xO p : IZR (Zpos p~0) = (2 * IZR (Zpos p))%R.
Proof. change (Zpos p~0) with (2 * Zpos p). apply mult_IZR. Qed.

Lemma IZR_xI p : IZR (Zpos p~1) = (2 * IZR (Zpos p) + 1)%R.
Proof. change (Zpos p~1) with (2 * Zpos p + 1). rewrite plus_IZR, mult_IZR. reflexivity. Qed.

Lemma inbetween_bounds m l x : inbetween m l x -> (IZR m <= x < IZR m + 1)%R.
Proof. destruct l as [|[ | | ]]; simpl; intros; lra. Qed.

Lemma loc_of_shr_record_of_loc m l :
  loc_of_shr_record (shr_record_of_loc m l) = l.
Proof. destruct l as [|[ | | ]]; reflexivity. Qed.

Lemma shr_m_shr_record_of_loc m l : shr_m (shr_record_of_loc m l) = m.
Proof. destruct l as [|[ | | ]]; reflexivity. Qed.

Lemma shr_1_represents mrs x :
  represents mrs x -> represents (shr_1 mrs) (x / 2).
Proof.
  destruct mrs as [m r s]. unfold represents.
  cbn [shr_m]. intros [Hm H]. destruct m as [|p|p]; [| |lia].
  - destruct r, s; cbn [shr_1 orb shr_m loc_of_shr_record inbetween] in *;
      split; try lia; lra.
  - destruct p as [p|p|].
    + pose proof (IZR_xI p) as E.
      destruct r, s; cbn [shr_1 orb shr_m loc_of_shr_record inbetween] in *;
        split; try lia; lra.
    + pose proof (IZR_xO p) as E.
      destruct r, s; cbn [shr_1 orb shr_m loc_of_shr_record inbetween] in *;
        split; try lia; lra.
    + destruct r, s; cbn [shr_1 orb shr_m loc_of_shr_record inbetween] in *;
        split; try lia; lra.
Qed.

Lemma iter_pos_represents n : forall mrs x,
  represents mrs x ->
  represents (SpecFloat.iter_pos shr_1 n mrs) (x / bpow (Zpos n)).
Proof.
  induction n as [n IH|n IH|]; intros mrs x H; cbn [SpecFloat.iter_pos].
  - apply shr_1_represents in H. apply IH in H. apply IH in H.
    replace (x / bpow (Zpos n~1))%R with (x / 2 / bpow (Zpos n) / bpow (Zpos n))%R; [exact H|].
    rewrite Pos2Z.inj_xI. replace (2 * Zpos n + 1) with (Zpos n + Zpos n + 1) by lia.
    rewrite !bpow_add, bpow_1. pose proof (bpow_pos (Zpos n)). field. lra.
  - apply IH in H. apply IH in H.
    replace (x / bpow (Zpos n~0))%R with (x / bpow (Zpos n) / bpow (Zpos n))%R; [exact H|].
    rewrite Pos2Z.inj_xO. replace (2 * Zpos n) with (Zpos n + Zpos n) by lia.
    rewrite !bpow_add. pose proof (bpow_pos (Zpos n)). field. lra.
  - apply shr_1_represents in H. rewrite bpow_1. exact H.
Qed.

(** [shr]: the record after the shift represents the same number at the new
    exponent. *)
Lemma shr_represents mrs e n x :
  represents mrs x ->
  represents (fst (shr mrs e n)) (x * bpow (e - snd (shr mrs e n))) /\
  snd (shr mrs e n) = e + Z.max n 0.
Proof.
  intros H. destruct n as [|p|p]; cbn [shr fst snd].
  - replace (e - e) with 0 by lia. rewrite bpow_0, Rmult_1_r. split; [exact H|lia].
  - replace (e - (e + Zpos p)) with (- Zpos p) by lia. rewrite bpow_opp.
    split; [apply iter_pos_represents; exact H|lia].
  - replace (e - e) with 0 by lia. rewrite bpow_0, Rmult_1_r. split; [exact H|lia].
Qed.

Lemma shr_nonpos mrs e n : n <= 0 -> shr mrs e n = (mrs, e).
Proof. destruct n; try lia; reflexivity. Qed.

Lemma rne_spec m l x :
  inbetween m l x ->
  let r := round_nearest_even m l in
  m <= r <= m + 1 /\
  (- / 2 <= IZR r - x <= / 2)%R /\
  (forall K, (x <= IZR K)%R -> r <= K) /\
  (forall K, (IZR K <= x)%R -> K <= r) /\
  (l = loc_Exact -> r = m) /\
  ((IZR r - x = / 2)%R \/ (x - IZR r = / 2)%R -> Z.even r = true).
Proof.
  intros H r.
  assert (Hr : m <= r <= m + 1).
  { unfold r. destruct l as [|[ | | ]]; cbn [round_nearest_even]; try lia.
    match goal with |- context [if ?b then _ else _] => destruct b end; lia. }
  split; [exact Hr|].
  pose proof (inbetween_bounds _ _ _ H) as [B1 B2].
  split; [|split; [|split; [|split]]].
  - unfold r in *. destruct l as [|[ | | ]]; cbn [round_nearest_even inbetween] in *.
    + lra.
    + match goal with |- context [if ?b then _ else _] => destruct b end;
        [|rewrite plus_IZR]; lra.
    + lra.
    + rewrite plus_IZR. lra.
  - intros K HK.
    destruct (Z_le_gt_dec r K) as [|Hgt]; [assumption|exfalso].
    assert (HmK : m <= K) by (apply le_IZR; lra).
    assert (HKm : K = m) by lia. subst K.
    assert (Hr1 : r = m + 1) by lia.
    assert (Hx : x = IZR m) by lra.
    unfold r in Hr1. destruct l as [|[ | | ]];
      cbn [round_nearest_even inbetween] in *; try lra; try lia.
  - intros K HK.
    assert (HK1 : (IZR K < IZR (m + 1))%R) by (rewrite plus_IZR; lra).
    apply lt_IZR in HK1. lia.
  - intros ->. reflexivity.
  - unfold r in *. destruct l as [|[ | | ]]; cbn [round_nearest_even inbetween] in *.
    + lra.
    + destruct (Z.even m) eqn:Ev; intros _; [exact Ev|].
      rewrite Z.even_add, Ev. reflexivity.
    + lra.
    + rewrite plus_IZR. lra.
Qed.

Lemma rne_unique y a b :
  (- / 2 <= IZR a - y <= / 2)%R -> (- / 2 <= IZR b - y <= / 2)%R ->
  ((IZR a - y = / 2)%R \/ (y - IZR a = / 2)%R -> Z.even a = true) ->
  ((IZR b - y = / 2)%R \/ (y - IZR b = / 2)%R -> Z.even b = true) ->
  a = b.
Proof.
  intros Ha Hb Ea Eb.
  destruct (Z.eq_dec a b) as [|Hne]; [assumption|exfalso].
  assert (Hd : a = b + 1 \/ b = a + 1).
  { assert (H : (IZR a - IZR b <= 1)%R) by lra.
    assert (H0 : (IZR b - IZR a <= 1)%R) by lra.
    rewrite <- minus_IZR in H, H0. apply le_IZR in H, H0. lia. }
  destruct Hd as [Hd|Hd]; subst.
  - rewrite plus_IZR in *.
    assert (Hy : (y = IZR b + / 2)%R) by lra.
    rewrite Z.even_add in Ea.
    rewrite Eb in Ea by (right; lra). discriminate Ea. left. lra.
  - rewrite plus_IZR in *.
    assert (Hy : (y = IZR a + / 2)%R) by lra.
    rewrite Z.even_add in Eb.
    rewrite Ea in Eb by (right; lra). discriminate Eb. left. lra.
Qed.

Lemma fexp_val e : fexp prec emax e = Z.max (e - 53) (-1074).
Proof. reflexivity. Qed.

Lemma pow2_pos k : 0 <= k -> 0 < 2 ^ k.
Proof. intros. apply Z.pow_pos_nonneg; lia. Qed.

Lemma digits_shift q mx k :
  0 < k -> 0 <= q -> q * 2 ^ k <= mx < (q + 1) * 2 ^ k ->
  Zdigits2 q = Z.max 0 (Zdigits2 mx - k).
Proof.
  intros Hk Hq [H1 H2]. pose proof (pow2_pos k ltac:(lia)) as Hp.
  destruct (Z.eq_dec mx 0) as [->|Hmx].
  { assert (q = 0) by nia. subst q. simpl. lia. }
  assert (Hm : 0 < mx) by nia.
  pose proof (Zdigits2_bounds mx Hm) as [B1 B2].
  pose proof (Zdigits2_pos mx Hm) as Hd.
  destruct (Z_le_gt_dec (Zdigits2 mx) k) as [Hle|Hgt].
  - assert (2 ^ Zdigits2 mx <= 2 ^ k) by (apply Z.pow_le_mono_r; lia).
    assert (q = 0) by nia. subst q. simpl. lia.
  - rewrite Z.max_r by lia.
    assert (E : 2 ^ Zdigits2 mx = 2 ^ (Zdigits2 mx - k) * 2 ^ k)
      by (rewrite <- Z.pow_add_r by lia; f_equal; lia).
    assert (E' : 2 ^ (Zdigits2 mx - 1) = 2 ^ (Zdigits2 mx - k - 1) * 2 ^ k)
      by (rewrite <- Z.pow_add_r by lia; f_equal; lia).
    pose proof (pow2_pos (Zdigits2 mx - k - 1) ltac:(lia)).
    apply Zdigits2_unique; [split|]; nia.
Qed.

Lemma digits_succ q :
  0 <= q ->
  Zdigits2 (q + 1) = Zdigits2 q \/
  (Zdigits2 (q + 1) = Zdigits2 q + 1 /\ q + 1 = 2 ^ Zdigits2 q).
Proof.
  intros Hq. destruct (Z.eq_dec q 0) as [->|Hq0]; [right; split; reflexivity|].
  pose proof (Zdigits2_bounds q ltac:(lia)) as [B1 B2].
  pose proof (Zdigits2_pos q ltac:(lia)) as Hd.
  destruct (Z.eq_dec (q + 1) (2 ^ Zdigits2 q)) as [E|NE].
  - right. split; [|exact E]. apply Zdigits2_unique; [|lia].
    replace (Zdigits2 q + 1 - 1) with (Zdigits2 q) by lia.
    rewrite Z.pow_add_r by lia. change (2 ^ 1) with 2. lia.
  - left. apply Zdigits2_unique; lia.
Qed.

(** The first shift of [binary_round_aux]. *)
Lemma shr_fexp_spec mx ex lx x :
  0 <= mx -> inbetween mx lx x ->
  let r := shr_fexp prec emax mx ex lx in
  let q := shr_m (fst r) in
  let e' := snd r in
  e' = Z.max ex (fexp prec emax (Zdigits2 mx + ex)) /\
  represents (fst r) (x * bpow (ex - e')) /\
  fexp prec emax (Zdigits2 q + e') <= e' /\
  (ex <= fexp prec emax (Zdigits2 mx + ex) ->
   (q = 0 /\ e' = -1074) \/ (0 < q /\ fexp prec emax (Zdigits2 q + e') = e')) /\
  (lx = loc_Exact -> e' = ex -> fst r = Build_shr_record mx false false).
Proof.
  intros Hmx Hin r q e'.
  assert (Hrep0 : represents (shr_record_of_loc mx lx) x).
  { split; rewrite shr_m_shr_record_of_loc; [exact Hmx|].
    rewrite loc_of_shr_record_of_loc. exact Hin. }
  set (k := fexp prec emax (Zdigits2 mx + ex) - ex).
  pose proof (shr_represents _ ex k _ Hrep0) as [Hrep He].
  change (shr (shr_record_of_loc mx lx) ex k) with r in Hrep, He.
  change (snd r) with e' in Hrep, He.
  assert (He' : e' = Z.max ex (fexp prec emax (Zdigits2 mx + ex))) by (unfold k in He; lia).
  split; [exact He'|]. split; [exact Hrep|].
  destruct (Z_le_gt_dec k 0) as [Hk|Hk].
  - (* no shift *)
    assert (Er : r = (shr_record_of_loc mx lx, ex)).
    { unfold r, shr_fexp. fold k. apply shr_nonpos. exact Hk. }
    assert (Eq : q = mx) by (unfold q; rewrite Er; apply shr_m_shr_record_of_loc).
    assert (Ee : e' = ex) by (unfold e'; rewrite Er; reflexivity).
    rewrite Eq, Ee. unfold k in Hk. unfold fexp, emin, prec, emax in *. split; [lia|]. split.
    + intros Hside. destruct (Z.eq_dec mx 0) as [->|Hne].
      * left. split; [reflexivity|]. simpl Zdigits2 in *. unfold fexp, emin, prec, emax in *. lia.
      * right. split; lia.
    + intros -> _. rewrite Er. reflexivity.
  - (* a shift by k > 0 *)
    destruct Hrep as [Hq Hb]. fold q in Hq, Hb.
    apply inbetween_bounds in Hb. apply inbetween_bounds in Hin.
    assert (Ek : ex - e' = - k) by lia. rewrite Ek, bpow_opp in Hb.
    rewrite (bpow_IZR k) in Hb by lia.
    pose proof (pow2_pos k ltac:(lia)) as Hp. apply IZR_lt in Hp.
    assert (Hb1 : (IZR q * IZR (2 ^ k) <= x)%R).
    { destruct Hb as [Hb _]. apply (Rmult_le_compat_r (IZR (2 ^ k))) in Hb; [|lra].
      rewrite Rmult_assoc, Rinv_l, Rmult_1_r in Hb by lra. exact Hb. }
    assert (Hb2 : (x < (IZR q + 1) * IZR (2 ^ k))%R).
    { destruct Hb as [_ Hb]. apply (Rmult_lt_compat_r (IZR (2 ^ k))) in Hb; [|lra].
      rewrite Rmult_assoc, Rinv_l, Rmult_1_r in Hb by lra. exact Hb. }
    assert (Z1 : q * 2 ^ k <= mx).
    { assert (IZR (q * 2 ^ k) < IZR (mx + 1))%R by (rewrite mult_IZR, plus_IZR; lra).
      apply lt_IZR in H. lia. }
    assert (Z2 : mx < (q + 1) * 2 ^ k).
    { apply lt_IZR. rewrite mult_IZR, plus_IZR. lra. }
    pose proof (digits_shift q mx k ltac:(lia) Hq (conj Z1 Z2)) as Hd.
    pose proof (Zdigits2_nonneg mx) as Hdn.
    rewrite Hd. unfold k in *. unfold fexp, emin, prec, emax in *.
    split; [lia|]. split.
    + intros _. destruct (Z.eq_dec q 0) as [Hq0|Hq0].
      * left. split; [exact Hq0|]. rewrite Hq0 in Hd. simpl Zdigits2 in Hd. lia.
      * right. split; [lia|].
        assert (0 < Zdigits2 q) by (apply Zdigits2_pos; lia). lia.
    + intros _ E. lia.
Qed.

Lemma shr_fexp_fst_snd mx ex lx :
  shr_fexp prec emax mx ex lx =
  shr (shr_record_of_loc mx lx) ex (fexp prec emax (Zdigits2 mx + ex) - ex).
Proof. reflexivity. Qed.

(** The second shift of [binary_round_aux] loses nothing. *)
Lemma second_shift q m1 e' :
  0 <= q -> q <= m1 <= q + 1 -> fexp prec emax (Zdigits2 q + e') <= e' ->
  let r2 := shr_fexp prec emax m1 e' loc_Exact in
  let m2 := shr_m (fst r2) in
  let e2 := snd r2 in
  0 <= m2 /\ (IZR m2 * bpow e2 = IZR m1 * bpow e')%R /\ (m2 = 0 <-> m1 = 0) /\
  e' <= e2 /\
  ((q = 0 /\ e' = -1074) \/ (0 < q /\ fexp prec emax (Zdigits2 q + e') = e') ->
   m2 = 0 \/ fexp prec emax (Zdigits2 m2 + e2) = e2) /\
  (fexp prec emax (Zdigits2 m1 + e') <= e' -> m2 = m1 /\ e2 = e').
Proof.
  intros Hq Hm1 Hf r2 m2 e2.
  set (k2 := fexp prec emax (Zdigits2 m1 + e') - e').
  assert (Hdq : Zdigits2 m1 = Zdigits2 q \/
                (Zdigits2 m1 = Zdigits2 q + 1 /\ m1 = 2 ^ Zdigits2 q /\ m1 = q + 1)).
  { destruct (Z.eq_dec m1 q) as [->|Hne]; [left; reflexivity|].
    assert (m1 = q + 1) by lia. subst m1.
    destruct (digits_succ q Hq) as [E|[E1 E2]]; [left; exact E|right; auto]. }
  pose proof (Zdigits2_nonneg q) as Hdn.
  destruct (Z_le_gt_dec k2 0) as [Hk|Hk].
  - assert (Er : r2 = (Build_shr_record m1 false false, e')).
    { unfold r2. rewrite shr_fexp_fst_snd. fold k2. apply shr_nonpos. exact Hk. }
    assert (Em : m2 = m1) by (unfold m2; rewrite Er; reflexivity).
    assert (Ee : e2 = e') by (unfold e2; rewrite Er; reflexivity).
    rewrite Em, Ee. split; [lia|]. split; [reflexivity|]. split; [tauto|].
    split; [lia|]. split; [|auto].
    intros Hcan. destruct (Z.eq_dec m1 0) as [|Hne]; [left; assumption|right].
    unfold k2 in Hk. destruct Hdq as [E|[E1 [E2 E3]]].
    + rewrite E. destruct Hcan as [[Hq0 He]|[Hq0 Hc]]; [|exact Hc].
      rewrite Hq0 in *. simpl Zdigits2 in E. pose proof (Zdigits2_pos m1 ltac:(lia)). lia.
    + rewrite E1 in *. unfold fexp, emin, prec, emax in *.
      destruct Hcan as [[Hq0 He]|[Hq0 Hc]]; lia.
  - (* the rounded mantissa has one digit too many: it is a power of two *)
    assert (Hk1 : k2 = 1 /\ Zdigits2 m1 = Zdigits2 q + 1 /\ m1 = 2 ^ Zdigits2 q /\ 0 < Zdigits2 q).
    { unfold k2 in *. unfold fexp, emin, prec, emax in *.
      destruct Hdq as [E|[E1 [E2 E3]]]; [rewrite E in *; lia|].
      rewrite E1 in *. repeat split; try lia; try assumption. }
    destruct Hk1 as [Ek [Ed [Ep Hdpos]]].
    assert (Ep' : m1 = 2 * 2 ^ (Zdigits2 q - 1)).
    { rewrite Ep. replace (Zdigits2 q) with (1 + (Zdigits2 q - 1)) at 1 by lia.
      rewrite Z.pow_add_r by lia. reflexivity. }
    pose proof (pow2_pos (Zdigits2 q - 1) ltac:(lia)) as Hpp.
    destruct (2 ^ (Zdigits2 q - 1)) as [|t|t] eqn:Et; try lia.
    assert (Er : r2 = (Build_shr_record (Zpos t) false false, e' + 1)).
    { unfold r2. rewrite shr_fexp_fst_snd. fold k2. rewrite Ek, Ep'. reflexivity. }
    assert (Em : m2 = Zpos t) by (unfold m2; rewrite Er; reflexivity).
    assert (Ee : e2 = e' + 1) by (unfold e2; rewrite Er; reflexivity).
    rewrite Em, Ee. split; [lia|]. split.
    { rewrite Ep', mult_IZR, bpow_succ. lra. }
    split; [split; lia|]. split; [lia|]. split.
    + intros _. right. rewrite <- Et.
      rewrite (Zdigits2_unique (2 ^ (Zdigits2 q - 1)) (Zdigits2 q)); [| |lia].
      * unfold k2 in Ek. rewrite Ed in Ek. unfold fexp, emin, prec, emax in *. lia.
      * split; [lia|]. replace (Zdigits2 q) with (1 + (Zdigits2 q - 1)) at 2 by lia.
        rewrite Z.pow_add_r by lia. change (2 ^ 1) with 2. lia.
    + intros Hle. unfold k2 in Hk. lia.
Qed.

Lemma binary_round_aux_unfold sx mx ex lx :
  binary_round_aux prec emax sx mx ex lx =
  let r1 := shr_fexp prec emax mx ex lx in
  round_finish sx
    (round_nearest_even (shr_m (fst r1)) (loc_of_shr_record (fst r1)))
    (snd r1).
Proof.
  unfold binary_round_aux, round_finish.
  destruct (shr_fexp prec emax mx ex lx) as [mrs' e'].
  cbn [fst snd].
  destruct (shr_fexp prec emax _ e' loc_Exact) as [mrs'' e''].
  reflexivity.
Qed.

(** What [binary_round_aux] computes from a mantissa [mx] with location [lx]
    standing for the real [x], at exponent [ex]: the mantissa [m1] nearest
    to the number at the exponent [e1], ties to even. *)
Lemma binary_round_aux_spec sx mx ex lx x :
  0 <= mx -> inbetween mx lx x ->
  let e1 := Z.max ex (fexp prec emax (Zdigits2 mx + ex)) in
  let y := (x * bpow (ex - e1))%R in
  exists m1 : Z,
    0 <= m1 /\
    (- / 2 <= IZR m1 - y <= / 2)%R /\
    ((IZR m1 - y = / 2)%R \/ (y - IZR m1 = / 2)%R -> Z.even m1 = true) /\
    (forall K, (y <= IZR K)%R -> m1 <= K) /\
    (forall K, (IZR K <= y)%R -> K <= m1) /\
    (lx = loc_Exact -> e1 = ex -> m1 = mx) /\
    binary_round_aux prec emax sx mx ex lx = round_finish sx m1 e1 /\
    match binary_round_aux prec emax sx mx ex lx with
    | S754_zero s => s = sx /\ m1 = 0
    | S754_finite s m e =>
        s = sx /\ 0 < m1 /\
        (IZR (Zpos m) * bpow e = IZR m1 * bpow e1)%R /\
        e <= 971 /\ e1 <= e /\
        (ex <= fexp prec emax (Zdigits2 mx + ex) ->
         fexp prec emax (Zdigits2 (Zpos m) + e) = e)
    | S754_infinity s =>
        s = sx /\ 0 < m1 /\
        (bpow 972 <= IZR m1 * bpow e1)%R /\
        (ex <= fexp prec emax (Zdigits2 mx + ex) ->
         (bpow 1024 <= IZR m1 * bpow e1)%R)
    | S754_nan => False
    end.
Proof.
  intros Hmx Hin e1 y.
  rewrite binary_round_aux_unfold. cbv zeta.
  pose proof (shr_fexp_spec mx ex lx x Hmx Hin) as H1. cbv zeta in H1.
  set (r1 := shr_fexp prec emax mx ex lx) in *.
  set (q := shr_m (fst r1)) in *. set (e' := snd r1) in *.
  destruct H1 as [He' [Hrep [Hf [Hcan Hex]]]].
  assert (Ee1 : e' = e1) by exact He'.
  set (m1 := round_nearest_even q (loc_of_shr_record (fst r1))) in *.
  destruct Hrep as [Hq Hb]. fold q in Hq, Hb.
  pose proof (rne_spec q _ _ Hb) as Hr. cbv zeta in Hr. fold m1 in Hr.
  destruct Hr as [Hm1 [Habs [Hup [Hlo [Hexr Htie]]]]].
  pose proof (second_shift q m1 e' Hq Hm1 Hf) as H2. cbv zeta in H2.
  unfold round_finish.
  set (r2 := shr_fexp prec emax m1 e' loc_Exact) in *.
  set (m2 := shr_m (fst r2)) in *. set (e2 := snd r2) in *.
  destruct H2 as [Hm2 [Hval [Hz [Hee [Hcan2 Hsame]]]]].
  exists m1.
  split; [lia|]. rewrite Ee1 in Habs, Hup, Hlo, Htie. fold y in Habs, Hup, Hlo, Htie.
  split; [exact Habs|]. split; [exact Htie|].
  split; [exact Hup|]. split; [exact Hlo|].
  split.
  { intros El Ee. rewrite Ee1 in Hex. specialize (Hex El Ee).
    unfold m1, q. rewrite Hex. reflexivity. }
  split.
  { unfold round_finish. fold e1. rewrite <- Ee1. reflexivity. }
  rewrite Ee1 in Hval, Hee, Hcan, Hcan2.
  clearbody m2 e2. destruct m2 as [|m|m]; [| |lia].
  - split; [reflexivity|]. apply Hz. reflexivity.
  - assert (Hm1pos : 0 < m1).
    { destruct (Z.eq_dec m1 0) as [E0|]; [|lia]. apply Hz in E0. discriminate. }
    destruct (e2 <=? emax - prec) eqn:Ele.
    + apply Z.leb_le in Ele. unfold emax, prec in Ele.
      split; [reflexivity|]. split; [exact Hm1pos|]. split; [exact Hval|].
      split; [lia|]. split; [lia|].
      intros Hside. destruct (Hcan2 (Hcan Hside)) as [|E]; [discriminate|exact E].
    + apply Z.leb_gt in Ele. unfold emax, prec in Ele.
      split; [reflexivity|]. split; [exact Hm1pos|].
      rewrite <- Hval. split.
      * assert (1 <= IZR (Zpos m))%R by (apply IZR_le; lia).
        assert (bpow 972 <= bpow e2)%R by (apply bpow_le; lia).
        pose proof (bpow_pos e2). nra.
      * intros Hside. destruct (Hcan2 (Hcan Hside)) as [|E]; [discriminate|].
        unfold fexp, emin, prec, emax in E.
        assert (Hd : Zdigits2 (Zpos m) = 53) by lia.
        pose proof (Zdigits2_bounds (Zpos m) ltac:(lia)) as [B _]. rewrite Hd in B.
        apply IZR_le in B. rewrite <- (bpow_IZR (53 - 1)) in B by lia.
        assert (bpow 972 <= bpow e2)%R by (apply bpow_le; lia).
        replace 1024 with (52 + 972) by reflexivity. rewrite bpow_add.
        pose proof (bpow_pos 972). pose proof (bpow_pos (53 - 1)).
        change (53 - 1) with 52 in *. nra.
Qed.

Lemma fexp_mono a b : a <= b -> fexp prec emax a <= fexp prec emax b.
Proof. unfold fexp, emin, prec, emax. lia. Qed.

Lemma fexp_ge_emin a : -1074 <= fexp prec emax a.
Proof. unfold fexp, emin, prec, emax. lia. Qed.

(** The exponent at which the rounding takes place is fixed by the
    magnitude of the number. *)
Lemma round_exponent_bounds mx ex lx x :
  0 <= mx -> inbetween mx lx x ->
  ex <= fexp prec emax (Zdigits2 mx + ex) ->
  let e1 := fexp prec emax (Zdigits2 mx + ex) in
  let v := (x * bpow ex)%R in
  (forall g, (v < bpow g)%R -> e1 <= fexp prec emax g) /\
  (forall g, (bpow (g - 1) <= v)%R -> fexp prec emax g <= e1).
Proof.
  intros Hmx Hin Hside e1 v.
  apply inbetween_bounds in Hin. destruct Hin as [B1 B2].
  pose proof (bpow_pos ex) as Hex.
  destruct (Z.eq_dec mx 0) as [E0|Hne].
  - subst mx. simpl Zdigits2 in *. 
    assert (He : ex <= -1074) by (unfold fexp, emin, prec, emax in Hside; lia).
    assert (Ee1 : e1 = -1074) by (unfold e1, fexp, emin, prec, emax; lia).
    split; intros g Hg.
    + rewrite Ee1. apply fexp_ge_emin.
    + assert (v < bpow ex)%R by (unfold v; simpl IZR in *; nra).
      assert (g - 1 < ex) by (apply bpow_lt_inv; lra).
      rewrite Ee1. unfold fexp, emin, prec, emax. lia.
  - pose proof (Zdigits2_bounds mx ltac:(lia)) as [D1 D2].
    pose proof (Zdigits2_pos mx ltac:(lia)) as Hd.
    apply IZR_le in D1. assert (D2' : mx + 1 <= 2 ^ Zdigits2 mx) by lia.
    apply IZR_le in D2'. rewrite plus_IZR in D2'.
    rewrite <- (bpow_IZR (Zdigits2 mx - 1)) in D1 by lia.
    rewrite <- (bpow_IZR (Zdigits2 mx)) in D2' by lia.
    assert (V1 : (bpow (Zdigits2 mx + ex - 1) <= v)%R).
    { replace (Zdigits2 mx + ex - 1) with (Zdigits2 mx - 1 + ex) by lia.
      rewrite bpow_add. unfold v. nra. }
    assert (V2 : (v < bpow (Zdigits2 mx + ex))%R).
    { rewrite bpow_add. unfold v. nra. }
    split; intros g Hg; apply fexp_mono.
    + assert (Zdigits2 mx + ex - 1 < g) by (apply bpow_lt_inv; lra). lia.
    + assert (g - 1 < Zdigits2 mx + ex) by (apply bpow_lt_inv; lra). lia.
Qed.

Lemma value_lt_bpow_digits mx ex lx x :
  0 <= mx -> inbetween mx lx x ->
  (x * bpow ex < bpow (Zdigits2 mx + ex))%R.
Proof.
  intros Hmx Hin. apply inbetween_bounds in Hin. destruct Hin as [B1 B2].
  pose proof (bpow_pos ex) as Hex. rewrite bpow_add.
  pose proof (Zdigits2_nonneg mx) as Hd.
  rewrite (bpow_IZR (Zdigits2 mx)) by lia.
  assert (H : mx + 1 <= 2 ^ Zdigits2 mx).
  { destruct (Z.eq_dec mx 0) as [->|Hne]; [simpl; lia|].
    pose proof (Zdigits2_bounds mx ltac:(lia)). lia. }
  apply IZR_le in H. rewrite plus_IZR in H. nra.
Qed.

Lemma binary_round_aux_same_value sx mx ex lx x mx' ex' lx' x' :
  0 <= mx -> inbetween mx lx x ->
  ex <= fexp prec emax (Zdigits2 mx + ex) ->
  0 <= mx' -> inbetween mx' lx' x' ->
  ex' <= fexp prec emax (Zdigits2 mx' + ex') ->
  (x * bpow ex = x' * bpow ex')%R ->
  binary_round_aux prec emax sx mx ex lx =
  binary_round_aux prec emax sx mx' ex' lx'.
Proof.
  intros Hmx Hin Hs Hmx' Hin' Hs' Hv.
  pose proof (round_exponent_bounds mx ex lx x Hmx Hin Hs) as [U _].
  pose proof (round_exponent_bounds mx' ex' lx' x' Hmx' Hin' Hs') as [U' _].
  cbv zeta in U, U'.
  pose proof (value_lt_bpow_digits mx ex lx x Hmx Hin) as V.
  pose proof (value_lt_bpow_digits mx' ex' lx' x' Hmx' Hin') as V'.
  assert (Ee : fexp prec emax (Zdigits2 mx + ex) =
               fexp prec emax (Zdigits2 mx' + ex')).
  { apply Z.le_antisymm; [apply U; rewrite Hv; exact V'|apply U'; rewrite <- Hv; exact V]. }
  destruct (binary_round_aux_spec sx mx ex lx x Hmx Hin)
    as [m1 [_ [A1 [T1 [_ [_ [_ [R1 _]]]]]]]].
  destruct (binary_round_aux_spec sx mx' ex' lx' x' Hmx' Hin')
    as [m1' [_ [A1' [T1' [_ [_ [_ [R1' _]]]]]]]].
  rewrite Z.max_r in A1, T1, R1 by exact Hs.
  rewrite Z.max_r in A1', T1', R1' by exact Hs'.
  rewrite R1, R1', <- Ee.
  rewrite <- Ee in A1', T1'.
  assert (Ey : (x * bpow (ex - fexp prec emax (Zdigits2 mx + ex)) =
                x' * bpow (ex' - fexp prec emax (Zdigits2 mx + ex)))%R).
  { unfold Z.sub. rewrite !bpow_add, <- !Rmult_assoc, Hv. reflexivity. }
  rewrite <- Ey in A1', T1'.
  rewrite (rne_unique _ m1 m1' A1 A1' T1 T1'). reflexivity.
Qed.

Lemma rounds_to_fun sx v r r' : rounds_to sx v r -> rounds_to sx v r' -> r = r'.
Proof.
  intros [mx [ex [lx [x [H1 [H2 [H3 [H4 H5]]]]]]]]
         [mx' [ex' [lx' [x' [H1' [H2' [H3' [H4' H5']]]]]]]].
  subst r r'. apply (binary_round_aux_same_value sx mx ex lx x mx' ex' lx' x'); auto.
  rewrite <- H4, <- H4'. reflexivity.
Qed.

(** What is known of the result of a rounding. *)
Lemma rounds_to_spec sx v res :
  rounds_to sx v res ->
  exists m1 e1,
    0 <= m1 /\ -1074 <= e1 /\
    (- / 2 <= IZR m1 - v * bpow (- e1) <= / 2)%R /\
    (forall K, (v * bpow (- e1) <= IZR K)%R -> m1 <= K) /\
    (forall K, (IZR K <= v * bpow (- e1))%R -> K <= m1) /\
    (forall g, (v < bpow g)%R -> e1 <= fexp prec emax g) /\
    (forall g, (bpow (g - 1) <= v)%R -> fexp prec emax g <= e1) /\
    match res with
    | S754_zero s => s = sx /\ m1 = 0
    | S754_finite s m e =>
        s = sx /\ 0 < m1 /\
        (IZR (Zpos m) * bpow e = IZR m1 * bpow e1)%R /\
        e <= 971 /\ e1 <= e /\
        fexp prec emax (Zdigits2 (Zpos m) + e) = e
    | S754_infinity s =>
        s = sx /\ 0 < m1 /\ (bpow 1024 <= IZR m1 * bpow e1)%R
    | S754_nan => False
    end.
Proof.
  intros [mx [ex [lx [x [Hmx [Hin [Hs [Hv Hr]]]]]]]].
  destruct (binary_round_aux_spec sx mx ex lx x Hmx Hin)
    as [m1 [P1 [A1 [T1 [Up [Lo [_ [_ M]]]]]]]].
  pose proof (round_exponent_bounds mx ex lx x Hmx Hin Hs) as [U L].
  cbv zeta in U, L.
  rewrite Z.max_r in A1, T1, Up, Lo, M by exact Hs.
  set (e1 := fexp prec emax (Zdigits2 mx + ex)) in *.
  assert (Ey : (x * bpow (ex - e1) = v * bpow (- e1))%R).
  { unfold Z.sub. rewrite bpow_add, Hv. lra. }
  rewrite Ey in A1, Up, Lo.
  exists m1, e1. split; [exact P1|]. split; [apply fexp_ge_emin|].
  split; [exact A1|]. split; [exact Up|]. split; [exact Lo|].
  rewrite Hv. split; [exact U|]. split; [exact L|].
  rewrite Hr. destruct (binary_round_aux prec emax sx mx ex lx); tauto.
Qed.

Lemma Zdigits2_mul_pow2 m k :
  0 < m -> 0 <= k -> Zdigits2 (m * 2 ^ k) = Zdigits2 m + k.
Proof.
  intros Hm Hk. pose proof (Zdigits2_bounds m Hm) as [B1 B2].
  pose proof (Zdigits2_pos m Hm) as Hd. pose proof (pow2_pos k Hk) as Hp.
  apply Zdigits2_unique; [|nia].
  replace (Zdigits2 m + k - 1) with (Zdigits2 m - 1 + k) by lia.
  rewrite !Z.pow_add_r by lia. nia.
Qed.

Lemma iter_xO m d : Zpos (Pos.iter xO m d) = Zpos m * 2 ^ Zpos d.
Proof.
  revert m. induction d using Pos.peano_ind; intros m.
  - cbn [Pos.iter]. rewrite Pos2Z.inj_xO. change (2 ^ 1) with 2. lia.
  - rewrite Pos.iter_succ, Pos2Z.inj_xO, IHd, Pos2Z.inj_succ, Z.pow_succ_r by lia. lia.
Qed.

Lemma shl_align_spec m e e' :
  let r := shl_align m e e' in
  snd r = Z.min e e' /\ Zpos (fst r) = Zpos m * 2 ^ (e - snd r).
Proof.
  unfold shl_align. destruct (e' - e) as [|d|d] eqn:E; cbn [fst snd].
  - split; [lia|]. rewrite Z.sub_diag. simpl. lia.
  - split; [lia|]. rewrite Z.sub_diag. simpl. lia.
  - split; [lia|]. rewrite iter_xO. f_equal. f_equal. lia.
Qed.

Lemma binary_round_rounds sx m e :
  rounds_to sx (IZR (Zpos m) * bpow e) (binary_round prec emax sx m e).
Proof.
  unfold binary_round.
  pose proof (shl_align_spec m e (fexp prec emax (Zpos (digits2_pos m) + e))) as H.
  cbv zeta in H.
  destruct (shl_align m e (fexp prec emax (Zpos (digits2_pos m) + e))) as [mz ez].
  cbn [fst snd] in H. destruct H as [He Hm].
  exists (Zpos mz), ez, loc_Exact, (IZR (Zpos mz)).
  split; [lia|]. split; [reflexivity|].
  assert (Hd : Zdigits2 (Zpos mz) + ez = Zpos (digits2_pos m) + e).
  { rewrite Hm, Zdigits2_mul_pow2 by lia. simpl Zdigits2. lia. }
  split; [rewrite Hd; lia|]. split; [|reflexivity].
  rewrite Hm, mult_IZR, <- (bpow_IZR (e - ez)) by lia.
  rewrite Rmult_assoc, <- bpow_add. do 2 f_equal. lia.
Qed.

Lemma float_of_int_rounds n :
  n <> 0 ->
  rounds_to (n <? 0) (IZR (Z.abs n)) (binary_normalize prec emax n 0 false).
Proof.
  intros Hn. destruct n as [|p|p]; [congruence| |]; cbn [binary_normalize Z.ltb Z.compare Z.abs].
  - replace (IZR (Zpos p)) with (IZR (Zpos p) * bpow 0)%R by (rewrite bpow_0; lra).
    apply binary_round_rounds.
  - replace (IZR (Zpos p)) with (IZR (Zpos p) * bpow 0)%R by (rewrite bpow_0; lra).
    apply binary_round_rounds.
Qed.

Lemma Zdigits2_mul_ge a b :
  0 < a -> 0 < b -> Zdigits2 a + Zdigits2 b - 1 <= Zdigits2 (a * b).
Proof.
  intros Ha Hb.
  pose proof (Zdigits2_bounds a Ha) as [A1 _]. pose proof (Zdigits2_bounds b Hb) as [B1 _].
  pose proof (Zdigits2_pos a Ha). pose proof (Zdigits2_pos b Hb).
  assert (2 ^ (Zdigits2 a - 1 + (Zdigits2 b - 1)) <= a * b).
  { rewrite Z.pow_add_r by lia.
    pose proof (pow2_pos (Zdigits2 a - 1) ltac:(lia)).
    pose proof (pow2_pos (Zdigits2 b - 1) ltac:(lia)). nia. }
  apply Zdigits2_ge_pow in H1; lia.
Qed.

Lemma fmul_rounds sx mx ex sy my ey :
  canonical (S754_finite sx mx ex) -> canonical (S754_finite sy my ey) ->
  rounds_to (xorb sx sy)
    (IZR (Zpos mx) * bpow ex * (IZR (Zpos my) * bpow ey))
    (fmul (S754_finite sx mx ex) (S754_finite sy my ey)).
Proof.
  intros Cx Cy. unfold fmul, SFmul.
  exists (Zpos (mx * my)), (ex + ey), loc_Exact, (IZR (Zpos (mx * my))).
  split; [lia|]. split; [reflexivity|]. split; [|split; [|reflexivity]].
  - pose proof (Zdigits2_mul_ge (Zpos mx) (Zpos my) ltac:(lia) ltac:(lia)) as Hd.
    rewrite <- Pos2Z.inj_mul in Hd.
    pose proof (Zdigits2_pos (Zpos mx) ltac:(lia)).
    pose proof (Zdigits2_pos (Zpos my) ltac:(lia)).
    unfold canonical, fexp, emin, prec, emax in *. lia.
  - rewrite Pos2Z.inj_mul, mult_IZR, bpow_add. lra.
Qed.

Lemma new_location_spec m2 r :
  0 <= r < m2 -> inbetween 0 (new_location m2 r) (IZR r / IZR m2).
Proof.
  intros [Hr Hm].
  assert (Hm2 : (0 < IZR m2)%R) by (apply IZR_lt; lia).
  set (t := (IZR r / IZR m2)%R).
  assert (Et : (t * IZR m2 = IZR r)%R) by (unfold t; field; lra).
  assert (Hr' : (0 <= IZR r < IZR m2)%R) by (split; [apply IZR_le|apply IZR_lt]; lia).
  unfold new_location, new_location_even, new_location_odd.
  destruct (Z.eq_dec r 0) as [E0|Hne].
  { assert (Et0 : t = IZR 0) by (unfold t, Rdiv; rewrite E0; apply Rmult_0_l).
    rewrite E0. destruct (Z.even m2); cbn [Z.eqb inbetween]; exact Et0. }
  assert (Hrpos : (0 < IZR r)%R) by (apply IZR_lt; lia).
  assert (E0 : Z.eqb r 0 = false) by (apply Z.eqb_neq; exact Hne).
  destruct (Z.even m2) eqn:Ev; cbv beta; rewrite E0.
  - destruct (Z.compare_spec (2 * r) m2) as [E|E|E]; cbn [inbetween].
    + apply (f_equal IZR) in E. rewrite mult_IZR in E.
      apply (Rmult_eq_reg_r (IZR m2)); [|lra]. rewrite Et. lra.
    + apply IZR_lt in E. rewrite mult_IZR in E. split; nra.
    + apply IZR_lt in E. rewrite mult_IZR in E. split; nra.
  - assert (Hodd : 2 * r <> m2).
    { intros E. rewrite <- E, Z.even_mul in Ev. discriminate Ev. }
    destruct (Z.compare_spec (2 * r + 1) m2) as [E|E|E]; cbn [inbetween].
    + assert (E' : 2 * r < m2) by lia. apply IZR_lt in E'. rewrite mult_IZR in E'. split; nra.
    + assert (E' : 2 * r < m2) by lia. apply IZR_lt in E'. rewrite mult_IZR in E'. split; nra.
    + assert (E' : m2 < 2 * r) by lia. apply IZR_lt in E'. rewrite mult_IZR in E'. split; nra.
Qed.

Lemma inbetween_shift q l t :
  inbetween 0 l t -> inbetween q l (IZR q + t).
Proof. destruct l as [|[ | | ]]; cbn [inbetween]; intros; lra. Qed.

Lemma SFdiv_core_spec m1 e1 m2 e2 :
  let r := SFdiv_core_binary prec emax (Zpos m1) e1 (Zpos m2) e2 in
  let q := fst (fst r) in
  let e' := snd (fst r) in
  0 <= q /\ e' <= fexp prec emax (Zdigits2 q + e') /\
  exists x, inbetween q (snd r) x /\
    (x * bpow e' = IZR (Zpos m1) * bpow e1 / (IZR (Zpos m2) * bpow e2))%R.
Proof.
  unfold SFdiv_core_binary.
  set (d1 := Zdigits2 (Zpos m1)). set (d2 := Zdigits2 (Zpos m2)).
  set (e' := Z.min (fexp prec emax (d1 + e1 - (d2 + e2))) (e1 - e2)).
  set (s := e1 - e2 - e').
  assert (Hs : 0 <= s) by (unfold s, e'; lia).
  set (m' := match s with Z.pos _ => Z.shiftl (Zpos m1) s | 0 => Zpos m1 | Z.neg _ => 0 end).
  assert (Em' : m' = Zpos m1 * 2 ^ s).
  { unfold m'. destruct s as [|p|p] eqn:Es; [simpl; lia| |lia].
    rewrite Z.shiftl_mul_pow2 by lia. reflexivity. }
  pose proof (Z_div_mod m' (Zpos m2) ltac:(lia)) as Hdiv.
  destruct (Z.div_eucl m' (Zpos m2)) as [q r]. destruct Hdiv as [Hm' Hr].
  cbv zeta. cbn [fst snd].
  pose proof (pow2_pos s Hs) as Hp.
  assert (Hq : 0 <= q) by nia.
  split; [exact Hq|]. split.
  - (* enough digits *)
    pose proof (Zdigits2_bounds (Zpos m1) ltac:(lia)) as [A1 A2].
    pose proof (Zdigits2_bounds (Zpos m2) ltac:(lia)) as [B1 B2].
    fold d1 in A1, A2. fold d2 in B1, B2.
    assert (Hd1 : 0 < d1) by (apply Zdigits2_pos; lia).
    assert (Hd2 : 0 < d2) by (apply Zdigits2_pos; lia).
    pose proof (Zdigits2_nonneg q) as Hdq.
    assert (HD : d1 + e1 - (d2 + e2) <= Z.max (Zdigits2 q + e') e').
    { destruct (Z_le_gt_dec (d1 + s - d2) 0) as [Hle|Hgt]; [unfold s in Hle; lia|].
      assert (2 ^ (d1 + s - d2 - 1) <= q).
      { assert (E1 : 2 ^ (d1 - 1 + s) = 2 ^ (d1 + s - d2 - 1) * 2 ^ d2)
          by (rewrite <- Z.pow_add_r by lia; f_equal; lia).
        assert (E2 : 2 ^ (d1 - 1 + s) = 2 ^ (d1 - 1) * 2 ^ s)
          by (rewrite <- Z.pow_add_r by lia; reflexivity).
        pose proof (pow2_pos (d1 + s - d2 - 1) ltac:(lia)).
        nia. }
      apply Zdigits2_ge_pow in H; [|lia]. unfold s in *. lia. }
    assert (fexp prec emax (d1 + e1 - (d2 + e2)) <= fexp prec emax (Z.max (Zdigits2 q + e') e'))
      by (apply fexp_mono; exact HD).
    assert (fexp prec emax (Z.max (Zdigits2 q + e') e') = fexp prec emax (Zdigits2 q + e'))
      by (f_equal; lia).
    unfold e' in *. lia.
  - exists (IZR q + IZR r / IZR (Zpos m2))%R. split.
    + apply inbetween_shift. apply new_location_spec. exact Hr.
    + assert (Hm2 : (0 < IZR (Zpos m2))%R) by (apply IZR_lt; lia).
      pose proof (bpow_pos e2). pose proof (bpow_pos e1).
      assert (E : (IZR q + IZR r / IZR (Zpos m2) = IZR (Zpos m1) * bpow s / IZR (Zpos m2))%R).
      { rewrite (bpow_IZR s) by lia. rewrite <- mult_IZR, <- Em', Hm'.
        rewrite plus_IZR, mult_IZR. field. lra. }
      assert (E1 : (bpow e1 = bpow s * bpow e' * bpow e2)%R).
      { rewrite <- !bpow_add. f_equal. unfold s. lia. }
      rewrite E, E1. field. split; lra.
Qed.

Lemma fdiv_rounds sx mx ex sy my ey :
  rounds_to (xorb sx sy)
    (IZR (Zpos mx) * bpow ex / (IZR (Zpos my) * bpow ey))
    (fdiv (S754_finite sx mx ex) (S754_finite sy my ey)).
Proof.
  unfold fdiv, SFdiv.
  pose proof (SFdiv_core_spec mx ex my ey) as H. cbv zeta in H.
  destruct (SFdiv_core_binary prec emax (Zpos mx) ex (Zpos my) ey) as [[q e'] l].
  cbn [fst snd] in H. destruct H as [Hq [Hs [x [Hin Hv]]]].
  exists q, e', l, x. auto.
Qed.

Lemma rounds_to_not_nan sx v : ~ rounds_to sx v S754_nan.
Proof.
  intros H. destruct (rounds_to_spec _ _ _ H) as [m1 [e1 [_ [_ [_ [_ [_ [_ [_ M]]]]]]]]].
  exact M.
Qed.

Lemma bpow_mul_IZR (K : Z) (g e1 : Z) :
  e1 <= g -> (bpow g * bpow (- e1) = IZR (2 ^ (g - e1)))%R.
Proof.
  intros H. rewrite <- bpow_add. rewrite <- bpow_IZR by lia. f_equal.
Qed.

(** A rounding does not cross a power of two above the number. *)
Lemma round_le_bpow sx v res g :
  rounds_to sx v res -> (v <= bpow g)%R -> -1074 <= g <= 1023 ->
  match res with
  | S754_zero s => s = sx
  | S754_finite s m e =>
      s = sx /\ (IZR (Zpos m) * bpow e <= bpow g)%R /\ canonical res
  | _ => False
  end.
Proof.
  intros H Hv Hg.
  destruct (rounds_to_spec _ _ _ H) as [m1 [e1 [P [E [A [Up [Lo [U [L M]]]]]]]]].
  assert (He1 : e1 <= g).
  { assert (e1 <= fexp prec emax (g + 1)).
    { apply U. pose proof (bpow_lt g (g + 1) ltac:(lia)). lra. }
    unfold fexp, emin, prec, emax in *. lia. }
  assert (Hm1 : m1 <= 2 ^ (g - e1)).
  { apply Up. rewrite <- (bpow_mul_IZR 0 g e1 He1).
    pose proof (bpow_pos (- e1)). nra. }
  assert (Hb : (IZR m1 * bpow e1 <= bpow g)%R).
  { apply IZR_le in Hm1. rewrite <- (bpow_mul_IZR 0 g e1 He1) in Hm1.
    pose proof (bpow_pos e1). 
    assert (bpow g * bpow (- e1) * bpow e1 = bpow g)%R.
    { rewrite Rmult_assoc, <- bpow_add. replace (- e1 + e1) with 0 by lia.
      rewrite bpow_0. lra. }
    nra. }
  destruct res as [s|s| |s m e]; try tauto.
  - destruct M as [_ [_ M]].
    pose proof (bpow_lt g 1024 ltac:(lia)). lra.
  - destruct M as [M1 [M2 [M3 [M4 [M5 M6]]]]].
    split; [exact M1|]. split; [rewrite M3; exact Hb|exact M6].
Qed.

(** ... nor a power of two below it. *)
Lemma round_ge_bpow sx v res g :
  rounds_to sx v res -> (bpow g <= v)%R -> -1074 <= g ->
  match res with
  | S754_finite s m e =>
      s = sx /\ (bpow g <= IZR (Zpos m) * bpow e)%R /\ canonical res /\ e <= 971
  | S754_infinity s => s = sx
  | _ => False
  end.
Proof.
  intros H Hv Hg.
  destruct (rounds_to_spec _ _ _ H) as [m1 [e1 [P [E [A [Up [Lo [U [L M]]]]]]]]].
  assert (Hb : (bpow g <= IZR m1 * bpow e1)%R).
  { destruct (Z_le_gt_dec e1 g) as [He1|He1].
    - assert (Hm1 : 2 ^ (g - e1) <= m1).
      { apply Lo. rewrite <- (bpow_mul_IZR 0 g e1 He1).
        pose proof (bpow_pos (- e1)). nra. }
      apply IZR_le in Hm1. rewrite <- (bpow_mul_IZR 0 g e1 He1) in Hm1.
      pose proof (bpow_pos e1).
      assert (bpow g * bpow (- e1) * bpow e1 = bpow g)%R.
      { rewrite Rmult_assoc, <- bpow_add. replace (- e1 + e1) with 0 by lia.
        rewrite bpow_0. lra. }
      nra.
    - assert (Hv1 : (bpow e1 <= v)%R).
      { destruct (Rle_lt_dec (bpow e1) v) as [|Hlt]; [assumption|exfalso].
        apply U in Hlt. unfold fexp, emin, prec, emax in Hlt. lia. }
      assert (Hm1 : 1 <= m1).
      { apply Lo. pose proof (bpow_pos (- e1)).
        assert (bpow e1 * bpow (- e1) = 1)%R.
        { rewrite <- bpow_add. replace (e1 + - e1) with 0 by lia. apply bpow_0. }
        simpl (IZR 1). nra. }
      apply IZR_le in Hm1. pose proof (bpow_le g e1 ltac:(lia)).
      pose proof (bpow_pos e1). nra. }
  pose proof (bpow_pos g) as Hgp.
  destruct res as [s|s| |s m e]; try tauto.
  - destruct M as [_ M]. subst m1. simpl (IZR 0) in Hb. lra.
  - destruct M as [M1 [M2 [M3 [M4 [M5 M6]]]]].
    split; [exact M1|]. split; [rewrite M3; exact Hb|]. split; [exact M6|exact M4].
Qed.

(** A number with a mantissa of fewer than 54 bits is its own rounding. *)
Lemma round_exact sx v res K g :
  rounds_to sx v res -> v = (IZR K * bpow g)%R -> 0 < K < 2 ^ 53 ->
  -1074 <= g <= 970 ->
  exists m e, res = S754_finite sx m e /\ (IZR (Zpos m) * bpow e = v)%R /\
              canonical res.
Proof.
  intros H Hv HK Hg.
  destruct (rounds_to_spec _ _ _ H) as [m1 [e1 [P [E [A [Up [Lo [U [L M]]]]]]]]].
  assert (HK1 : (IZR K < bpow 53)%R).
  { rewrite bpow_IZR by lia. apply IZR_lt. lia. }
  assert (HK0 : (1 <= IZR K)%R) by (apply IZR_le; lia).
  pose proof (bpow_pos g) as Hgp.
  assert (He1 : e1 <= g).
  { assert (e1 <= fexp prec emax (53 + g)).
    { apply U. rewrite Hv, bpow_add. nra. }
    unfold fexp, emin, prec, emax in *. lia. }
  assert (Ey : (v * bpow (- e1) = IZR (K * 2 ^ (g - e1)))%R).
  { rewrite mult_IZR, <- (bpow_mul_IZR 0 g e1 He1), Hv. lra. }
  assert (Em1 : m1 = K * 2 ^ (g - e1)).
  { apply Z.le_antisymm; [apply Up|apply Lo]; rewrite Ey; lra. }
  assert (Ev : (IZR m1 * bpow e1 = v)%R).
  { rewrite Em1, <- Ey, Rmult_assoc, <- bpow_add.
    replace (- e1 + e1) with 0 by lia. rewrite bpow_0. lra. }
  assert (Hlt : (v < bpow 1023)%R).
  { rewrite Hv. replace 1023 with (53 + 970) by reflexivity. rewrite bpow_add.
    pose proof (bpow_le g 970 ltac:(lia)). nra. }
  destruct res as [s|s| |s m e]; try tauto.
  - destruct M as [_ M]. rewrite M in Ev. simpl (IZR 0) in Ev. nra.
  - destruct M as [_ [_ M]]. rewrite Ev in M.
    pose proof (bpow_lt 1023 1024 ltac:(lia)). lra.
  - destruct M as [M1 [M2 [M3 [M4 [M5 M6]]]]]. subst s.
    exists m, e. split; [reflexivity|]. split; [rewrite M3; exact Ev|exact M6].
Qed.

(** In the normal range the relative error of a rounding is at most
    [2^-53]. *)
Lemma round_normal sx v res :
  rounds_to sx v res -> (bpow (-1022) <= v <= bpow 1023)%R ->
  exists m e, res = S754_finite sx m e /\ canonical res /\ e <= 971 /\
    (- (v * bpow (-53)) <= IZR (Zpos m) * bpow e - v <= v * bpow (-53))%R.
Proof.
  intros H [Hv1 Hv2].
  pose proof (round_le_bpow _ _ _ 1023 H Hv2 ltac:(lia)) as Hle.
  pose proof (round_ge_bpow _ _ _ (-1022) H Hv1 ltac:(lia)) as Hge.
  destruct (rounds_to_spec _ _ _ H) as [m1 [e1 [P [E [A [Up [Lo [U [L M]]]]]]]]].
  destruct res as [s|s| |s m e]; try tauto.
  destruct Hge as [Hs [_ [Hc He]]]. subst s.
  exists m, e. split; [reflexivity|]. split; [exact Hc|]. split; [exact He|].
  destruct M as [_ [_ [M3 _]]]. rewrite M3.
  assert (Herr : (bpow e1 * / 2 <= v * bpow (-53))%R).
  { destruct (Rle_lt_dec (bpow (e1 + 52)) v) as [Hb|Hb].
    - rewrite bpow_add in Hb.
      replace (bpow (-53)) with (/ 2 * / bpow 52)%R.
      2:{ change (-53) with (- (1 + 52)).
          rewrite bpow_opp, bpow_add, bpow_1, Rinv_mult. reflexivity. }
      pose proof (bpow_pos 52). pose proof (bpow_pos e1).
      assert (bpow e1 <= v * / bpow 52)%R.
      { apply (Rmult_le_reg_r (bpow 52)); [assumption|].
        rewrite Rmult_assoc, Rinv_l by lra. lra. }
      lra.
    - apply U in Hb. assert (e1 = -1074) by (unfold fexp, emin, prec, emax in Hb; lia).
      subst e1.
      assert (bpow (-1074) * / 2 = bpow (-1022) * bpow (-53))%R.
      { rewrite <- bpow_add. change (-1022 + -53) with (-1074 + - (1)).
        rewrite bpow_add, (bpow_opp 1), bpow_1. reflexivity. }
      pose proof (bpow_pos (-53)). nra. }
  assert (Ev : (v = v * bpow (- e1) * bpow e1)%R).
  { rewrite Rmult_assoc, <- bpow_add. replace (- e1 + e1) with 0 by lia.
    rewrite bpow_0. lra. }
  pose proof (bpow_pos e1).
  split.
  - rewrite Ev at 2. nra.
  - rewrite Ev at 1. nra.
Qed.

(* ----------------------------------------------------------------- *)
(** ** The float operations of the script *)

Lemma canonical_lit_2_0 : canonical lit_2_0.
Proof. reflexivity. Qed.

Lemma canonical_lit_0_70 : canonical lit_0_70.
Proof. reflexivity. Qed.

Lemma canonical_lit_0_15 : canonical lit_0_15.
Proof. reflexivity. Qed.

Lemma float_of_int_0 : float_of_int 0 = Ok (S754_zero false).
Proof. reflexivity. Qed.

Lemma IZR_abs_pos n : n <> 0 -> (1 <= IZR (Z.abs n))%R.
Proof. intros H. apply IZR_le. lia. Qed.

(** A nonzero integer converts to a float of the same sign and of magnitude
    at least one, unless the conversion overflows. *)
Lemma float_of_int_inv n f :
  float_of_int n = Ok f -> n <> 0 ->
  exists m e, f = S754_finite (n <? 0) m e /\ canonical f /\ e <= 971 /\
              (1 <= IZR (Zpos m) * bpow e)%R.
Proof.
  unfold float_of_int. intros H Hn.
  pose proof (float_of_int_rounds n Hn) as Hr.
  pose proof (round_ge_bpow _ _ _ 0 Hr) as Hge.
  rewrite bpow_0 in Hge. specialize (Hge (IZR_abs_pos n Hn) ltac:(lia)).
  destruct (binary_normalize prec emax n 0 false) as [s|s| |s m e];
    try discriminate H; try tauto.
  inversion H; subst f. destruct Hge as [Hs [Hb [Hc He]]]. subst s.
  exists m, e. auto.
Qed.

(** Below [2^53] the conversion is exact. *)
Lemma float_of_int_exact n :
  n <> 0 -> Z.abs n < 2 ^ 53 ->
  exists m e, float_of_int n = Ok (S754_finite (n <? 0) m e) /\
              canonical (S754_finite (n <? 0) m e) /\
              (IZR (Zpos m) * bpow e = IZR (Z.abs n))%R.
Proof.
  intros Hn Hb. unfold float_of_int.
  pose proof (float_of_int_rounds n Hn) as Hr.
  assert (Hv0 : IZR (Z.abs n) = (IZR (Z.abs n) * bpow 0)%R)
    by (rewrite bpow_0; lra).
  destruct (round_exact _ _ _ (Z.abs n) 0 Hr Hv0 ltac:(lia) ltac:(lia))
    as [m [e [E [Hv Hc]]]].
  rewrite E in Hc |- *. exists m, e.
  split; [reflexivity|]. split; [exact Hc|exact Hv].
Qed.

(** Below [2^1023] the conversion has a relative error of at most
    [2^-53]. *)
Lemma float_of_int_normal n :
  0 < n < 2 ^ 1023 ->
  exists m e, float_of_int n = Ok (S754_finite false m e) /\
              canonical (S754_finite false m e) /\
              (- (IZR n * bpow (-53)) <= IZR (Zpos m) * bpow e - IZR n
               <= IZR n * bpow (-53))%R.
Proof.
  intros [H0 H1]. unfold float_of_int.
  pose proof (float_of_int_rounds n ltac:(lia)) as Hr.
  rewrite Z.abs_eq in Hr by lia.
  replace (n <? 0) with false in Hr by (symmetry; apply Z.ltb_ge; lia).
  assert (Hrange : (bpow (-1022) <= IZR n <= bpow 1023)%R).
  { split.
    - pose proof (bpow_le (-1022) 0 ltac:(lia)) as H. rewrite bpow_0 in H.
      assert (1 <= IZR n)%R by (apply IZR_le; lia). lra.
    - rewrite bpow_IZR by lia. apply IZR_le. lia. }
  destruct (round_normal _ _ _ Hr Hrange) as [m [e [E [Hc [He Herr]]]]].
  rewrite E in Hc |- *. exists m, e.
  split; [reflexivity|]. split; [exact Hc|exact Herr].
Qed.

(** [int(x)] of a nonnegative finite float is the integer part. *)
Lemma int_of_float_spec m e :
  exists a, int_of_float (S754_finite false m e) = Ok a /\ 0 <= a /\
            (IZR a <= IZR (Zpos m) * bpow e < IZR a + 1)%R.
Proof.
  unfold int_of_float. destruct (Z.leb_spec 0 e) as [He|He].
  - exists (Zpos m * 2 ^ e). split; [reflexivity|].
    pose proof (pow2_pos e He). split; [nia|].
    rewrite mult_IZR, <- bpow_IZR by lia. lra.
  - exists (Zpos m / 2 ^ (- e)). split; [reflexivity|].
    pose proof (pow2_pos (- e) ltac:(lia)) as Hp.
    split; [apply Z.div_pos; lia|].
    pose proof (Z.div_mod (Zpos m) (2 ^ (- e)) ltac:(lia)) as Hd.
    pose proof (Z.mod_pos_bound (Zpos m) (2 ^ (- e)) Hp) as Hm.
    set (q := Zpos m / 2 ^ (- e)) in *. set (r := Zpos m mod 2 ^ (- e)) in *.
    assert (Hb : (bpow e * IZR (2 ^ (- e)) = 1)%R).
    { rewrite <- bpow_IZR by lia. rewrite <- bpow_add.
      replace (e + - e) with 0 by lia. apply bpow_0. }
    pose proof (bpow_pos e) as Hbe.
    assert (Hq : (IZR (Zpos m) = IZR (2 ^ (- e)) * IZR q + IZR r)%R).
    { rewrite <- mult_IZR, <- plus_IZR. f_equal. exact Hd. }
    assert (Hr : (0 <= IZR r < IZR (2 ^ (- e)))%R)
      by (split; [apply IZR_le|apply IZR_lt]; lia).
    rewrite Hq.
    assert (E : ((IZR (2 ^ (- e)) * IZR q + IZR r) * bpow e
                 = IZR q + IZR r * bpow e)%R).
    { transitivity (bpow e * IZR (2 ^ (- e)) * IZR q + IZR r * bpow e)%R;
        [ring|rewrite Hb; ring]. }
    rewrite E.
    assert (0 <= IZR r * bpow e)%R by (apply Rmult_le_pos; lra).
    assert (IZR r * bpow e < 1)%R.
    { rewrite <- Hb, (Rmult_comm (bpow e)).
      apply Rmult_lt_compat_r; lra. }
    lra.
Qed.

(** Division of integers, as a rounding of the exact quotient. *)
Lemma int_truediv_rounds a b :
  a <> 0 -> b <> 0 ->
  rounds_to (xorb (a <? 0) (b <? 0)) (IZR (Z.abs a) / IZR (Z.abs b))
    (fdiv (exact_of_int a) (exact_of_int b)).
Proof.
  intros Ha Hb.
  destruct a as [|p|p]; [congruence| |]; destruct b as [|q|q]; try congruence;
    cbn [exact_of_int Z.abs Z.ltb Z.compare];
    pose proof (fdiv_rounds) as H;
    match goal with
    | |- rounds_to _ _ (fdiv (S754_finite ?sx ?mx _) (S754_finite ?sy ?my _)) =>
        specialize (H sx mx 0 sy my 0)
    end;
    rewrite bpow_0, !Rmult_1_r in H; exact H.
Qed.

Lemma int_truediv_zero b : b <> 0 -> int_truediv 0 b = Ok (S754_zero (b <? 0)).
Proof.
  intros Hb. unfold int_truediv.
  replace (b =? 0) with false by (symmetry; apply Z.eqb_neq; exact Hb).
  destruct b; [congruence| |]; reflexivity.
Qed.

(* ----------------------------------------------------------------- *)
(** ** The cut points of the splitter *)

Lemma bpow_m53 : bpow (-53) = (/ 9007199254740992)%R.
Proof. change (-53) with (- (53)). rewrite bpow_opp, bpow_IZR by lia. reflexivity. Qed.

Lemma bpow_m55 : bpow (-55) = (/ 36028797018963968)%R.
Proof. change (-55) with (- (55)). rewrite bpow_opp, bpow_IZR by lia. reflexivity. Qed.

Lemma bpow_m4 : bpow (-4) = (/ 16)%R.
Proof. change (-4) with (- (4)). rewrite bpow_opp, bpow_IZR by lia. reflexivity. Qed.

(** [int(r * n)] for a ratio [r] between 1/16 and 1 and a list length [n]:
    the result exists, is not negative and exceeds the exact product by two
    roundings at most. *)
Lemma ratio_times_int mr er n :
  canonical (S754_finite false mr er) ->
  (bpow (-4) <= IZR (Zpos mr) * bpow er <= 1)%R ->
  0 < n < 2 ^ 63 ->
  exists t a,
    float_mul_int (S754_finite false mr er) n = Ok t /\
    int_of_float t = Ok a /\ floor_of t a /\
    0 <= a /\
    (IZR a <= IZR (Zpos mr) * bpow er *
              (IZR n * ((1 + bpow (-53)) * (1 + bpow (-53)))))%R.
Proof.
  intros Hc [Hr1 Hr2] [Hn1 Hn2].
  assert (Hn3 : 2 ^ 63 < 2 ^ 1023) by (apply Z.pow_lt_mono_r; lia).
  destruct (float_of_int_normal n ltac:(lia)) as [m [e [E [Hcn Herr]]]].
  unfold float_mul_int. rewrite E. cbn [rbind].
  pose proof (fmul_rounds false mr er false m e Hc Hcn) as Hrd.
  cbn [xorb] in Hrd.
  set (rho := (IZR (Zpos mr) * bpow er)%R) in *.
  set (vn := (IZR (Zpos m) * bpow e)%R) in *.
  assert (HN1 : (1 <= IZR n)%R) by (apply IZR_le; lia).
  assert (HN2 : (IZR n <= IZR (2 ^ 63))%R) by (apply IZR_le; lia).
  rewrite bpow_m53 in Herr. rewrite bpow_m4 in Hr1.
  assert (Hrange : (bpow (-1022) <= rho * vn <= bpow 1023)%R).
  { split.
    - pose proof (bpow_le (-1022) (-53) ltac:(lia)) as H. rewrite bpow_m53 in H.
      nra.
    - pose proof (bpow_le 64 1023 ltac:(lia)) as H.
      rewrite (bpow_IZR 64) in H by lia.
      change (2 ^ 64) with (2 * 2 ^ 63) in H. rewrite mult_IZR in H. nra. }
  destruct (round_normal _ _ _ Hrd Hrange) as [m' [e' [E' [_ [_ Herr']]]]].
  rewrite E'. destruct (int_of_float_spec m' e') as [a [Ea [Ha0 [Ha1 Ha2]]]].
  exists (S754_finite false m' e'), a. split; [reflexivity|].
  split; [exact Ea|]. split; [split; [exact Ha1|exact Ha2]|].
  split; [exact Ha0|].
  rewrite bpow_m53 in *. nra.
Qed.

Lemma lit_0_70_value :
  (bpow (-4) <= IZR 6305039478318694 * bpow (-53) <= 71 / 100)%R.
Proof. rewrite bpow_m53, bpow_m4. lra. Qed.

Lemma lit_0_15_value :
  (bpow (-4) <= IZR 5404319552844595 * bpow (-55) <= 16 / 100)%R.
Proof. rewrite bpow_m55, bpow_m4. lra. Qed.

(** The two cut lengths exist and fit in the list. *)
Lemma cut_points n :
  0 <= n < 2 ^ 63 ->
  exists t v a b,
    float_mul_int (SPLIT_RATIOS train) n = Ok t /\
    int_of_float t = Ok a /\ floor_of t a /\
    float_mul_int (SPLIT_RATIOS val) n = Ok v /\
    int_of_float v = Ok b /\ floor_of v b /\
    0 <= a /\ 0 <= b /\ a + b <= n.
Proof.
  intros [H0 H1]. destruct (Z.eq_dec n 0) as [->|Hn].
  { exists (S754_zero false), (S754_zero false), 0, 0.
    unfold floor_of. cbn [SF2R]. repeat split; try reflexivity; try lia; lra. }
  cbn [SPLIT_RATIOS]. unfold lit_0_70, lit_0_15.
  pose proof lit_0_70_value as [V1 V2]. pose proof lit_0_15_value as [W1 W2].
  destruct (ratio_times_int 6305039478318694 (-53) n canonical_lit_0_70
              ltac:(split; lra) ltac:(lia)) as [t [a [Et [Ea [Fa [Ha Hau]]]]]].
  destruct (ratio_times_int 5404319552844595 (-55) n canonical_lit_0_15
              ltac:(split; lra) ltac:(lia)) as [v [b [Ev [Eb [Fb [Hb Hbu]]]]]].
  exists t, v, a, b. repeat (split; [assumption|]).
  apply le_IZR. rewrite plus_IZR.
  assert (HN : (1 <= IZR n)%R) by (apply IZR_le; lia).
  rewrite bpow_m53 in Hau, Hbu.
  set (w := (IZR n * ((1 + / 9007199254740992) * (1 + / 9007199254740992)))%R) in *.
  assert (Hw : (0 <= w <= IZR n * (101 / 100))%R) by (unfold w; split; nra).
  nra.
Qed.

(* ================================================================= *)
(** * The splitter *)
(* ================================================================= *)

Section Shuffle.
Context {A : Type}.
Implicit Types (l : list A) (a b : A).

Lemma set_nth_length (i : nat) a l : List.length (set_nth i a l) = List.length l.
Proof.
  revert i. induction l as [|h t IH]; intros [|i]; cbn [set_nth List.length];
    try reflexivity. rewrite IH. reflexivity.
Qed.

Lemma set_nth_perm (k : nat) a b l :
  nth_error l k = Some b -> Permutation (b :: set_nth k a l) (a :: l).
Proof.
  revert k. induction l as [|h t IH]; intros [|k] H; cbn in H; try discriminate.
  - inversion H; subst. cbn [set_nth]. apply perm_swap.
  - cbn [set_nth]. rewrite perm_swap. rewrite (IH k H). apply perm_swap.
Qed.

Lemma swap_perm l (i j : nat) : Permutation (swap l i j) l.
Proof.
  unfold swap.
  destruct (nth_error l i) as [a|] eqn:Ei; [|reflexivity].
  destruct (nth_error l j) as [b|] eqn:Ej; [|reflexivity].
  revert i j Ei Ej. induction l as [|h t IH]; intros [|i] [|j] Ei Ej;
    cbn in Ei, Ej; try discriminate; cbn [set_nth].
  - inversion Ei; inversion Ej; subst. reflexivity.
  - inversion Ei; subst. apply set_nth_perm. exact Ej.
  - inversion Ej; subst. apply set_nth_perm. exact Ei.
  - apply perm_skip. apply IH; assumption.
Qed.

Lemma shuffle_loop_perm (g : nat -> nat) (i : nat) l :
  Permutation (shuffle_loop g i l) l.
Proof.
  revert l. induction i as [|k IH]; intros l; cbn [shuffle_loop].
  - reflexivity.
  - rewrite IH. apply swap_perm.
Qed.

(** Whatever the generator draws, shuffling permutes the list. *)
Lemma shuffle_perm (g : nat -> nat) l : Permutation (shuffle g l) l.
Proof. apply shuffle_loop_perm. Qed.

Lemma shuffle_length (g : nat -> nat) l :
  List.length (shuffle g l) = List.length l.
Proof. apply Permutation_length, shuffle_perm. Qed.

(** Slices with bounds in range. *)
Lemma slice_prefix l (a : Z) :
  0 <= a <= Z.of_nat (List.length l) ->
  slice l None (Some a) = firstn (Z.to_nat a) l.
Proof.
  intros H. unfold slice, clamp_index.
  replace (a <? 0) with false by (symmetry; apply Z.ltb_ge; lia).
  rewrite Z.min_l, Z.sub_0_r by lia. reflexivity.
Qed.

Lemma slice_middle l (a b : Z) :
  0 <= a -> a <= b <= Z.of_nat (List.length l) ->
  slice l (Some a) (Some b) = firstn (Z.to_nat (b - a)) (skipn (Z.to_nat a) l).
Proof.
  intros Ha H. unfold slice, clamp_index.
  replace (a <? 0) with false by (symmetry; apply Z.ltb_ge; lia).
  replace (b <? 0) with false by (symmetry; apply Z.ltb_ge; lia).
  rewrite !Z.min_l by lia. reflexivity.
Qed.

Lemma slice_suffix l (b : Z) :
  0 <= b <= Z.of_nat (List.length l) ->
  slice l (Some b) None = skipn (Z.to_nat b) l.
Proof.
  intros H. unfold slice, clamp_index.
  replace (b <? 0) with false by (symmetry; apply Z.ltb_ge; lia).
  rewrite Z.min_l by lia.
  apply firstn_all2. rewrite length_skipn. lia.
Qed.

Lemma three_slices l (a b : nat) :
  firstn a l ++ firstn b (skipn a l) ++ skipn (a + b) l = l.
Proof.
  rewrite <- (firstn_skipn a l) at 4.
  f_equal. rewrite <- (firstn_skipn b (skipn a l)) at 2.
  f_equal. rewrite skipn_skipn. f_equal. lia.
Qed.

End Shuffle.

Lemma NoDup_app_disjoint {A} (l1 l2 : list A) (x : A) :
  NoDup (l1 ++ l2) -> In x l1 -> ~ In x l2.
Proof.
  induction l1 as [|h t IH]; cbn; intros Hnd Hin; [contradiction|].
  inversion Hnd as [|? ? Hh Ht]; subst.
  destruct Hin as [->|Hin].
  - intros H2. apply Hh. apply in_or_app. right. exact H2.
  - apply IH; assumption.
Qed.

Lemma NoDup_app_r {A} (l1 l2 : list A) : NoDup (l1 ++ l2) -> NoDup l2.
Proof.
  induction l1 as [|h t IH]; cbn; intros Hnd; [exact Hnd|].
  inversion Hnd; subst. apply IH. assumption.
Qed.

(** The splitter, with its cut points made explicit. *)
Lemma split_eq (g : nat -> nat) (files : list string) :
  Z.of_nat (List.length files) < 2 ^ 63 ->
  exists t v a b,
    float_mul_int (SPLIT_RATIOS train) (Z.of_nat (List.length files)) = Ok t /\
    floor_of t a /\
    float_mul_int (SPLIT_RATIOS val) (Z.of_nat (List.length files)) = Ok v /\
    floor_of v b /\
    0 <= a /\ 0 <= b /\ a + b <= Z.of_nat (List.length files) /\
    split g files =
    Ok [(train, firstn (Z.to_nat a) (shuffle g files));
        (val, firstn (Z.to_nat b) (skipn (Z.to_nat a) (shuffle g files)));
        (test, skipn (Z.to_nat a + Z.to_nat b) (shuffle g files))].
Proof.
  intros HN.
  destruct (cut_points (Z.of_nat (List.length files)) ltac:(lia))
    as [t [v [a [b [Et [Ea [Fa [Ev [Eb [Fb [Ha [Hb Hab]]]]]]]]]]]].
  exists t, v, a, b. repeat (split; [assumption|]).
  unfold split. rewrite shuffle_length, Et. cbn [rbind]. rewrite Ea.
  cbn [rbind]. rewrite Ev. cbn [rbind]. rewrite Eb. cbn [rbind].
  rewrite slice_prefix, slice_middle, slice_suffix
    by (rewrite ?shuffle_length; lia).
  replace (a + b - a) with b by lia.
  replace (Z.to_nat (a + b)) with (Z.to_nat a + Z.to_nat b)%nat by lia.
  reflexivity.
Qed.

(** ** C2: the three subsets partition the input *)

(** C2. For every list of identifiers (of a length that a Python list can
    have, zero, one and two included) the splitter returns three subsets
    whose concatenation is a permutation of the input: every identifier is
    in one of them, the lengths add up to [N], and when the identifiers
    are distinct the subsets are pairwise disjoint. *)
Theorem split_partitions (g : nat -> nat) (files : list string) :
  Z.of_nat (List.length files) < 2 ^ 63 ->
  exists tr va te : list string,
    split g files = Ok [(train, tr); (val, va); (test, te)] /\
    Permutation (tr ++ va ++ te) files /\
    (forall x, In x files <-> In x tr \/ In x va \/ In x te) /\
    (List.length tr + List.length va + List.length te = List.length files)%nat /\
    (NoDup files ->
     (forall x, In x tr -> ~ In x va) /\
     (forall x, In x tr -> ~ In x te) /\
     (forall x, In x va -> ~ In x te)).
Proof.
  intros HN.
  destruct (split_eq g files HN) as [t [v [a [b [_ [_ [_ [_ [Ha [Hb [Hab E]]]]]]]]]]].
  do 3 eexists. split; [exact E|].
  set (items := shuffle g files) in *.
  set (tr := firstn (Z.to_nat a) items).
  set (va := firstn (Z.to_nat b) (skipn (Z.to_nat a) items)).
  set (te := skipn (Z.to_nat a + Z.to_nat b) items).
  assert (Hcat : tr ++ va ++ te = items) by apply three_slices.
  assert (Hperm : Permutation (tr ++ va ++ te) files).
  { rewrite Hcat. apply shuffle_perm. }
  split; [exact Hperm|]. split; [|split].
  - intros x. split.
    + intros Hx. apply (Permutation_in x (Permutation_sym Hperm)) in Hx.
      apply in_app_or in Hx. destruct Hx as [Hx|Hx]; [left; exact Hx|].
      apply in_app_or in Hx. tauto.
    + intros Hx. apply (Permutation_in x Hperm).
      apply in_or_app. destruct Hx as [Hx|Hx]; [left; exact Hx|right].
      apply in_or_app. exact Hx.
  - rewrite <- (Permutation_length Hperm), !length_app. lia.
  - intros Hnd.
    assert (Hnd' : NoDup (tr ++ va ++ te)).
    { apply (Permutation_NoDup (Permutation_sym Hperm)). exact Hnd. }
    split; [|split]; intros x Hx.
    + intros Hv. apply (NoDup_app_disjoint _ _ x Hnd' Hx).
      apply in_or_app. left. exact Hv.
    + intros Ht. apply (NoDup_app_disjoint _ _ x Hnd' Hx).
      apply in_or_app. right. exact Ht.
    + apply NoDup_app_r in Hnd'. apply (NoDup_app_disjoint _ _ x Hnd' Hx).
Qed.

Lemma split_partitions_witness :
  exists tr va te : list string,
    split (fun n => (n - 1)%nat) ["a"; "b"]%string
    = Ok [(train, tr); (val, va); (test, te)] /\
    Permutation (tr ++ va ++ te) ["a"; "b"]%string /\
    (forall x, In x ["a"; "b"]%string <-> In x tr \/ In x va \/ In x te) /\
    (List.length tr + List.length va + List.length te = 2)%nat /\
    (NoDup ["a"; "b"]%string ->
     (forall x, In x tr -> ~ In x va) /\
     (forall x, In x tr -> ~ In x te) /\
     (forall x, In x va -> ~ In x te)).
Proof.
  apply (split_partitions (fun n => (n - 1)%nat) ["a"; "b"]%string).
  vm_compute. reflexivity.
Defined.

(* ================================================================= *)
(** * The annotation parser *)
(* ================================================================= *)

Lemma bind_ret {A B} (a : A) (f : A -> M B) : bind (ret a) f = f a.
Proof. unfold bind, ret. destruct (f a). reflexivity. Qed.

Lemma bind_emit {B} (ev : event) (f : unit -> M B) :
  bind (emit ev) f = (ev :: trace (f tt), outcome (f tt)).
Proof. unfold bind, emit, trace, outcome. destruct (f tt). reflexivity. Qed.

Lemma bind_lift_ok {A B} (a : A) (f : A -> M B) : bind (lift (Ok a)) f = f a.
Proof. unfold bind, lift. destruct (f a). reflexivity. Qed.

Lemma bind_lift_raise {A B} (e : exn) (f : A -> M B) :
  bind (lift (Raise e)) f = ([], Raise e).
Proof. reflexivity. Qed.

Lemma bind_ok {A B} (t : list event) (a : A) (f : A -> M B) :
  bind (t, Ok a) f = (t ++ trace (f a), outcome (f a)).
Proof. unfold bind, trace, outcome. destruct (f a). reflexivity. Qed.

Lemma bind_raise {A B} (t : list event) (e : exn) (f : A -> M B) :
  bind (t, Raise e) f = (t, Raise e).
Proof. reflexivity. Qed.

Lemma M_eta {A} (m : M A) : m = (trace m, outcome m).
Proof. destruct m. reflexivity. Qed.

(** ** Class lookup *)

Lemma index_spec (x : string) (l : list string) (i : Z) :
  index x l = Ok i ->
  0 <= i < Z.of_nat (List.length l) /\ nth_error l (Z.to_nat i) = Some x.
Proof.
  revert i. induction l as [|y t IH]; intros i H; cbn [index] in H.
  - discriminate H.
  - destruct (String.eqb_spec y x) as [->|Hne].
    + inversion H; subst. cbn. split; [lia|reflexivity].
    + destruct (index x t) as [j|e] eqn:E; cbn [rbind] in H; [|discriminate H].
      inversion H; subst. destruct (IH j eq_refl) as [Hj Hn].
      cbn [List.length]. split; [lia|].
      replace (Z.to_nat (j + 1)) with (S (Z.to_nat j)) by lia. exact Hn.
Qed.

Lemma index_raise (x : string) (l : list string) (e : exn) :
  index x l = Raise e -> e = ValueError /\ ~ In x l.
Proof.
  induction l as [|y t IH]; cbn [index]; intros H.
  - inversion H. split; [reflexivity|intros []].
  - destruct (String.eqb_spec y x) as [->|Hne]; [discriminate H|].
    destruct (index x t) as [j|e'] eqn:E; cbn [rbind] in H; [discriminate H|].
    inversion H; subst. destruct (IH eq_refl) as [He Hn].
    split; [exact He|]. intros [Hy|Hin]; [congruence|tauto].
Qed.

Lemma class_index_raise classes name e :
  class_index classes name = Raise e -> e = ValueError.
Proof.
  destruct name as [s|]; cbn [class_index]; intros H.
  - apply index_raise in H. tauto.
  - inversion H. reflexivity.
Qed.

(** ** Object entries of an unknown class *)



Lemma process_objects_cons xml_path classes size obj rest acc :
  process_objects xml_path classes size (obj :: rest) acc =
  bind (process_object xml_path classes size obj)
    (fun r => process_objects xml_path classes size rest
                (match r with Some line => acc ++ [line] | None => acc end)).
Proof. reflexivity. Qed.


Lemma find_filter_keep {A} (p keep : A -> bool) (l : list A) :
  (forall a, p a = true -> keep a = true) ->
  List.find p (List.filter keep l) = List.find p l.
Proof.
  intros H. induction l as [|a t IH]; [reflexivity|].
  cbn [List.filter List.find]. destruct (p a) eqn:Pa.
  - rewrite (H a Pa). cbn [List.find]. rewrite Pa. reflexivity.
  - destruct (keep a); [cbn [List.find]; rewrite Pa|]; exact IH.
Qed.


(** ** Where the emitted lines come from *)

Lemma process_object_line xml_path classes size obj t line :
  process_object xml_path classes size obj = (t, Ok (Some line)) ->
  exists class_id yolo_box, line_of_object classes size obj class_id yolo_box line.
Proof.
  unfold process_object. intros H.
  destruct (find obj "name") as [n|] eqn:En; [|discriminate H].
  cbn [node_text] in H. rewrite bind_lift_ok in H.
  destruct (text n) as [name|] eqn:Et; cbn [class_index] in H;
    [|discriminate H].
  destruct (index name classes) as [i|e] eqn:Ei.
  2:{ apply index_raise in Ei. destruct Ei as [-> _]. discriminate H. }
  destruct (read_box (find obj "bndbox")) as [box|e] eqn:Eb.
  2:{ destruct e; discriminate H. }
  destruct (convert_to_yolo_format size box) as [yolo_box|e] eqn:Ec.
  2:{ rewrite bind_lift_raise in H. discriminate H. }
  rewrite bind_lift_ok in H. inversion H; subst.
  exists i, yolo_box, n, name, box. auto 10.
Qed.

Lemma process_objects_lines xml_path classes size objs : forall acc t lines,
  process_objects xml_path classes size objs acc = (t, Ok lines) ->
  forall line, In line lines ->
    In line acc \/
    exists obj class_id yolo_box,
      In obj objs /\ line_of_object classes size obj class_id yolo_box line.
Proof.
  induction objs as [|obj rest IH]; intros acc t lines H line Hin.
  - inversion H; subst. left. exact Hin.
  - rewrite process_objects_cons in H.
    destruct (process_object xml_path classes size obj) as [t1 [r|e]] eqn:E1.
    2:{ rewrite bind_raise in H. discriminate H. }
    rewrite bind_ok in H.
    rewrite (M_eta (process_objects xml_path classes size rest _)) in H.
    cbn [trace outcome fst snd] in H.
    destruct (process_objects xml_path classes size rest
                (match r with Some l => acc ++ [l] | None => acc end))
      as [t2 [lines2|e2]] eqn:E2; cbn [fst snd] in H; [|discriminate H].
    inversion H; subst lines2.
    destruct (IH _ _ _ E2 line Hin) as [Hacc|[o [i [b [Ho Hl]]]]].
    + destruct r as [l|]; [|left; exact Hacc].
      apply in_app_or in Hacc. destruct Hacc as [Hacc|[<-|[]]]; [left; exact Hacc|].
      right. destruct (process_object_line _ _ _ _ _ _ E1) as [i [b Hl]].
      exists obj, i, b. split; [left; reflexivity|exact Hl].
    + right. exists o, i, b. split; [right; exact Ho|exact Hl].
Qed.

(** Every line that the parser returns is the label line of one of the
    object entries of the file. *)
Lemma process_xml_file_lines files xml_path classes t lines :
  process_xml_file files xml_path classes = (t, Ok lines) ->
  forall line, In line lines ->
    exists root size obj class_id yolo_box,
      parse files xml_path = Ok root /\
      read_size (find root "size") = Ok size /\
      In obj (findall root "object") /\
      line_of_object classes size obj class_id yolo_box line.
Proof.
  unfold process_xml_file. intros H line Hin.
  destruct (parse files xml_path) as [root|e] eqn:Ep.
  2:{ destruct e; inversion H; subst; destruct Hin. }
  destruct (read_size (find root "size")) as [size|e] eqn:Es.
  2:{ destruct e; inversion H; subst; destruct Hin. }
  destruct (process_objects_lines _ _ _ _ _ _ _ H line Hin)
    as [[]|[obj [i [b [Ho Hl]]]]].
  exists root, size, obj, i, b. auto.
Qed.

(* ================================================================= *)
(** * The coordinate converter *)
(* ================================================================= *)

Lemma SF2R_finite s m e :
  SF2R (S754_finite s m e) =
  ((if s then -1 else 1) * (IZR (Zpos m) * bpow e))%R.
Proof. destruct s; cbn [SF2R]; lra. Qed.

Lemma abs_quotient a b :
  b <> 0 ->
  (IZR a / IZR b =
   (if xorb (a <? 0) (b <? 0) then -1 else 1) *
   (IZR (Z.abs a) / IZR (Z.abs b)))%R.
Proof.
  intros Hb.
  assert (Hb' : IZR b <> 0%R) by (apply not_0_IZR; exact Hb).
  assert (Hb'' : IZR (Z.abs b) <> 0%R) by (apply not_0_IZR; lia).
  destruct (Z.ltb_spec a 0); destruct (Z.ltb_spec b 0);
    cbv beta iota delta [xorb];
    [rewrite (Z.abs_neq a), (Z.abs_neq b) by lia
    |rewrite (Z.abs_neq a), (Z.abs_eq b) by lia
    |rewrite (Z.abs_eq a), (Z.abs_neq b) by lia
    |rewrite (Z.abs_eq a), (Z.abs_eq b) by lia];
    rewrite ?opp_IZR; field; exact Hb'.
Qed.

(** Division of integers: when the operands are below [2^1000] the result
    exists, is zero or finite, and is within a relative error of [2^-53] of
    the exact quotient. *)
Lemma int_truediv_spec a b :
  b <> 0 -> Z.abs a < 2 ^ 1000 -> Z.abs b < 2 ^ 1000 ->
  exists f, int_truediv a b = Ok f /\
    match f with
    | S754_zero s => a = 0 /\ s = (b <? 0)
    | S754_finite s m e =>
        a <> 0 /\ s = xorb (a <? 0) (b <? 0) /\ canonical f /\
        rounds_to s (IZR (Z.abs a) / IZR (Z.abs b)) f /\
        (- (IZR (Z.abs a) / IZR (Z.abs b) * bpow (-53))
         <= IZR (Zpos m) * bpow e - IZR (Z.abs a) / IZR (Z.abs b)
         <= IZR (Z.abs a) / IZR (Z.abs b) * bpow (-53))%R
    | _ => False
    end.
Proof.
  intros Hb Ha1 Hb1.
  destruct (Z.eq_dec a 0) as [->|Ha].
  { exists (S754_zero (b <? 0)). split; [apply int_truediv_zero; exact Hb|].
    split; reflexivity. }
  pose proof (int_truediv_rounds a b Ha Hb) as Hr.
  unfold int_truediv.
  replace (b =? 0) with false by (symmetry; apply Z.eqb_neq; exact Hb).
  set (q := (IZR (Z.abs a) / IZR (Z.abs b))%R) in *.
  assert (HA : (1 <= IZR (Z.abs a) <= bpow 1000)%R).
  { split; [apply IZR_le; lia|]. rewrite bpow_IZR by lia. apply IZR_le. lia. }
  assert (HB : (1 <= IZR (Z.abs b) <= bpow 1000)%R).
  { split; [apply IZR_le; lia|]. rewrite bpow_IZR by lia. apply IZR_le. lia. }
  assert (Hq : (q * IZR (Z.abs b) = IZR (Z.abs a))%R) by (unfold q; field; lra).
  assert (Hrange : (bpow (-1022) <= q <= bpow 1023)%R).
  { pose proof (bpow_le (-1022) (-1000) ltac:(lia)) as H1.
    pose proof (bpow_le 1000 1023 ltac:(lia)) as H2.
    assert (H3 : (bpow (-1000) * bpow 1000 = 1)%R).
    { rewrite <- bpow_add. apply bpow_0. }
    pose proof (bpow_pos (-1000)). pose proof (bpow_pos 1000).
    assert (Hq0 : (0 < q)%R).
    { unfold q. apply Rdiv_lt_0_compat; lra. }
    split.
    - apply Rle_trans with (bpow (-1000)); [exact H1|].
      apply (Rmult_le_reg_r (IZR (Z.abs b))); [lra|]. rewrite Hq. nra.
    - apply Rle_trans with (bpow 1000); [|exact H2].
      apply Rle_trans with (IZR (Z.abs a)); [|lra]. rewrite <- Hq. nra. }
  destruct (round_normal _ _ _ Hr Hrange) as [m [e [E [Hc [He Herr]]]]].
  rewrite E in Hc, Hr |- *.
  exists (S754_finite (xorb (a <? 0) (b <? 0)) m e).
  split; [reflexivity|]. auto.
Qed.

Lemma int_truediv_value a b f :
  b <> 0 -> Z.abs a < 2 ^ 1000 -> Z.abs b < 2 ^ 1000 ->
  int_truediv a b = Ok f ->
  (Rabs (SF2R f - IZR a / IZR b) <= bpow (-53) * Rabs (IZR a / IZR b))%R.
Proof.
  intros Hb Ha1 Hb1 Hf.
  destruct (int_truediv_spec a b Hb Ha1 Hb1) as [f' [Hf' M]].
  rewrite Hf in Hf'. inversion Hf'; subst f'. clear Hf'.
  destruct f as [s|s| |s m e]; try contradiction.
  - destruct M as [-> _]. cbn [SF2R]. unfold Rdiv. rewrite Rmult_0_l, Rminus_diag.
    rewrite Rabs_R0. lra.
  - destruct M as [Ha [Hs [_ [_ Herr]]]].
    rewrite SF2R_finite, (abs_quotient a b Hb), <- Hs.
    set (q := (IZR (Z.abs a) / IZR (Z.abs b))%R) in *.
    assert (Hq : (0 <= q)%R).
    { unfold q. apply Rmult_le_pos; [apply IZR_le; lia|].
      apply Rlt_le, Rinv_0_lt_compat, IZR_lt. lia. }
    pose proof (bpow_pos (-53)).
    destruct s.
    + replace (-1 * (IZR (Zpos m) * bpow e) - -1 * q)%R
        with (- (IZR (Zpos m) * bpow e - q))%R by ring.
      rewrite Rabs_Ropp. replace (-1 * q)%R with (- q)%R by ring.
      rewrite Rabs_Ropp, (Rabs_right q) by lra. apply Rabs_le. lra.
    + rewrite !Rmult_1_l, (Rabs_right q) by lra. apply Rabs_le. lra.
Qed.

Lemma lit_2_0_value : (IZR 4503599627370496 * bpow (-51) = 2)%R.
Proof.
  change (-51) with (- (51)). rewrite bpow_opp, bpow_IZR by lia.
  change (2 ^ 51) with 2251799813685248. lra.
Qed.

(** [2.0 * w] is exact for a width below [2^52]. *)
Lemma two_times w :
  0 < w < 2 ^ 52 ->
  exists m e, float_mul_int lit_2_0 w = Ok (S754_finite false m e) /\
              (IZR (Zpos m) * bpow e = 2 * IZR w)%R.
Proof.
  intros Hw.
  destruct (float_of_int_exact w ltac:(lia) ltac:(lia)) as [m0 [e0 [E [Hc Hv]]]].
  replace (w <? 0) with false in * by (symmetry; apply Z.ltb_ge; lia).
  rewrite Z.abs_eq in Hv by lia.
  unfold float_mul_int. rewrite E. cbn [rbind].
  pose proof (fmul_rounds false 4503599627370496 (-51) false m0 e0
                canonical_lit_2_0 Hc) as Hr.
  cbn [xorb] in Hr. rewrite lit_2_0_value, Hv in Hr.
  assert (Hv2 : (2 * IZR w = IZR (2 * w) * bpow 0)%R)
    by (rewrite mult_IZR, bpow_0; lra).
  destruct (round_exact _ _ _ (2 * w) 0 Hr Hv2 ltac:(lia) ltac:(lia))
    as [m [e [E' [Hv' _]]]].
  exists m, e. split; [f_equal; exact E'|exact Hv'].
Qed.

(** Dividing by [2.0 * w] in floats gives the float nearest to the exact
    quotient by [2 * w], as the division of the two integers does. *)
Lemma center_quotient a w :
  Z.abs a < 2 ^ 53 -> 0 < w < 2 ^ 52 ->
  rbind (float_mul_int lit_2_0 w) (int_truediv_float a) = int_truediv a (2 * w).
Proof.
  intros Ha Hw.
  destruct (two_times w Hw) as [m' [e' [E' Hv']]].
  rewrite E'. cbn [rbind]. unfold int_truediv_float.
  assert (Hb1 : 2 ^ 53 < 2 ^ 1000) by (apply Z.pow_lt_mono_r; lia).
  destruct (Z.eq_dec a 0) as [->|Hne].
  { rewrite int_truediv_zero by lia.
    replace (2 * w <? 0) with false by (symmetry; apply Z.ltb_ge; lia).
    reflexivity. }
  destruct (int_truediv_spec a (2 * w) ltac:(lia) ltac:(lia) ltac:(lia))
    as [f [Ef M]].
  rewrite Ef.
  destruct (float_of_int_exact a Hne Ha) as [m [e [E [Hc Hv]]]].
  rewrite E. cbn [rbind]. unfold float_truediv. cbn [is_zero]. f_equal.
  destruct f as [s|s| |s mf ef]; try contradiction; [tauto|].
  destruct M as [_ [Hs [_ [Hr _]]]].
  pose proof (fdiv_rounds (a <? 0) m e false m' e') as Hr'.
  rewrite Hv, Hv' in Hr'.
  replace (2 * w <? 0) with false in Hs by (symmetry; apply Z.ltb_ge; lia).
  rewrite <- Hs in Hr'.
  replace (IZR (Z.abs (2 * w))) with (2 * IZR w)%R in Hr
    by (rewrite Z.abs_eq, mult_IZR by lia; reflexivity).
  exact (rounds_to_fun _ _ _ _ Hr' Hr).
Qed.

Lemma int_truediv_near a b f :
  b <> 0 -> Z.abs a < 2 ^ 1000 -> Z.abs b < 2 ^ 1000 ->
  int_truediv a b = Ok f -> near_quotient f a b.
Proof. apply int_truediv_value. Qed.

Lemma int_truediv_ok a b :
  b <> 0 -> Z.abs a < 2 ^ 1000 -> Z.abs b < 2 ^ 1000 ->
  exists f, int_truediv a b = Ok f.
Proof.
  intros Hb Ha Hb'. destruct (int_truediv_spec a b Hb Ha Hb') as [f [E _]].
  exists f. exact E.
Qed.

(** ** C1: the four values *)

(** The claim as stated fails outside the range where integers are exactly
    floats: with [W = H = 1] and [xmax = 2^1024] the converter raises
    [OverflowError] and returns no value; with [W = 2^53 + 1] and
    [xmin + xmax = 3] the divisor [2.0 * W] is rounded to [2^54], and the
    x_center returned, [3 / 2^54], is one unit in the last place above the
    float nearest to [3 / (2 W)]. *)
Lemma convert_outside_exact_range :
  (0 < 1 /\ 0 < 1 /\
   convert_to_yolo_format (1, 1) (0, 2 ^ 1024, 0, 0) = Raise OverflowError) /\
  (0 < 2 ^ 53 + 1 /\ 0 < 1 /\
   convert_to_yolo_format (2 ^ 53 + 1, 1) (1, 2, 0, 0) =
   Ok (S754_finite false 6755399441055744 (-105), S754_zero false,
       S754_finite false 9007199254740991 (-106), S754_zero false) /\
   yolo_quotients (2 ^ 53 + 1) 1 1 2 0 0 =
   Ok (S754_finite false 6755399441055743 (-105), S754_zero false,
       S754_finite false 9007199254740991 (-106), S754_zero false)).
Proof.
  split; (split; [lia|]); (split; [lia|]); [|split]; vm_compute; reflexivity.
Qed.

(** Within the range where every integer involved is exactly a float the
    converter returns the four correctly rounded quotients. *)
Lemma convert_in_range (W H xmin xmax ymin ymax : Z) :
  0 < W < 2 ^ 52 -> 0 < H < 2 ^ 52 ->
  Z.abs xmin < 2 ^ 52 -> Z.abs xmax < 2 ^ 52 ->
  Z.abs ymin < 2 ^ 52 -> Z.abs ymax < 2 ^ 52 ->
  exists x_center y_center width height,
    convert_to_yolo_format (W, H) (xmin, xmax, ymin, ymax)
    = Ok (x_center, y_center, width, height) /\
    yolo_quotients W H xmin xmax ymin ymax
    = Ok (x_center, y_center, width, height) /\
    near_quotient x_center (xmin + xmax) (2 * W) /\
    near_quotient y_center (ymin + ymax) (2 * H) /\
    near_quotient width (xmax - xmin) W /\
    near_quotient height (ymax - ymin) H.
Proof.
  intros HW HH Hx1 Hx2 Hy1 Hy2.
  assert (P52 : 2 ^ 53 = 2 * 2 ^ 52) by reflexivity.
  assert (P53 : 2 ^ 53 < 2 ^ 1000) by (apply Z.pow_lt_mono_r; lia).
  destruct (int_truediv_ok (xmin + xmax) (2 * W)) as [xc Exc]; try lia.
  destruct (int_truediv_ok (ymin + ymax) (2 * H)) as [yc Eyc]; try lia.
  destruct (int_truediv_ok (xmax - xmin) W) as [w Ew]; try lia.
  destruct (int_truediv_ok (ymax - ymin) H) as [h Eh]; try lia.
  exists xc, yc, w, h.
  assert (Ec : convert_to_yolo_format (W, H) (xmin, xmax, ymin, ymax) =
               yolo_quotients W H xmin xmax ymin ymax).
  { unfold convert_to_yolo_format, yolo_quotients.
    pose proof (center_quotient (xmin + xmax) W ltac:(lia) HW) as Cx.
    pose proof (center_quotient (ymin + ymax) H ltac:(lia) HH) as Cy.
    unfold rbind in Cx, Cy |- *.
    destruct (float_mul_int lit_2_0 W) as [dx|e].
    - rewrite Cx. destruct (int_truediv (xmin + xmax) (2 * W)); [|reflexivity].
      destruct (float_mul_int lit_2_0 H) as [dy|e].
      + rewrite Cy. reflexivity.
      + rewrite <- Cy. reflexivity.
    - rewrite <- Cx. reflexivity. }
  split; [rewrite Ec|]; [|split].
  - unfold yolo_quotients. rewrite Exc, Eyc, Ew, Eh. reflexivity.
  - unfold yolo_quotients. rewrite Exc, Eyc, Ew, Eh. reflexivity.
  - repeat split; eapply int_truediv_near; eauto; lia.
Qed.

(** C1 (amended). For an image size [(W, H)] with [0 < W, H < 2^52] and a
    box whose four coordinates are below [2^52] in absolute value (so that
    every integer involved is exactly a float), the converter returns the
    four values [x_center = (xmin+xmax)/(2W)], [y_center = (ymin+ymax)/(2H)],
    [width = (xmax-xmin)/W] and [height = (ymax-ymin)/H], each the float
    nearest to the exact quotient and so within a relative error of
    [2^-53] of it, whatever the position of the box: nothing is clamped. *)
Theorem convert_returns_quotients (W H xmin xmax ymin ymax : Z) :
  0 < W < 2 ^ 52 -> 0 < H < 2 ^ 52 ->
  Z.abs xmin < 2 ^ 52 -> Z.abs xmax < 2 ^ 52 ->
  Z.abs ymin < 2 ^ 52 -> Z.abs ymax < 2 ^ 52 ->
  exists x_center y_center width height,
    convert_to_yolo_format (W, H) (xmin, xmax, ymin, ymax)
    = Ok (x_center, y_center, width, height) /\
    yolo_quotients W H xmin xmax ymin ymax
    = Ok (x_center, y_center, width, height) /\
    near_quotient x_center (xmin + xmax) (2 * W) /\
    near_quotient y_center (ymin + ymax) (2 * H) /\
    near_quotient width (xmax - xmin) W /\
    near_quotient height (ymax - ymin) H.
Proof. exact (convert_in_range W H xmin xmax ymin ymax). Qed.

Lemma convert_returns_quotients_witness :
  exists x_center y_center width height,
    convert_to_yolo_format (640, 480) (100, 200, 50, 150)
    = Ok (x_center, y_center, width, height) /\
    yolo_quotients 640 480 100 200 50 150
    = Ok (x_center, y_center, width, height) /\
    near_quotient x_center (100 + 200) (2 * 640) /\
    near_quotient y_center (50 + 150) (2 * 480) /\
    near_quotient width (200 - 100) 640 /\
    near_quotient height (150 - 50) 480.
Proof.
  apply (convert_returns_quotients 640 480 100 200 50 150);
    vm_compute; split; reflexivity || discriminate.
Defined.

(** Out-of-range boxes go through unclamped: here the centre is at 1 and
    the width is 3 times that of the image. *)
Example convert_does_not_clamp :
  rbind (convert_to_yolo_format (100, 100) (-50, 250, 0, 10))
        (fun b => Ok (label_line 0 b))
  = Ok ("0 1.000000 0.050000 3.000000 0.100000" ++ newline)%string.
Proof. vm_compute. reflexivity. Qed.

(* ----------------------------------------------------------------- *)
(** ** C9: boxes inside the image *)

Lemma round_half_even_div_error n d :
  0 < d -> - d <= 2 * (round_half_even_div n d * d - n) <= d.
Proof.
  intros Hd. unfold round_half_even_div.
  pose proof (Z.div_mod n d ltac:(lia)) as E.
  pose proof (Z.mod_pos_bound n d Hd) as B.
  destruct (Z.compare_spec (2 * (n mod d)) d) as [C|C|C];
    [destruct (Z.even (n / d))| |]; nia.
Qed.

Lemma micro_units_error m e :
  (- / 2 <= IZR (micro_units m e) - 1000000 * (IZR (Zpos m) * bpow e) <= / 2)%R.
Proof.
  unfold micro_units. change (10 ^ 6) with 1000000.
  destruct (Z.leb_spec 0 e) as [He|He].
  - rewrite !mult_IZR, <- bpow_IZR by lia. lra.
  - pose proof (pow2_pos (- e) ltac:(lia)) as Hp.
    pose proof (round_half_even_div_error (Zpos m * 1000000) (2 ^ (- e)) Hp) as [L U].
    set (r := round_half_even_div (Zpos m * 1000000) (2 ^ (- e))) in *.
    apply IZR_le in L, U.
    rewrite opp_IZR in L. rewrite !mult_IZR, minus_IZR, !mult_IZR in L, U.
    rewrite <- (bpow_IZR (- e)) in L, U by lia.
    assert (Hb : (bpow (- e) * bpow e = 1)%R).
    { rewrite <- bpow_add. replace (- e + e) with 0 by lia. apply bpow_0. }
    pose proof (bpow_pos e) as Hbe. pose proof (bpow_pos (- e)) as Hbn.
    assert (E1 : (IZR r - 1000000 * (IZR (Zpos m) * bpow e) =
                  (IZR r * bpow (- e) - IZR (Zpos m) * 1000000) * bpow e)%R).
    { transitivity (IZR r * (bpow (- e) * bpow e)
                    - 1000000 * (IZR (Zpos m) * bpow e))%R;
        [rewrite Hb; ring|ring]. }
    rewrite E1.
    assert (E2 : (/ 2 = / 2 * bpow (- e) * bpow e)%R)
      by (rewrite Rmult_assoc, Hb; ring).
    rewrite E2. split.
    + replace (- (/ 2 * bpow (- e) * bpow e))%R
        with ((- (/ 2 * bpow (- e))) * bpow e)%R by ring.
      apply Rmult_le_compat_r; lra.
    + apply Rmult_le_compat_r; lra.
Qed.

Lemma millionths_error f :
  (- / 2 <= IZR (millionths f) - 1000000 * SF2R f <= / 2)%R.
Proof.
  destruct f as [s|s| |s m e]; cbn [millionths SF2R]; try lra.
  pose proof (micro_units_error m e). destruct s; [rewrite opp_IZR|]; lra.
Qed.

(** The quotient of [a] by [b] for [0 <= a <= b]: a float between 0 and 1,
    within [2^-53] of the exact quotient. *)
Lemma int_truediv_unit a b :
  0 <= a <= b -> 0 < b < 2 ^ 1000 ->
  exists f, int_truediv a b = Ok f /\ (0 <= SF2R f <= 1)%R /\
    (- bpow (-53) <= SF2R f - IZR a / IZR b <= bpow (-53))%R.
Proof.
  intros Ha Hb.
  destruct (int_truediv_spec a b ltac:(lia) ltac:(lia) ltac:(lia)) as [f [E M]].
  exists f. split; [exact E|].
  assert (HB : (0 < IZR b)%R) by (apply IZR_lt; lia).
  assert (HA : (0 <= IZR a <= IZR b)%R) by (split; apply IZR_le; lia).
  pose proof (bpow_pos (-53)) as Hu.
  destruct f as [s|s| |s m e]; try contradiction.
  - destruct M as [-> _]. cbn [SF2R]. unfold Rdiv. rewrite Rmult_0_l. lra.
  - destruct M as [Ha0 [Hs [_ [Hr Herr]]]].
    replace (a <? 0) with false in Hs by (symmetry; apply Z.ltb_ge; lia).
    replace (b <? 0) with false in Hs by (symmetry; apply Z.ltb_ge; lia).
    cbn [xorb] in Hs. subst s. cbn [SF2R].
    rewrite !Z.abs_eq in * by lia.
    set (q := (IZR a / IZR b)%R) in *.
    assert (Hq : (q * IZR b = IZR a)%R) by (unfold q; field; lra).
    assert (Hq1 : (0 <= q <= 1)%R) by (split; nra).
    pose proof (round_le_bpow _ _ _ 0 Hr) as Hle. rewrite bpow_0 in Hle.
    destruct (Hle ltac:(lra) ltac:(lia)) as [_ [Hle1 _]].
    pose proof (bpow_pos e). 
    assert (0 < IZR (Zpos m) * bpow e)%R.
    { apply Rmult_lt_0_compat; [apply IZR_lt; lia|assumption]. }
    split; [lra|]. nra.
Qed.

(** Reading back the printed centre and extent gives the two edges, within
    one millionth of the size. *)
Lemma recover_edges (lo hi sz : Z) (c w : float) :
  0 < sz ->
  (- bpow (-53) <= SF2R c - IZR (lo + hi) / IZR (2 * sz) <= bpow (-53))%R ->
  (- bpow (-53) <= SF2R w - IZR (hi - lo) / IZR sz <= bpow (-53))%R ->
  Z.abs ((2 * millionths c - millionths w) * sz - 2 * 1000000 * lo) <= 2 * sz /\
  Z.abs ((2 * millionths c + millionths w) * sz - 2 * 1000000 * hi) <= 2 * sz.
Proof.
  intros Hsz Hc Hw.
  pose proof (millionths_error c) as Mc. pose proof (millionths_error w) as Mw.
  rewrite bpow_m53 in Hc, Hw.
  assert (HS : (0 < IZR sz)%R) by (apply IZR_lt; lia).
  set (qc := (IZR (lo + hi) / IZR (2 * sz))%R) in *.
  set (qw := (IZR (hi - lo) / IZR sz)%R) in *.
  assert (Eqc : (2 * qc * IZR sz = IZR lo + IZR hi)%R).
  { unfold qc. rewrite mult_IZR, plus_IZR. field. lra. }
  assert (Eqw : (qw * IZR sz = IZR hi - IZR lo)%R).
  { unfold qw. rewrite minus_IZR. field. lra. }
  set (X := IZR (millionths c)) in *. set (Y := IZR (millionths w)) in *.
  set (A := (X - 1000000 * qc)%R). set (B := (Y - 1000000 * qw)%R).
  assert (HA : (- (51 / 100) <= A <= 51 / 100)%R) by (unfold A; lra).
  assert (HB : (- (51 / 100) <= B <= 51 / 100)%R) by (unfold B; lra).
  assert (Elo : ((2 * X - Y) * IZR sz - 2 * 1000000 * IZR lo
                 = (2 * A - B) * IZR sz)%R).
  { unfold A, B.
    replace (2 * 1000000 * IZR lo)%R
      with (1000000 * ((IZR lo + IZR hi) - (IZR hi - IZR lo)))%R by ring.
    rewrite <- Eqc, <- Eqw. ring. }
  assert (Ehi : ((2 * X + Y) * IZR sz - 2 * 1000000 * IZR hi
                 = (2 * A + B) * IZR sz)%R).
  { unfold A, B.
    replace (2 * 1000000 * IZR hi)%R
      with (1000000 * ((IZR lo + IZR hi) + (IZR hi - IZR lo)))%R by ring.
    rewrite <- Eqc, <- Eqw. ring. }
  split; apply Z.abs_le; split; apply le_IZR;
    rewrite ?opp_IZR, ?minus_IZR, ?mult_IZR, ?plus_IZR, ?minus_IZR, ?mult_IZR;
    fold X Y; rewrite ?Elo, ?Ehi; nra.
Qed.

(** The claim as stated fails at both ends of the sizes: the box of zeros
    lies inside the image of size 0 by 0, on which the converter raises
    [ZeroDivisionError], and inside the image of size [2^1024] by
    [2^1024], on which it raises [OverflowError]. *)
Lemma in_image_box_raises :
  (0 <= 0 <= 0 /\ 0 <= 0 /\
   convert_to_yolo_format (0, 0) (0, 0, 0, 0) = Raise ZeroDivisionError) /\
  (0 <= 0 <= 0 /\ 0 <= 2 ^ 1024 /\
   convert_to_yolo_format (2 ^ 1024, 2 ^ 1024) (0, 0, 0, 0)
   = Raise OverflowError).
Proof.
  split; (split; [lia|]); (split; [lia|]); vm_compute; reflexivity.
Qed.

(** C9 (amended). For an image size [(W, H)] with [0 < W, H < 2^52] and a
    box with [0 <= xmin <= xmax <= W] and [0 <= ymin <= ymax <= H], the
    four outputs of the converter lie between 0 and 1, and the values that
    the label line prints for them (six decimals, counted here in
    millionths) give back the edges: [(x_center - width/2) * W] is [xmin]
    and [(x_center + width/2) * W] is [xmax] within [W] millionths, and
    likewise for [ymin] and [ymax] with [H]. *)
Theorem in_image_box_normalized (W H xmin xmax ymin ymax : Z) :
  0 < W < 2 ^ 52 -> 0 < H < 2 ^ 52 ->
  0 <= xmin <= xmax -> xmax <= W ->
  0 <= ymin <= ymax -> ymax <= H ->
  exists x_center y_center width height,
    convert_to_yolo_format (W, H) (xmin, xmax, ymin, ymax)
    = Ok (x_center, y_center, width, height) /\
    (0 <= SF2R x_center <= 1)%R /\ (0 <= SF2R y_center <= 1)%R /\
    (0 <= SF2R width <= 1)%R /\ (0 <= SF2R height <= 1)%R /\
    Z.abs ((2 * millionths x_center - millionths width) * W
           - 2 * 1000000 * xmin) <= 2 * W /\
    Z.abs ((2 * millionths x_center + millionths width) * W
           - 2 * 1000000 * xmax) <= 2 * W /\
    Z.abs ((2 * millionths y_center - millionths height) * H
           - 2 * 1000000 * ymin) <= 2 * H /\
    Z.abs ((2 * millionths y_center + millionths height) * H
           - 2 * 1000000 * ymax) <= 2 * H.
Proof.
  intros HW HH Hx Hx' Hy Hy'.
  assert (P53 : 2 ^ 53 < 2 ^ 1000) by (apply Z.pow_lt_mono_r; lia).
  assert (P52 : 2 ^ 53 = 2 * 2 ^ 52) by reflexivity.
  destruct (convert_in_range W H xmin xmax ymin ymax)
    as [xc [yc [w [h [Ec [Eq _]]]]]]; try lia.
  exists xc, yc, w, h. split; [exact Ec|].
  destruct (int_truediv_unit (xmin + xmax) (2 * W)) as [xc' [E1 [R1 N1]]]; try lia.
  destruct (int_truediv_unit (ymin + ymax) (2 * H)) as [yc' [E2 [R2 N2]]]; try lia.
  destruct (int_truediv_unit (xmax - xmin) W) as [w' [E3 [R3 N3]]]; try lia.
  destruct (int_truediv_unit (ymax - ymin) H) as [h' [E4 [R4 N4]]]; try lia.
  unfold yolo_quotients in Eq. rewrite E1, E2, E3, E4 in Eq. cbn [rbind] in Eq.
  inversion Eq; subst xc' yc' w' h'.
  repeat (split; [assumption|]).
  destruct (recover_edges xmin xmax W xc w ltac:(lia) N1 N3) as [L1 L2].
  destruct (recover_edges ymin ymax H yc h ltac:(lia) N2 N4) as [L3 L4].
  auto.
Qed.

Lemma in_image_box_normalized_witness :
  exists x_center y_center width height,
    convert_to_yolo_format (640, 480) (100, 200, 50, 150)
    = Ok (x_center, y_center, width, height) /\
    (0 <= SF2R x_center <= 1)%R /\ (0 <= SF2R y_center <= 1)%R /\
    (0 <= SF2R width <= 1)%R /\ (0 <= SF2R height <= 1)%R /\
    Z.abs ((2 * millionths x_center - millionths width) * 640
           - 2 * 1000000 * 100) <= 2 * 640 /\
    Z.abs ((2 * millionths x_center + millionths width) * 640
           - 2 * 1000000 * 200) <= 2 * 640 /\
    Z.abs ((2 * millionths y_center - millionths height) * 480
           - 2 * 1000000 * 50) <= 2 * 480 /\
    Z.abs ((2 * millionths y_center + millionths height) * 480
           - 2 * 1000000 * 150) <= 2 * 480.
Proof.
  apply (in_image_box_normalized 640 480 100 200 50 150);
    vm_compute; try split; reflexivity || discriminate.
Defined.

(* ================================================================= *)
(** * Label lines *)
(* ================================================================= *)

Lemma is_digit_digit_char d : 0 <= d <= 9 -> is_digit (digit_char d) = true.
Proof.
  intros H.
  assert (C : d = 0 \/ d = 1 \/ d = 2 \/ d = 3 \/ d = 4 \/ d = 5 \/ d = 6 \/
              d = 7 \/ d = 8 \/ d = 9) by lia.
  repeat (destruct C as [->|C]; [reflexivity|]). subst d. reflexivity.
Qed.

(** ** The converter returns finite floats *)

Lemma int_truediv_finite a b f : int_truediv a b = Ok f -> is_finite f = true.
Proof.
  unfold int_truediv. destruct (Z.eqb_spec b 0) as [|Hb]; [discriminate|].
  destruct (Z.eq_dec a 0) as [->|Ha].
  - destruct b; [congruence| |]; intros H; inversion H; reflexivity.
  - pose proof (int_truediv_rounds a b Ha Hb) as Hr.
    destruct (fdiv (exact_of_int a) (exact_of_int b)) as [s|s| |s m e];
      intros H; inversion H; try reflexivity.
    exfalso. exact (rounds_to_not_nan _ _ Hr).
Qed.

Lemma canonical_below_max s m e :
  canonical (S754_finite s m e) -> e <= 971 ->
  (IZR (Zpos m) * bpow e < bpow 1024)%R.
Proof.
  unfold canonical, fexp, emin, prec, emax. intros Hc He.
  assert (Hd : Zdigits2 (Zpos m) <= 53) by lia.
  pose proof (Zdigits2_bounds (Zpos m) ltac:(lia)) as [_ B].
  assert (B' : Zpos m < 2 ^ 53).
  { apply Z.lt_le_trans with (2 ^ Zdigits2 (Zpos m)); [exact B|].
    apply Z.pow_le_mono_r; lia. }
  apply IZR_lt in B'. rewrite <- (bpow_IZR 53) in B' by lia.
  pose proof (bpow_le e 971 He). pose proof (bpow_pos e).
  replace 1024 with (53 + 971) by reflexivity. rewrite bpow_add.
  assert (0 < IZR (Zpos m))%R by (apply IZR_lt; lia). nra.
Qed.

Lemma Ok_inj {A} (a b : A) : Ok a = Ok b -> a = b.
Proof. congruence. Qed.

Lemma center_finite a w dx xc :
  float_mul_int lit_2_0 w = Ok dx -> int_truediv_float a dx = Ok xc ->
  is_finite xc = true.
Proof.
  unfold float_mul_int, int_truediv_float, float_truediv.
  destruct (float_of_int w) as [y|] eqn:Ey; unfold rbind; [|discriminate].
  intros Hdx. apply Ok_inj in Hdx. subst dx.
  destruct (float_of_int a) as [x|] eqn:Ex; [|discriminate].
  destruct (is_zero (fmul lit_2_0 y)) eqn:Ez; [intros H; discriminate H|].
  intros H. apply Ok_inj in H. subst xc.
  destruct (Z.eq_dec w 0) as [->|Hw].
  { rewrite float_of_int_0 in Ey. inversion Ey; subst y. discriminate Ez. }
  destruct (float_of_int_inv w y Ey Hw) as [my [ey [-> [Hcy [Hey Hvy]]]]].
  pose proof (fmul_rounds false 4503599627370496 (-51) (w <? 0) my ey
                canonical_lit_2_0 Hcy) as Hr.
  rewrite lit_2_0_value in Hr.
  assert (Hge : (bpow 1 <= 2 * (IZR (Zpos my) * bpow ey))%R)
    by (rewrite bpow_1; lra).
  pose proof (round_ge_bpow _ _ _ 1 Hr Hge ltac:(lia)) as Hdx.
  fold lit_2_0 in Hdx.
  destruct (Z.eq_dec a 0) as [->|Ha].
  { rewrite float_of_int_0 in Ex. inversion Ex; subst x.
    destruct (fmul lit_2_0 (S754_finite (w <? 0) my ey)); try contradiction;
      reflexivity. }
  destruct (float_of_int_inv a x Ex Ha) as [mx [ex [-> [Hcx [Hex Hvx]]]]].
  destruct (fmul lit_2_0 (S754_finite (w <? 0) my ey)) as [s|s| |s md ed];
    try contradiction; [reflexivity|].
  destruct Hdx as [_ [Hd2 _]]. rewrite bpow_1 in Hd2.
  pose proof (fdiv_rounds (a <? 0) mx ex s md ed) as Hq.
  pose proof (canonical_below_max _ _ _ Hcx Hex) as Hmax.
  set (vx := (IZR (Zpos mx) * bpow ex)%R) in *.
  set (vd := (IZR (Zpos md) * bpow ed)%R) in *.
  assert (Hle : (vx / vd <= bpow 1023)%R).
  { replace 1024 with (1023 + 1) in Hmax by reflexivity.
    rewrite bpow_add, bpow_1 in Hmax. pose proof (bpow_pos 1023).
    apply (Rmult_le_reg_r vd); [lra|].
    unfold Rdiv. rewrite Rmult_assoc, Rinv_l by lra. nra. }
  pose proof (round_le_bpow _ _ _ 1023 Hq Hle ltac:(lia)) as Hres.
  unfold fdiv in *.
  destruct (SFdiv prec emax (S754_finite (a <? 0) mx ex) (S754_finite s md ed));
    try contradiction; reflexivity.
Qed.

Lemma convert_finite size box x_center y_center width height :
  convert_to_yolo_format size box = Ok (x_center, y_center, width, height) ->
  is_finite x_center = true /\ is_finite y_center = true /\
  is_finite width = true /\ is_finite height = true.
Proof.
  destruct size as [img_w img_h]. destruct box as [[[xmin xmax] ymin] ymax].
  unfold convert_to_yolo_format.
  destruct (float_mul_int lit_2_0 img_w) as [dx|] eqn:E1; cbn [rbind];
    [|discriminate].
  destruct (int_truediv_float (xmin + xmax) dx) as [xc|] eqn:E2; cbn [rbind];
    [|discriminate].
  destruct (float_mul_int lit_2_0 img_h) as [dy|] eqn:E3; cbn [rbind];
    [|discriminate].
  destruct (int_truediv_float (ymin + ymax) dy) as [yc|] eqn:E4; cbn [rbind];
    [|discriminate].
  destruct (int_truediv (xmax - xmin) img_w) as [w|] eqn:E5; cbn [rbind];
    [|discriminate].
  destruct (int_truediv (ymax - ymin) img_h) as [h|] eqn:E6; cbn [rbind];
    [|discriminate].
  intros H. inversion H; subst.
  split; [exact (center_finite _ _ _ _ E1 E2)|].
  split; [exact (center_finite _ _ _ _ E3 E4)|].
  split; [exact (int_truediv_finite _ _ _ E5)|exact (int_truediv_finite _ _ _ E6)].
Qed.

(** ** Reading the decimal texts back *)

Lemma digit_value_digit_char d : 0 <= d <= 9 -> digit_value (digit_char d) = d.
Proof.
  intros H.
  assert (C : d = 0 \/ d = 1 \/ d = 2 \/ d = 3 \/ d = 4 \/ d = 5 \/ d = 6 \/
              d = 7 \/ d = 8 \/ d = 9) by lia.
  repeat (destruct C as [->|C]; [reflexivity|]). subst d. reflexivity.
Qed.

Lemma digit_char_zero d : 0 <= d <= 9 ->
  Ascii.eqb (digit_char d) "0" = (d =? 0).
Proof.
  intros H.
  assert (C : d = 0 \/ d = 1 \/ d = 2 \/ d = 3 \/ d = 4 \/ d = 5 \/ d = 6 \/
              d = 7 \/ d = 8 \/ d = 9) by lia.
  repeat (destruct C as [->|C]; [reflexivity|]). subst d. reflexivity.
Qed.

Lemma decimal_value_from_app (s1 s2 : string) : forall a,
  decimal_value_from a (s1 ++ s2) =
  match decimal_value_from a s1 with
  | Some v => decimal_value_from v s2
  | None => None
  end.
Proof.
  induction s1 as [|c s1 IH]; intros a; [reflexivity|].
  cbn [String.append decimal_value_from].
  destruct (is_digit c); [apply IH|reflexivity].
Qed.

Lemma string_app_assoc (a b c : string) :
  ((a ++ b) ++ c = a ++ (b ++ c))%string.
Proof.
  induction a as [|x a IH]; [reflexivity|].
  cbn [String.append]. rewrite IH. reflexivity.
Qed.

Lemma string_app_nil (a : string) : (a ++ EmptyString)%string = a.
Proof.
  induction a as [|x a IH]; [reflexivity|].
  cbn [String.append]. rewrite IH. reflexivity.
Qed.

Lemma string_length_app (a b : string) :
  String.length (a ++ b) = (String.length a + String.length b)%nat.
Proof.
  induction a as [|c a IH]; [reflexivity|].
  cbn [String.length String.append]. rewrite IH. reflexivity.
Qed.

(** The digits that [decimal_digits] puts before [acc] read back as [n],
    and start with a zero only when [n] is zero. *)
Lemma decimal_digits_value (fuel : nat) : forall n acc,
  0 <= n < 2 ^ Z.of_nat (S fuel) ->
  exists c d,
    decimal_digits (S fuel) n acc = (String c d ++ acc)%string /\
    (forall a, decimal_value_from a (String c d) =
               Some (a * 10 ^ Z.of_nat (String.length (String c d)) + n)) /\
    (Ascii.eqb c "0" = true -> n = 0 /\ d = EmptyString).
Proof.
  assert (Small : forall k n acc, 0 <= n < 10 ->
    exists c d,
      decimal_digits (S k) n acc = (String c d ++ acc)%string /\
      (forall a, decimal_value_from a (String c d) =
                 Some (a * 10 ^ Z.of_nat (String.length (String c d)) + n)) /\
      (Ascii.eqb c "0" = true -> n = 0 /\ d = EmptyString)).
  { intros k n acc Hn. cbn [decimal_digits].
    replace (n <? 10) with true by (symmetry; apply Z.ltb_lt; lia).
    exists (digit_char (n mod 10)), EmptyString. split; [reflexivity|].
    rewrite Z.mod_small by lia. split.
    - intros a. cbn [decimal_value_from String.length].
      rewrite is_digit_digit_char, digit_value_digit_char by lia.
      change (10 ^ Z.of_nat 1) with 10. f_equal. lia.
    - intros Hz. rewrite digit_char_zero in Hz by lia.
      apply Z.eqb_eq in Hz. auto. }
  induction fuel as [|k IH]; intros n acc Hn.
  - apply Small. change (2 ^ Z.of_nat 1) with 2 in Hn. lia.
  - destruct (Z.ltb_spec n 10) as [Hlt|Hge]; [apply Small; lia|].
    pose proof (Z.mod_pos_bound n 10 ltac:(lia)) as Hm.
    assert (Hq : 0 <= n / 10 < 2 ^ Z.of_nat (S k)).
    { split; [apply Z.div_pos; lia|].
      apply Z.div_lt_upper_bound; [lia|].
      rewrite (Nat2Z.inj_succ (S k)), Z.pow_succ_r in Hn by lia. lia. }
    destruct (IH (n / 10) (String (digit_char (n mod 10)) acc) Hq)
      as [c [d [E [V Z0]]]].
    exists c, (d ++ String (digit_char (n mod 10)) EmptyString)%string.
    split; [|split].
    + change (decimal_digits (S (S k)) n acc) with
        (let acc' := String (digit_char (n mod 10)) acc in
         if n <? 10 then acc' else decimal_digits (S k) (n / 10) acc').
      cbv zeta.
      replace (n <? 10) with false by (symmetry; apply Z.ltb_ge; lia).
      rewrite E. cbn [String.append]. f_equal.
      rewrite string_app_assoc. reflexivity.
    + intros a.
      change (String c (d ++ String (digit_char (n mod 10)) EmptyString))
        with (String c d ++ String (digit_char (n mod 10)) EmptyString)%string.
      rewrite decimal_value_from_app, V. cbn [decimal_value_from].
      rewrite is_digit_digit_char, digit_value_digit_char by lia.
      rewrite string_length_app. cbn [String.length].
      rewrite Nat2Z.inj_add, Z.pow_add_r by lia.
      change (10 ^ Z.of_nat 1) with 10. f_equal.
      pose proof (Z.div_mod n 10 ltac:(lia)). lia.
    + intros Hz. destruct (Z0 Hz) as [Hq0 _].
      assert (n / 10 > 0) by (apply Z.lt_gt, Z.div_str_pos; lia). lia.
Qed.

Lemma log2_fuel n : 0 <= n -> n < 2 ^ Z.of_nat (S (Z.to_nat (Z.log2 n))).
Proof.
  intros Hn. rewrite Nat2Z.inj_succ, Z2Nat.id by apply Z.log2_nonneg.
  destruct (Z.eq_dec n 0) as [->|Hne]; [reflexivity|].
  apply Z.log2_spec. lia.
Qed.

(** [str(n)] is the decimal numeral of [n]. *)
Lemma str_of_nonneg_text n : 0 <= n -> decimal_text (str_of_nonneg n) n.
Proof.
  intros Hn. unfold str_of_nonneg.
  destruct (decimal_digits_value (Z.to_nat (Z.log2 n)) n EmptyString
              (conj Hn (log2_fuel n Hn))) as [c [d [E [V Z0]]]].
  rewrite E.
  rewrite string_app_nil.
  split.
  - cbn [decimal_value]. rewrite V. f_equal; lia.
  - cbn [leading_zero]. destruct d as [|c' d']; [reflexivity|].
    destruct (Ascii.eqb c "0") eqn:Ec; [|reflexivity].
    destruct (Z0 eq_refl) as [_ Hd]. discriminate Hd.
Qed.

Lemma six_digits_value u :
  0 <= u < 1000000 -> decimal_value (six_digits u) = Some u.
Proof.
  intros Hu. unfold six_digits. cbn [decimal_value decimal_value_from].
  rewrite !is_digit_digit_char, !digit_value_digit_char;
    try (match goal with |- 0 <= ?x mod 10 <= 9 =>
           pose proof (Z.mod_pos_bound x 10 ltac:(lia)); lia end).
  f_equal. Z.div_mod_to_equations. lia.
Qed.

Lemma fixed6_text neg u : 0 <= u -> fixed_point6 (fixed6 neg u) neg u.
Proof.
  intros Hu. unfold fixed6. change (10 ^ 6) with 1000000.
  exists (str_of_nonneg (u / 1000000)), (six_digits (u mod 1000000)),
         (u / 1000000), (u mod 1000000).
  pose proof (Z.mod_pos_bound u 1000000 ltac:(lia)) as Hm.
  split; [reflexivity|].
  split; [apply str_of_nonneg_text, Z.div_pos; lia|].
  split; [reflexivity|].
  split; [apply six_digits_value; lia|].
  pose proof (Z.div_mod u 1000000 ltac:(lia)). lia.
Qed.

Lemma micro_units_nonneg m e : 0 <= micro_units m e.
Proof.
  pose proof (micro_units_error m e) as [L _].
  assert (Hp : (0 < IZR (Zpos m) * bpow e)%R).
  { apply Rmult_lt_0_compat; [apply IZR_lt; lia|apply bpow_pos]. }
  assert (H : (-1 < IZR (micro_units m e))%R) by lra.
  apply lt_IZR in H. lia.
Qed.

(** A finite float prints as its value rounded to six decimals. *)
Lemma format_6f_text x : is_finite x = true -> six_decimal_text (format_6f x) x.
Proof.
  destruct x as [s|s| |s m e]; cbn [is_finite]; intros H; try discriminate H.
  - exists 0. cbn [format_6f sign_bit millionths SF2R].
    split; [apply fixed6_text; lia|]. split; [reflexivity|].
    rewrite Rabs_R0, Rmult_0_r, Rminus_0_r, Rabs_R0. lra.
  - pose proof (micro_units_nonneg m e) as Hn.
    pose proof (micro_units_error m e) as He.
    exists (micro_units m e). cbn [format_6f sign_bit millionths].
    split; [apply fixed6_text; exact Hn|]. split.
    { destruct s; lia. }
    assert (Hp : (0 < IZR (Zpos m) * bpow e)%R).
    { apply Rmult_lt_0_compat; [apply IZR_lt; lia|apply bpow_pos]. }
    assert (Ha : Rabs (SF2R (S754_finite s m e)) = (IZR (Zpos m) * bpow e)%R).
    { rewrite SF2R_finite. destruct s.
      - replace (-1 * (IZR (Zpos m) * bpow e))%R
          with (- (IZR (Zpos m) * bpow e))%R by ring.
        rewrite Rabs_Ropp. apply Rabs_right. lra.
      - rewrite Rmult_1_l. apply Rabs_right. lra. }
    rewrite Ha. apply Rabs_le. lra.
Qed.

(** The f-string of the script writes a label line. *)
Lemma label_line_text class_id x_center y_center width height :
  0 <= class_id ->
  is_finite x_center = true -> is_finite y_center = true ->
  is_finite width = true -> is_finite height = true ->
  is_label_line (label_line class_id (x_center, y_center, width, height))
    class_id (x_center, y_center, width, height).
Proof.
  intros Hi F1 F2 F3 F4. unfold is_label_line, label_line.
  exists (str_of_int class_id), (format_6f x_center), (format_6f y_center),
         (format_6f width), (format_6f height).
  split; [cbn [map join]; rewrite !string_app_assoc; reflexivity|]. split.
  { unfold str_of_int.
    replace (class_id <? 0) with false by (symmetry; apply Z.ltb_ge; lia).
    apply str_of_nonneg_text. exact Hi. }
  repeat split; apply format_6f_text; assumption.
Qed.

(* ================================================================= *)
(** * The lines of a file *)
(* ================================================================= *)

(** ** Reading a field *)

Lemma int_field_absent b t :
  find b t = None -> int_field (Some b) t = Raise AttributeError.
Proof.
  intros H. unfold int_field, node_find, node_text, rbind. rewrite H.
  reflexivity.
Qed.

Lemma int_field_literal b t c :
  find b t = Some c -> is_int_literal (text c) = true ->
  exists z, int_field (Some b) t = Ok z.
Proof.
  intros H L. unfold int_field, node_find, node_text, rbind, int_of_text.
  rewrite H. unfold is_int_literal in L.
  destruct (text c) as [s|]; [|discriminate L].
  destruct (parse_int s) as [z|]; [|discriminate L].
  exists z. reflexivity.
Qed.

Lemma int_field_bad b t c :
  find b t = Some c -> is_int_literal (text c) = false ->
  int_field (Some b) t = Raise (literal_error (text c)).
Proof.
  intros H L. unfold int_field, node_find, node_text, rbind, int_of_text.
  rewrite H. unfold is_int_literal in L.
  destruct (text c) as [s|]; [|reflexivity].
  destruct (parse_int s) as [z|]; [discriminate L|reflexivity].
Qed.

Lemma literal_error_kind v : literal_error v <> AttributeError.
Proof. destruct v; discriminate. Qed.

(** The three cases of a field: absent, an integer literal, or a content
    that [int] refuses. *)
Lemma int_field_cases b t :
  (find b t = None /\ int_field (Some b) t = Raise AttributeError) \/
  (exists c z, find b t = Some c /\ is_int_literal (text c) = true /\
               int_field (Some b) t = Ok z) \/
  (exists c, find b t = Some c /\ is_int_literal (text c) = false /\
             int_field (Some b) t = Raise (literal_error (text c))).
Proof.
  destruct (find b t) as [c|] eqn:F.
  - destruct (is_int_literal (text c)) eqn:L.
    + destruct (int_field_literal b t c F L) as [z E].
      right. left. exists c, z. auto.
    + right. right. exists c. split; [reflexivity|]. split; [exact L|].
      exact (int_field_bad b t c F L).
  - left. split; [reflexivity|exact (int_field_absent b t F)].
Qed.

(** Reading the box raises [AttributeError] exactly when the box is
    missing. *)
Lemma read_box_missing bndbox :
  box_missing bndbox = true <-> read_box bndbox = Raise AttributeError.
Proof.
  destruct bndbox as [b|]; [|split; reflexivity].
  cbn [box_missing first_absent]. unfold read_box, rbind.
  destruct (int_field_cases b "xmin")
    as [[F1 E1]|[[c1 [z1 [F1 [L1 E1]]]]|[c1 [F1 [L1 E1]]]]];
    rewrite F1, E1; [split; reflexivity| |].
  2:{ rewrite L1. split; [discriminate|].
      intros H. apply (f_equal (fun r => match r with
                                         | Raise e => e
                                         | Ok _ => AttributeError
                                         end)) in H.
      destruct (literal_error_kind _ H). }
  rewrite L1. cbn [andb].
  destruct (int_field_cases b "ymin")
    as [[F2 E2]|[[c2 [z2 [F2 [L2 E2]]]]|[c2 [F2 [L2 E2]]]]];
    rewrite F2, E2; [split; reflexivity| |].
  2:{ rewrite L2. split; [discriminate|].
      intros H. apply (f_equal (fun r => match r with
                                         | Raise e => e
                                         | Ok _ => AttributeError
                                         end)) in H.
      destruct (literal_error_kind _ H). }
  rewrite L2. cbn [andb].
  destruct (int_field_cases b "xmax")
    as [[F3 E3]|[[c3 [z3 [F3 [L3 E3]]]]|[c3 [F3 [L3 E3]]]]];
    rewrite F3, E3; [split; reflexivity| |].
  2:{ rewrite L3. split; [discriminate|].
      intros H. apply (f_equal (fun r => match r with
                                         | Raise e => e
                                         | Ok _ => AttributeError
                                         end)) in H.
      destruct (literal_error_kind _ H). }
  rewrite L3. cbn [andb].
  destruct (int_field_cases b "ymax")
    as [[F4 E4]|[[c4 [z4 [F4 [L4 E4]]]]|[c4 [F4 [L4 E4]]]]];
    rewrite F4, E4; [split; reflexivity| |].
  2:{ rewrite L4. split; [discriminate|].
      intros H. apply (f_equal (fun r => match r with
                                         | Raise e => e
                                         | Ok _ => AttributeError
                                         end)) in H.
      destruct (literal_error_kind _ H). }
  rewrite L4. split; discriminate.
Qed.

(** ** One object entry *)

Lemma process_object_missing_box xml_path classes size obj :
  missing_box classes obj = true ->
  process_object xml_path classes size obj =
  ([Print (MsgMissingBox xml_path)], Ok None).
Proof.
  unfold missing_box, process_object. intros H.
  destruct (find obj "name") as [n|]; [|discriminate H].
  cbn [node_text]. rewrite bind_lift_ok.
  destruct (class_index classes (text n)) as [i|e]; [|discriminate H].
  apply read_box_missing in H. rewrite H. reflexivity.
Qed.

Lemma process_object_converts xml_path classes size obj class_id yolo_box :
  object_converts classes size obj class_id yolo_box ->
  process_object xml_path classes size obj =
  ([], Ok (Some (label_line class_id yolo_box))) /\
  is_label_line (label_line class_id yolo_box) class_id yolo_box.
Proof.
  intros [n [name [box [Hn [Ht [Hi [Hb Hc]]]]]]].
  split.
  - unfold process_object. rewrite Hn. cbn [node_text].
    rewrite bind_lift_ok, Ht. cbn [class_index]. rewrite Hi, Hb, Hc.
    rewrite bind_lift_ok. reflexivity.
  - destruct yolo_box as [[[xc yc] w] h].
    destruct (convert_finite _ _ _ _ _ _ Hc) as [F1 [F2 [F3 F4]]].
    destruct (index_spec _ _ _ Hi) as [[Hi0 _] _].
    apply label_line_text; assumption.
Qed.

Lemma line_of_object_converts classes size obj class_id yolo_box line :
  line_of_object classes size obj class_id yolo_box line ->
  object_converts classes size obj class_id yolo_box /\
  line = label_line class_id yolo_box.
Proof.
  intros [n [name [box [Hn [Ht [Hi [Hb [Hc Hl]]]]]]]].
  split; [exists n, name, box; auto|exact Hl].
Qed.

(** ** The loop over the object entries *)



(** Every line that the parser returns is the label line of one of the
    object entries of the file, which converts. *)
Lemma process_xml_file_label_lines files xml_path classes t lines :
  process_xml_file files xml_path classes = (t, Ok lines) ->
  forall line, In line lines ->
    exists root size obj class_id yolo_box,
      parse files xml_path = Ok root /\
      read_size (find root "size") = Ok size /\
      In obj (findall root "object") /\
      object_converts classes size obj class_id yolo_box /\
      line = label_line class_id yolo_box /\
      is_label_line line class_id yolo_box.
Proof.
  intros H line Hin.
  destruct (process_xml_file_lines _ _ _ _ _ H line Hin)
    as [root [size [obj [i [b [Hp [Hs [Ho Hl]]]]]]]].
  destruct (line_of_object_converts _ _ _ _ _ _ Hl) as [Hc ->].
  exists root, size, obj, i, b.
  repeat (split; [assumption|]). split; [reflexivity|].
  exact (proj2 (process_object_converts xml_path classes size obj i b Hc)).
Qed.

(** ** C4: the format of a label line *)

(** C4. Every line that the parser returns belongs to an object entry of
    the file, of a registered class, whose box the converter has turned
    into four values, and it is made of the index of that class in decimal
    and of these four values, x_center, y_center, width and height in this
    order, each rounded to the nearest millionth and written with exactly
    six decimals, the five fields separated by single spaces and followed
    by a newline.  For a 640 by 480 image and the box (100, 200, 50, 150)
    of class 0 the line is ["0 0.234375 0.208333 0.156250 0.208333\n"]. *)
Theorem label_line_format :
  (forall (files : list (string * document)) (xml_path : string)
          (classes : list string) (t : list event) (lines : list string),
     process_xml_file files xml_path classes = (t, Ok lines) ->
     forall line, In line lines ->
       exists root size obj class_id yolo_box,
         parse files xml_path = Ok root /\
         read_size (find root "size") = Ok size /\
         In obj (findall root "object") /\
         object_converts classes size obj class_id yolo_box /\
         is_label_line line class_id yolo_box) /\
  rbind (convert_to_yolo_format (640, 480) (100, 200, 50, 150))
        (fun yolo_box => Ok (label_line 0 yolo_box)) = Ok sample_line /\
  process_xml_file [("img.xml"%string, Document sample_annotation)]
    "img.xml" CLASS_NAMES = ([], Ok [sample_line]).
Proof.
  split; [|split; vm_compute; reflexivity].
  intros files xml_path classes t lines H line Hin.
  destruct (process_xml_file_label_lines _ _ _ _ _ H line Hin)
    as [root [size [obj [i [b [Hp [Hs [Ho [Hc [_ Hl]]]]]]]]]].
  exists root, size, obj, i, b. auto.
Qed.

(** The four fields of the sample line, read back: 234375, 208333, 156250
    and 208333 millionths, the second and the fourth being 5/24 rounded
    down. *)
Example sample_line_fields :
  sample_line =
    ("0" ++ " " ++ "0.234375" ++ " " ++ "0.208333" ++ " " ++ "0.156250" ++ " "
     ++ "0.208333" ++ newline)%string /\
  decimal_text "0" 0 /\
  fixed_point6 "0.234375" false 234375 /\ fixed_point6 "0.208333" false 208333 /\
  fixed_point6 "0.156250" false 156250.
Proof.
  split; [reflexivity|]. split; [split; reflexivity|].
  repeat split;
    [exists "0"%string, "234375"%string, 0, 234375
    |exists "0"%string, "208333"%string, 0, 208333
    |exists "0"%string, "156250"%string, 0, 156250];
    repeat split; reflexivity.
Qed.

(** ** C6: an unknown class skips one object only *)




(** ** C10: class identifiers are registry indices *)

(** C10. Every line that the parser returns for a file carries the index
    of the class name of its object entry in the registry: the class id is
    at least 0, below the length of the registry, the registry holds that
    name at that position, and the line starts with the decimal numeral of
    that index, followed by a space and the four values of the box. *)
Theorem class_id_is_registry_index
  (files : list (string * document)) (xml_path : string)
  (classes : list string) (t : list event) (lines : list string) :
  process_xml_file files xml_path classes = (t, Ok lines) ->
  forall line, In line lines ->
    exists root obj name_node name class_id yolo_box,
      parse files xml_path = Ok root /\
      In obj (findall root "object") /\
      find obj "name" = Some name_node /\ text name_node = Some name /\
      index name classes = Ok class_id /\
      0 <= class_id < Z.of_nat (List.length classes) /\
      nth_error classes (Z.to_nat class_id) = Some name /\
      line = label_line class_id yolo_box /\
      is_label_line line class_id yolo_box.
Proof.
  intros H line Hin.
  destruct (process_xml_file_label_lines _ _ _ _ _ H line Hin)
    as [root [size [obj [i [b [Hp [_ [Ho [Hc [Hl Ha]]]]]]]]]].
  destruct Hc as [n [name [box [Hn [Ht [Hi _]]]]]].
  destruct (index_spec _ _ _ Hi) as [Hr Hnth].
  exists root, obj, n, name, i, b. auto 10.
Qed.

Lemma class_id_is_registry_index_witness :
  exists root obj name_node name class_id yolo_box,
    parse [("img.xml"%string, Document sample_annotation)] "img.xml" = Ok root /\
    In obj (findall root "object") /\
    find obj "name" = Some name_node /\ text name_node = Some name /\
    index name ["crack"; "pothole"]%string = Ok class_id /\
    0 <= class_id < Z.of_nat (List.length ["crack"; "pothole"]%string) /\
    nth_error ["crack"; "pothole"]%string (Z.to_nat class_id) = Some name /\
    ("1 0.234375 0.208333 0.156250 0.208333" ++ newline)%string
    = label_line class_id yolo_box /\
    is_label_line ("1 0.234375 0.208333 0.156250 0.208333" ++ newline)%string
      class_id yolo_box.
Proof.
  apply (class_id_is_registry_index
           [("img.xml"%string, Document sample_annotation)] "img.xml"
           ["crack"; "pothole"]%string []
           [("1 0.234375 0.208333 0.156250 0.208333" ++ newline)%string]).
  - vm_compute. reflexivity.
  - left. reflexivity.
Defined.

(* ================================================================= *)
(** * Failure policy of the parser *)
(* ================================================================= *)

Lemma int_field_pixel node t :
  field_ok pixel_text node t = true ->
  int_field node t = Raise AttributeError \/
  exists z, int_field node t = Ok z /\ Z.abs z < 2 ^ 52.
Proof.
  unfold field_ok, int_field, node_find, node_text, pixel_text, int_of_text.
  destruct node as [e|]; [|left; reflexivity].
  unfold rbind. destruct (find e t) as [c|]; [|left; reflexivity].
  destruct (text c) as [s|]; [|discriminate].
  destruct (parse_int s) as [z|]; [|discriminate].
  intros H. right. exists z. split; [reflexivity|]. apply Z.ltb_lt. exact H.
Qed.

Lemma int_field_dimension node t :
  field_ok dimension_text node t = true ->
  int_field node t = Raise AttributeError \/
  exists z, int_field node t = Ok z /\ 0 < z < 2 ^ 52.
Proof.
  unfold field_ok, int_field, node_find, node_text, dimension_text, int_of_text.
  destruct node as [e|]; [|left; reflexivity].
  unfold rbind. destruct (find e t) as [c|]; [|left; reflexivity].
  destruct (text c) as [s|]; [|discriminate].
  destruct (parse_int s) as [z|]; [|discriminate].
  intros H. apply andb_prop in H. destruct H as [H1 H2].
  right. exists z. split; [reflexivity|].
  split; [apply Z.ltb_lt; exact H1|apply Z.ltb_lt; exact H2].
Qed.

Lemma read_size_cases node :
  field_ok dimension_text node "width" = true ->
  field_ok dimension_text node "height" = true ->
  read_size node = Raise AttributeError \/
  exists W H, read_size node = Ok (W, H) /\ 0 < W < 2 ^ 52 /\ 0 < H < 2 ^ 52.
Proof.
  intros Hw Hh. unfold read_size.
  destruct (int_field_dimension _ _ Hw) as [E|[W [E HW]]]; rewrite E;
    [left; reflexivity|].
  destruct (int_field_dimension _ _ Hh) as [E'|[H [E' HH]]]; unfold rbind;
    rewrite E'; [left; reflexivity|].
  right. exists W, H. auto.
Qed.

Lemma read_box_cases node :
  field_ok pixel_text node "xmin" = true ->
  field_ok pixel_text node "ymin" = true ->
  field_ok pixel_text node "xmax" = true ->
  field_ok pixel_text node "ymax" = true ->
  read_box node = Raise AttributeError \/
  exists xmin xmax ymin ymax,
    read_box node = Ok (xmin, xmax, ymin, ymax) /\
    Z.abs xmin < 2 ^ 52 /\ Z.abs xmax < 2 ^ 52 /\
    Z.abs ymin < 2 ^ 52 /\ Z.abs ymax < 2 ^ 52.
Proof.
  intros H1 H2 H3 H4. unfold read_box, rbind.
  destruct (int_field_pixel _ _ H1) as [E1|[xmin [E1 B1]]]; rewrite E1;
    [left; reflexivity|].
  destruct (int_field_pixel _ _ H2) as [E2|[ymin [E2 B2]]]; rewrite E2;
    [left; reflexivity|].
  destruct (int_field_pixel _ _ H3) as [E3|[xmax [E3 B3]]]; rewrite E3;
    [left; reflexivity|].
  destruct (int_field_pixel _ _ H4) as [E4|[ymax [E4 B4]]]; rewrite E4;
    [left; reflexivity|].
  right. exists xmin, xmax, ymin, ymax. auto 10.
Qed.

Lemma process_object_total xml_path classes W H obj :
  0 < W < 2 ^ 52 -> 0 < H < 2 ^ 52 -> object_ok obj = true ->
  exists t r, process_object xml_path classes (W, H) obj = (t, Ok r).
Proof.
  intros HW HH Hok. unfold object_ok in Hok. unfold process_object.
  destruct (find obj "name") as [n|]; [|discriminate Hok].
  cbn [node_text]. rewrite bind_lift_ok.
  destruct (class_index classes (text n)) as [i|e] eqn:Ei.
  2:{ apply class_index_raise in Ei. subst e. eexists _, _. reflexivity. }
  apply andb_prop in Hok. destruct Hok as [Hok H4].
  apply andb_prop in Hok. destruct Hok as [Hok H3].
  apply andb_prop in Hok. destruct Hok as [H1 H2].
  destruct (read_box_cases _ H1 H2 H3 H4)
    as [E|[xmin [xmax [ymin [ymax [E [B1 [B2 [B3 B4]]]]]]]]]; rewrite E.
  { eexists _, _. reflexivity. }
  destruct (convert_in_range W H xmin xmax ymin ymax HW HH B1 B2 B3 B4)
    as [xc [yc [w [h [Ec _]]]]].
  rewrite Ec, bind_lift_ok. eexists _, _. reflexivity.
Qed.

Lemma process_objects_total xml_path classes W H objs : forall acc,
  0 < W < 2 ^ 52 -> 0 < H < 2 ^ 52 -> forallb object_ok objs = true ->
  exists t lines,
    process_objects xml_path classes (W, H) objs acc = (t, Ok lines).
Proof.
  induction objs as [|obj rest IH]; intros acc HW HH Hok.
  - eexists _, _. reflexivity.
  - cbn [forallb] in Hok. apply andb_prop in Hok. destruct Hok as [Ho Hr].
    destruct (process_object_total xml_path classes W H obj HW HH Ho)
      as [t1 [r E1]].
    rewrite process_objects_cons, E1, bind_ok.
    destruct (IH (match r with Some line => acc ++ [line] | None => acc end)
                HW HH Hr) as [t2 [lines E2]].
    rewrite E2. eexists _, _. reflexivity.
Qed.

Lemma process_xml_file_unparsable files xml_path classes :
  parse files xml_path = Raise ParseError ->
  process_xml_file files xml_path classes =
  ([Print (MsgParseError xml_path)], Ok []).
Proof. unfold process_xml_file. intros ->. reflexivity. Qed.

Lemma read_size_missing root :
  size_missing root = true ->
  read_size (find root "size") = Raise AttributeError.
Proof.
  unfold size_missing, read_size, int_field, node_find, node_text, rbind.
  destruct (find root "size") as [s|]; [|reflexivity].
  destruct (find s "width") as [w|]; [|reflexivity].
  unfold is_int_literal, int_of_text.
  destruct (text w) as [v|]; [|discriminate].
  destruct (parse_int v) as [z|]; [|discriminate].
  destruct (find s "height"); [discriminate|reflexivity].
Qed.

Lemma process_xml_file_no_size files xml_path classes root :
  parse files xml_path = Ok root -> size_missing root = true ->
  process_xml_file files xml_path classes =
  ([Print (MsgNoSize xml_path)], Ok []).
Proof.
  unfold process_xml_file. intros -> Hs.
  rewrite (read_size_missing root Hs). reflexivity.
Qed.

Lemma process_xml_file_well_formed files xml_path classes root :
  parse files xml_path = Ok root -> well_formed root = true ->
  exists t lines, process_xml_file files xml_path classes = (t, Ok lines).
Proof.
  unfold process_xml_file, well_formed. intros -> Hwf.
  apply andb_prop in Hwf. destruct Hwf as [Hwf Hobjs].
  apply andb_prop in Hwf. destruct Hwf as [Hw Hh].
  destruct (read_size_cases _ Hw Hh) as [E|[W [H [E [HW HH]]]]]; rewrite E.
  - eexists _, _. reflexivity.
  - apply process_objects_total; assumption.
Qed.

Lemma process_xml_file_parse_raises files xml_path classes e :
  parse files xml_path = Raise e -> e <> ParseError ->
  process_xml_file files xml_path classes = ([], Raise e).
Proof.
  unfold process_xml_file. intros -> He.
  destruct e; try reflexivity. congruence.
Qed.

Lemma process_xml_file_bad_width files xml_path classes root s w :
  parse files xml_path = Ok root -> find root "size" = Some s ->
  find s "width" = Some w -> is_int_literal (text w) = false ->
  process_xml_file files xml_path classes =
  ([], Raise (literal_error (text w))).
Proof.
  intros Hp Hs Hw L. unfold process_xml_file, read_size, rbind.
  rewrite Hp, Hs, (int_field_bad s "width" w Hw L).
  destruct (text w); reflexivity.
Qed.

Lemma process_xml_file_bad_height files xml_path classes root s w h :
  parse files xml_path = Ok root -> find root "size" = Some s ->
  find s "width" = Some w -> is_int_literal (text w) = true ->
  find s "height" = Some h -> is_int_literal (text h) = false ->
  process_xml_file files xml_path classes =
  ([], Raise (literal_error (text h))).
Proof.
  intros Hp Hs Hw Lw Hh Lh. unfold process_xml_file, read_size, rbind.
  destruct (int_field_literal s "width" w Hw Lw) as [z Ez].
  rewrite Hp, Hs, Ez, (int_field_bad s "height" h Hh Lh).
  destruct (text h); reflexivity.
Qed.

(** ** C3: what the parser does with bad files *)

(** The claim as stated fails: a width that is not a number makes the
    parser raise [ValueError], and so does a file that declares a
    multi-byte encoding, where the claim has it warn and return an empty
    result. *)
Lemma parser_raises_on_malformed_size :
  process_xml_file [("img.xml"%string, Document sample_bad_width)]
    "img.xml" CLASS_NAMES = ([], Raise ValueError) /\
  process_xml_file [("img.xml"%string, MultiByteEncoding)]
    "img.xml" CLASS_NAMES = ([], Raise ValueError).
Proof. split; vm_compute; reflexivity. Qed.

(** C3 (amended).  When [ET.parse] raises [ParseError] the parser prints a
    warning and returns an empty result.  When the size section is absent,
    or its width element is absent, or its width is an integer literal and
    its height element is absent, it prints a warning and returns an empty
    result.  On a well-formed annotation (the widths, heights and
    coordinates that are present are integer literals, the dimensions
    between 1 and [2^52 - 1], the coordinates below [2^52] in absolute
    value, and every object entry has a name element) it returns without
    raising.  It does raise, with no message: the exception of [ET.parse]
    when that is not [ParseError]; [TypeError] for a width element that is
    present and empty and [ValueError] for one whose text is not an integer
    literal; and the same for such a height element when the width is an
    integer literal. *)
Theorem parser_failure_policy :
  (forall files xml_path classes,
     parse files xml_path = Raise ParseError ->
     process_xml_file files xml_path classes =
     ([Print (MsgParseError xml_path)], Ok [])) /\
  (forall files xml_path classes root,
     parse files xml_path = Ok root -> size_missing root = true ->
     process_xml_file files xml_path classes =
     ([Print (MsgNoSize xml_path)], Ok [])) /\
  (forall files xml_path classes root,
     parse files xml_path = Ok root -> well_formed root = true ->
     exists t lines, process_xml_file files xml_path classes = (t, Ok lines)) /\
  (forall files xml_path classes e,
     parse files xml_path = Raise e -> e <> ParseError ->
     process_xml_file files xml_path classes = ([], Raise e)) /\
  (forall files xml_path classes root size_node width_node,
     parse files xml_path = Ok root ->
     find root "size" = Some size_node ->
     find size_node "width" = Some width_node ->
     is_int_literal (text width_node) = false ->
     process_xml_file files xml_path classes =
     ([], Raise (literal_error (text width_node)))) /\
  (forall files xml_path classes root size_node width_node height_node,
     parse files xml_path = Ok root ->
     find root "size" = Some size_node ->
     find size_node "width" = Some width_node ->
     is_int_literal (text width_node) = true ->
     find size_node "height" = Some height_node ->
     is_int_literal (text height_node) = false ->
     process_xml_file files xml_path classes =
     ([], Raise (literal_error (text height_node)))).
Proof.
  split; [exact process_xml_file_unparsable|].
  split; [exact process_xml_file_no_size|].
  split; [exact process_xml_file_well_formed|].
  split; [exact process_xml_file_parse_raises|].
  split; [exact process_xml_file_bad_width|exact process_xml_file_bad_height].
Qed.

Lemma parser_failure_policy_witness :
  exists t lines,
    process_xml_file [("img.xml"%string, Document sample_two_classes)]
      "img.xml" CLASS_NAMES = (t, Ok lines).
Proof.
  apply (proj1 (proj2 (proj2 parser_failure_policy))
           [("img.xml"%string, Document sample_two_classes)]
           "img.xml"%string CLASS_NAMES sample_two_classes);
    vm_compute; reflexivity.
Defined.

Example parser_on_unparsable_file :
  process_xml_file [("img.xml"%string, Malformed)] "img.xml" CLASS_NAMES =
  ([Print (MsgParseError "img.xml")], Ok []).
Proof. reflexivity. Qed.

Example parser_without_size :
  process_xml_file
    [("img.xml"%string,
      Document (Element "annotation" None
                  [sample_object "pothole" "100" "50" "200" "150"]))]
    "img.xml" CLASS_NAMES =
  ([Print (MsgNoSize "img.xml")], Ok []).
Proof. reflexivity. Qed.

(** A width that is not a number and no height: the width is read first,
    and [ValueError] is raised; no width and a height that is not a
    number: the absence is met first, and the file is skipped with a
    warning. *)
Example size_is_read_in_order :
  process_xml_file
    [("img.xml"%string,
      Document (Element "annotation" None
                  [Element "size" None [leaf "width" "64O"]]))]
    "img.xml" CLASS_NAMES = ([], Raise ValueError) /\
  process_xml_file
    [("img.xml"%string,
      Document (Element "annotation" None
                  [Element "size" None [leaf "height" "48O"]]))]
    "img.xml" CLASS_NAMES = ([Print (MsgNoSize "img.xml")], Ok []).
Proof. split; reflexivity. Qed.

(** A width of 4303 digits is beyond what [int] converts. *)
Example width_with_too_many_digits :
  is_int_literal
    (Some (string_of_list_ascii (List.repeat "0"%char 4300) ++ "640")%string)
  = false /\
  is_int_literal
    (Some (string_of_list_ascii (List.repeat "0"%char 4297) ++ "640")%string)
  = true.
Proof. split; vm_compute; reflexivity. Qed.

Example sample_annotation_well_formed :
  well_formed sample_annotation = true /\
  well_formed sample_two_classes = true /\
  well_formed sample_bad_width = false.
Proof. vm_compute. auto. Qed.

(* ================================================================= *)
(** * The pipeline *)
(* ================================================================= *)

Lemma for_each_cons {A} (body : A -> M unit) (a : A) (rest : list A) :
  for_each body (a :: rest) = bind (body a) (fun _ => for_each body rest).
Proof. reflexivity. Qed.

Lemma process_item_eq w files s name t lines :
  process_xml_file files name CLASS_NAMES = (t, Ok lines) ->
  process_item w files s name =
  (t ++ [WriteLabel s (splitext_root name ++ ".txt") lines;
         image_event w s (splitext_root name)], Ok tt).
Proof.
  intros E. unfold process_item, image_event. rewrite E, bind_ok, bind_emit.
  destruct (List.find _ image_extensions); reflexivity.
Qed.

(** An unparsable file in the training set: a warning, an empty label file
    named after it, and, no image being there, a second warning. *)
Example empty_label_for_unparsable_file :
  process_item (sample_world [("a.xml"%string, Malformed)])
    [("a.xml"%string, Malformed)] train "a.xml" =
  ([Print (MsgParseError "a.xml"); WriteLabel train "a.txt" [];
    Print (MsgNoImage "a")], Ok tt).
Proof. reflexivity. Qed.

(** ** The run up to discovery *)

Lemma split_parts (g : nat -> nat) (names : list string) :
  Z.of_nat (List.length names) < 2 ^ 63 ->
  exists tr va te,
    split g names = Ok [(train, tr); (val, va); (test, te)] /\
    Permutation (tr ++ va ++ te) names.
Proof.
  intros HN.
  destruct (split_eq g names HN) as [t [v [a [b [_ [_ [_ [_ [_ [_ [_ E]]]]]]]]]]].
  do 3 eexists. split; [exact E|].
  rewrite three_slices. apply shuffle_perm.
Qed.

Lemma main_no_directory w :
  xml_dir w = None -> main w = (setup_trace ++ [Print MsgFatalNoDir], Ok tt).
Proof. unfold main. intros ->. reflexivity. Qed.

Lemma main_no_annotation w files :
  xml_dir w = Some files -> xml_names files = [] ->
  main w = (setup_trace ++ [Print MsgFatalNoXml], Ok tt).
Proof. unfold main, xml_names. intros -> ->. reflexivity. Qed.

(* ================================================================= *)
(** * Further properties of the converter *)
(* ================================================================= *)

(** The quotient of two integers does not change when both are multiplied
    by the same positive factor. *)
Lemma int_truediv_scale k a b :
  0 < k -> b <> 0 -> Z.abs (k * a) < 2 ^ 1000 -> Z.abs (k * b) < 2 ^ 1000 ->
  int_truediv (k * a) (k * b) = int_truediv a b.
Proof.
  intros Hk Hb Ha1 Hb1.
  assert (Ha2 : Z.abs a < 2 ^ 1000) by nia.
  assert (Hb2 : Z.abs b < 2 ^ 1000) by nia.
  assert (Hkb : k * b <> 0) by nia.
  assert (Sb : (k * b <? 0) = (b <? 0)).
  { destruct (Z.ltb_spec b 0); [apply Z.ltb_lt|apply Z.ltb_ge]; nia. }
  destruct (Z.eq_dec a 0) as [->|Hne].
  { rewrite Z.mul_0_r, !int_truediv_zero, Sb by assumption. reflexivity. }
  assert (Sa : (k * a <? 0) = (a <? 0)).
  { destruct (Z.ltb_spec a 0); [apply Z.ltb_lt|apply Z.ltb_ge]; nia. }
  destruct (int_truediv_spec (k * a) (k * b) Hkb Ha1 Hb1) as [f1 [E1 M1]].
  destruct (int_truediv_spec a b Hb Ha2 Hb2) as [f2 [E2 M2]].
  rewrite E1, E2. f_equal.
  destruct f1 as [s1|s1| |s1 m1 e1]; try contradiction; [destruct M1; nia|].
  destruct f2 as [s2|s2| |s2 m2 e2]; try contradiction; [tauto|].
  destruct M1 as [_ [S1 [_ [R1 _]]]]. destruct M2 as [_ [S2 [_ [R2 _]]]].
  rewrite Sa, Sb in S1. rewrite S1 in R1. rewrite S2 in R2.
  assert (Ev : (IZR (Z.abs (k * a)) / IZR (Z.abs (k * b)) =
                IZR (Z.abs a) / IZR (Z.abs b))%R).
  { rewrite !Z.abs_mul, !mult_IZR, (Z.abs_eq k) by lia.
    assert (IZR k <> 0%R) by (apply not_0_IZR; lia).
    assert (IZR (Z.abs b) <> 0%R) by (apply not_0_IZR; lia).
    field. split; assumption. }
  rewrite Ev in R1.
  rewrite S1, S2 in *.
  exact (rounds_to_fun _ _ _ _ R1 R2).
Qed.

(** X1.  The normalized box does not depend on the resolution: an image and its
    box scaled by the same positive integer factor convert to the same four
    floats. *)
Theorem convert_scale_invariant (k W H xmin xmax ymin ymax : Z) :
  0 < k -> 0 < W -> 0 < H -> k * W < 2 ^ 52 -> k * H < 2 ^ 52 ->
  Z.abs (k * xmin) < 2 ^ 52 -> Z.abs (k * xmax) < 2 ^ 52 ->
  Z.abs (k * ymin) < 2 ^ 52 -> Z.abs (k * ymax) < 2 ^ 52 ->
  convert_to_yolo_format (k * W, k * H)
    (k * xmin, k * xmax, k * ymin, k * ymax) =
  convert_to_yolo_format (W, H) (xmin, xmax, ymin, ymax).
Proof.
  intros Hk HW HH HkW HkH Hx1 Hx2 Hy1 Hy2.
  assert (P53 : 2 ^ 53 < 2 ^ 1000) by (apply Z.pow_lt_mono_r; lia).
  assert (P52 : 2 ^ 53 = 2 * 2 ^ 52) by reflexivity.
  destruct (convert_in_range (k * W) (k * H) (k * xmin) (k * xmax)
              (k * ymin) (k * ymax)) as [a1 [b1 [c1 [d1 [E1 [Q1 _]]]]]];
    try nia.
  destruct (convert_in_range W H xmin xmax ymin ymax)
    as [a2 [b2 [c2 [d2 [E2 [Q2 _]]]]]]; try nia.
  rewrite E1, E2, <- Q1, <- Q2. unfold yolo_quotients.
  replace (k * xmin + k * xmax) with (k * (xmin + xmax)) by ring.
  replace (k * ymin + k * ymax) with (k * (ymin + ymax)) by ring.
  replace (k * xmax - k * xmin) with (k * (xmax - xmin)) by ring.
  replace (k * ymax - k * ymin) with (k * (ymax - ymin)) by ring.
  replace (2 * (k * W)) with (k * (2 * W)) by ring.
  replace (2 * (k * H)) with (k * (2 * H)) by ring.
  rewrite !int_truediv_scale by nia. reflexivity.
Qed.

Lemma convert_scale_invariant_witness :
  convert_to_yolo_format (2 * 640, 2 * 480) (2 * 100, 2 * 200, 2 * 50, 2 * 150)
  = convert_to_yolo_format (640, 480) (100, 200, 50, 150).
Proof.
  apply (convert_scale_invariant 2 640 480 100 200 50 150); reflexivity.
Defined.

(** The sign of a quotient of integers with a positive divisor. *)
Lemma int_truediv_sign a b f :
  0 < b -> Z.abs a < 2 ^ 1000 -> Z.abs b < 2 ^ 1000 ->
  int_truediv a b = Ok f ->
  (0 < a -> (0 < SF2R f)%R) /\ (a < 0 -> (SF2R f < 0)%R) /\
  (a = 0 -> f = S754_zero false).
Proof.
  intros Hb Ha1 Hb1 E.
  destruct (int_truediv_spec a b ltac:(lia) Ha1 Hb1) as [f' [E' M]].
  rewrite E in E'. apply Ok_inj in E'. subst f'.
  replace (b <? 0) with false in M by (symmetry; apply Z.ltb_ge; lia).
  destruct f as [s|s| |s m e]; try contradiction.
  - destruct M as [-> ->]. split; [|split]; intros; try lia. reflexivity.
  - destruct M as [Hne [Hs [_ [_ _]]]]. rewrite xorb_false_r in Hs.
    rewrite SF2R_finite.
    assert (Hp : (0 < IZR (Zpos m) * bpow e)%R).
    { apply Rmult_lt_0_compat; [apply IZR_lt; lia|apply bpow_pos]. }
    subst s. split; [|split]; intros Hsgn; try lia.
    + replace (a <? 0) with false by (symmetry; apply Z.ltb_ge; lia). lra.
    + replace (a <? 0) with true by (symmetry; apply Z.ltb_lt; lia). lra.
Qed.

(** X2.  Box ordering is not validated: the width returned is positive for
    [xmin < xmax], exactly zero for [xmin = xmax] and negative for an
    inverted box [xmax < xmin]; likewise for the height. *)
Theorem convert_width_sign (W H xmin xmax ymin ymax : Z) :
  0 < W < 2 ^ 52 -> 0 < H < 2 ^ 52 ->
  Z.abs xmin < 2 ^ 52 -> Z.abs xmax < 2 ^ 52 ->
  Z.abs ymin < 2 ^ 52 -> Z.abs ymax < 2 ^ 52 ->
  exists x_center y_center width height,
    convert_to_yolo_format (W, H) (xmin, xmax, ymin, ymax)
    = Ok (x_center, y_center, width, height) /\
    (xmin < xmax -> (0 < SF2R width)%R) /\
    (xmin = xmax -> width = S754_zero false) /\
    (xmax < xmin -> (SF2R width < 0)%R) /\
    (ymin < ymax -> (0 < SF2R height)%R) /\
    (ymin = ymax -> height = S754_zero false) /\
    (ymax < ymin -> (SF2R height < 0)%R).
Proof.
  intros HW HH Hx1 Hx2 Hy1 Hy2.
  assert (P53 : 2 ^ 53 < 2 ^ 1000) by (apply Z.pow_lt_mono_r; lia).
  assert (P52 : 2 ^ 53 = 2 * 2 ^ 52) by reflexivity.
  destruct (convert_in_range W H xmin xmax ymin ymax HW HH Hx1 Hx2 Hy1 Hy2)
    as [xc [yc [w [h [Ec [Eq _]]]]]].
  exists xc, yc, w, h. split; [exact Ec|].
  unfold yolo_quotients, rbind in Eq.
  destruct (int_truediv (xmin + xmax) (2 * W)); [|discriminate Eq].
  destruct (int_truediv (ymin + ymax) (2 * H)); [|discriminate Eq].
  destruct (int_truediv (xmax - xmin) W) as [w'|] eqn:Ew; [|discriminate Eq].
  destruct (int_truediv (ymax - ymin) H) as [h'|] eqn:Eh; [|discriminate Eq].
  apply Ok_inj in Eq. inversion Eq; subst.
  destruct (int_truediv_sign (xmax - xmin) W w) as [A1 [A2 A3]];
    try assumption; try lia.
  destruct (int_truediv_sign (ymax - ymin) H h) as [B1 [B2 B3]];
    try assumption; try lia.
  repeat split; intros; auto with zarith.
Qed.

Lemma convert_width_sign_witness :
  exists x_center y_center width height,
    convert_to_yolo_format (640, 480) (200, 100, 50, 50)
    = Ok (x_center, y_center, width, height) /\
    (200 < 100 -> (0 < SF2R width)%R) /\
    (200 = 100 -> width = S754_zero false) /\
    (100 < 200 -> (SF2R width < 0)%R) /\
    (50 < 50 -> (0 < SF2R height)%R) /\
    (50 = 50 -> height = S754_zero false) /\
    (50 < 50 -> (SF2R height < 0)%R).
Proof.
  apply (convert_width_sign 640 480 200 100 50 50);
    vm_compute; split; reflexivity || discriminate.
Defined.

(** An inverted box in a label line: the width is printed with its minus
    sign. *)
Example inverted_box_line :
  rbind (convert_to_yolo_format (640, 480) (200, 100, 50, 50))
        (fun b => Ok (label_line 0 b))
  = Ok ("0 0.234375 0.104167 -0.156250 0.000000" ++ newline)%string.
Proof. vm_compute. reflexivity. Qed.

Lemma fmul_two_zero : fmul lit_2_0 (S754_zero false) = S754_zero false.
Proof. reflexivity. Qed.

Lemma float_of_int_small n :
  Z.abs n < 2 ^ 53 -> exists f, float_of_int n = Ok f.
Proof.
  intros Hn. destruct (Z.eq_dec n 0) as [->|Hne].
  - exists (S754_zero false). reflexivity.
  - destruct (float_of_int_exact n Hne Hn) as [m [e [E _]]]. eexists. exact E.
Qed.

(** X3.  A zero dimension is not guarded against: with a width of 0, or with a
    positive width and a height of 0, the converter raises
    [ZeroDivisionError] instead of returning. *)
Theorem convert_zero_dimension (W H xmin xmax ymin ymax : Z) :
  0 <= W < 2 ^ 52 -> 0 <= H < 2 ^ 52 ->
  Z.abs xmin < 2 ^ 52 -> Z.abs xmax < 2 ^ 52 ->
  Z.abs ymin < 2 ^ 52 -> Z.abs ymax < 2 ^ 52 ->
  W = 0 \/ H = 0 ->
  convert_to_yolo_format (W, H) (xmin, xmax, ymin, ymax)
  = Raise ZeroDivisionError.
Proof.
  intros HW HH Hx1 Hx2 Hy1 Hy2 Hz.
  assert (P53 : 2 ^ 53 < 2 ^ 1000) by (apply Z.pow_lt_mono_r; lia).
  assert (P52 : 2 ^ 53 = 2 * 2 ^ 52) by reflexivity.
  unfold convert_to_yolo_format.
  destruct (Z.eq_dec W 0) as [->|HW0].
  - unfold float_mul_int. rewrite float_of_int_0. unfold rbind at 2.
    rewrite fmul_two_zero. unfold rbind at 1. unfold int_truediv_float.
    destruct (float_of_int_small (xmin + xmax) ltac:(lia)) as [f ->].
    reflexivity.
  - destruct Hz as [Hz|Hz]; [contradiction|]. subst H.
    pose proof (center_quotient (xmin + xmax) W ltac:(lia) ltac:(lia)) as Cx.
    destruct (int_truediv_ok (xmin + xmax) (2 * W)) as [xc Exc]; try lia.
    rewrite Exc in Cx. unfold rbind in Cx |- *.
    destruct (float_mul_int lit_2_0 W) as [dx|]; [|discriminate Cx].
    rewrite Cx. unfold float_mul_int. rewrite float_of_int_0. unfold rbind.
    rewrite fmul_two_zero. unfold int_truediv_float.
    destruct (float_of_int_small (ymin + ymax) ltac:(lia)) as [f ->].
    reflexivity.
Qed.

Lemma convert_zero_dimension_witness :
  convert_to_yolo_format (640, 0) (100, 200, 50, 150) = Raise ZeroDivisionError.
Proof.
  apply (convert_zero_dimension 640 0 100 200 50 150);
    try (vm_compute; split; reflexivity || discriminate).
  right. reflexivity.
Defined.

(* ================================================================= *)
(** * Further properties of the splitter *)
(* ================================================================= *)

(** The product of a ratio by a list length below [2^53]: the length is
    converted exactly and the product is rounded once. *)
Lemma ratio_product_bounds mr er n t :
  canonical (S754_finite false mr er) ->
  (bpow (-4) <= IZR (Zpos mr) * bpow er <= 1)%R ->
  0 < n < 2 ^ 53 ->
  float_mul_int (S754_finite false mr er) n = Ok t ->
  (IZR (Zpos mr) * bpow er * IZR n * (1 - bpow (-53)) <= SF2R t
   <= IZR (Zpos mr) * bpow er * IZR n * (1 + bpow (-53)))%R.
Proof.
  intros Hc [Hr1 Hr2] [Hn1 Hn2] Et.
  destruct (float_of_int_exact n ltac:(lia) ltac:(lia)) as [m [e [E [Hcn Hv]]]].
  replace (n <? 0) with false in * by (symmetry; apply Z.ltb_ge; lia).
  rewrite Z.abs_eq in Hv by lia.
  unfold float_mul_int in Et. rewrite E in Et. unfold rbind in Et.
  apply Ok_inj in Et. subst t.
  pose proof (fmul_rounds false mr er false m e Hc Hcn) as Hrd.
  cbn [xorb] in Hrd. rewrite Hv in Hrd.
  set (rho := (IZR (Zpos mr) * bpow er)%R) in *.
  assert (HN1 : (1 <= IZR n)%R) by (apply IZR_le; lia).
  assert (HN2 : (IZR n <= IZR (2 ^ 53))%R) by (apply IZR_le; lia).
  rewrite bpow_m4 in Hr1.
  assert (Hrange : (bpow (-1022) <= rho * IZR n <= bpow 1023)%R).
  { split.
    - pose proof (bpow_le (-1022) (-4) ltac:(lia)) as H. rewrite bpow_m4 in H.
      nra.
    - pose proof (bpow_le 53 1023 ltac:(lia)) as H.
      rewrite (bpow_IZR 53) in H by lia. nra. }
  destruct (round_normal _ _ _ Hrd Hrange) as [m' [e' [E' [_ [_ Herr]]]]].
  rewrite E', SF2R_finite. lra.
Qed.

Lemma ratio_product_zero r : float_mul_int r 0 = Ok (fmul r (S754_zero false)).
Proof. reflexivity. Qed.

(** The train cut is the exact floor of [7 N / 10], or one below it. *)
Lemma train_cut_bounds n t a :
  0 <= n < 2 ^ 48 ->
  float_mul_int (SPLIT_RATIOS train) n = Ok t -> floor_of t a ->
  7 * n - 10 <= 10 * a <= 7 * n.
Proof.
  intros [H0 H1] Et [Fa1 Fa2].
  destruct (Z.eq_dec n 0) as [->|Hn].
  { rewrite ratio_product_zero in Et. apply Ok_inj in Et. subst t.
    cbn in Fa1, Fa2.
    assert (a <= 0) by (apply le_IZR; lra).
    assert (-1 < a) by (apply lt_IZR; lra). lia. }
  cbn [SPLIT_RATIOS] in Et. unfold lit_0_70 in Et.
  pose proof lit_0_70_value as [V1 V2].
  pose proof (ratio_product_bounds _ _ n t canonical_lit_0_70
                ltac:(split; lra) ltac:(lia) Et) as [B1 B2].
  rewrite bpow_m53 in B1, B2.
  assert (HN1 : (1 <= IZR n)%R) by (apply IZR_le; lia).
  assert (HN2 : (IZR n <= 281474976710656)%R)
    by (change 281474976710656%R with (IZR (2 ^ 48)); apply IZR_le; lia).
  split.
  - assert (7 * n < 10 * a + 11); [|lia].
    apply lt_IZR. rewrite plus_IZR, !mult_IZR. lra.
  - assert (10 * a < 7 * n + 1); [|lia].
    apply lt_IZR. rewrite plus_IZR, !mult_IZR. lra.
Qed.

(** The validation cut is the exact floor of [15 N / 100], or one below. *)
Lemma val_cut_bounds n v b :
  0 <= n < 2 ^ 48 ->
  float_mul_int (SPLIT_RATIOS val) n = Ok v -> floor_of v b ->
  3 * n - 20 <= 20 * b <= 3 * n.
Proof.
  intros [H0 H1] Ev [Fb1 Fb2].
  destruct (Z.eq_dec n 0) as [->|Hn].
  { rewrite ratio_product_zero in Ev. apply Ok_inj in Ev. subst v.
    cbn in Fb1, Fb2.
    assert (b <= 0) by (apply le_IZR; lra).
    assert (-1 < b) by (apply lt_IZR; lra). lia. }
  cbn [SPLIT_RATIOS] in Ev. unfold lit_0_15 in Ev.
  pose proof lit_0_15_value as [V1 V2].
  pose proof (ratio_product_bounds _ _ n v canonical_lit_0_15
                ltac:(split; lra) ltac:(lia) Ev) as [B1 B2].
  rewrite bpow_m53, bpow_m55 in B1, B2.
  assert (HN1 : (1 <= IZR n)%R) by (apply IZR_le; lia).
  assert (HN2 : (IZR n <= 281474976710656)%R)
    by (change 281474976710656%R with (IZR (2 ^ 48)); apply IZR_le; lia).
  split.
  - assert (3 * n < 20 * b + 21); [|lia].
    apply lt_IZR. rewrite plus_IZR, !mult_IZR. lra.
  - assert (20 * b < 3 * n + 1); [|lia].
    apply lt_IZR. rewrite plus_IZR, !mult_IZR. lra.
Qed.

(** X4.  For fewer than [2^48] files the subsets have the sizes that the ratios
    announce, up to one file: train has [floor(7 N / 10)] files or one
    less (never more), exactly that floor when [N] is not a multiple of
    10; val has [floor(3 N / 20)] files or one less, exactly that floor
    when [N] is not a multiple of 20; test has at least [3 N / 20] files,
    so it is not empty as soon as there is a file. *)
Theorem split_sizes (g : nat -> nat) (files : list string) :
  Z.of_nat (List.length files) < 2 ^ 48 ->
  exists tr va te : list string,
    split g files = Ok [(train, tr); (val, va); (test, te)] /\
    7 * Z.of_nat (List.length files) - 10 <= 10 * Z.of_nat (List.length tr)
      <= 7 * Z.of_nat (List.length files) /\
    (Z.of_nat (List.length files) mod 10 <> 0 ->
     Z.of_nat (List.length tr) = 7 * Z.of_nat (List.length files) / 10) /\
    3 * Z.of_nat (List.length files) - 20 <= 20 * Z.of_nat (List.length va)
      <= 3 * Z.of_nat (List.length files) /\
    (Z.of_nat (List.length files) mod 20 <> 0 ->
     Z.of_nat (List.length va) = 3 * Z.of_nat (List.length files) / 20) /\
    3 * Z.of_nat (List.length files) <= 20 * Z.of_nat (List.length te) /\
    (files <> [] -> te <> []).
Proof.
  intros HN.
  assert (H63 : 2 ^ 48 < 2 ^ 63) by (apply Z.pow_lt_mono_r; lia).
  destruct (split_eq g files ltac:(lia))
    as [t [v [a [b [Et [Fa [Ev [Fb [Ha [Hb [Hab E]]]]]]]]]]].
  pose proof (train_cut_bounds (Z.of_nat (List.length files)) t a
                ltac:(lia) Et Fa) as Ba.
  pose proof (val_cut_bounds (Z.of_nat (List.length files)) v b
                ltac:(lia) Ev Fb) as Bb.
  do 3 eexists. split; [exact E|].
  pose proof (shuffle_length g files) as HL.
  rewrite !length_firstn, !length_skipn, HL.
  set (N := Z.of_nat (List.length files)) in *.
  assert (La : Z.of_nat (Nat.min (Z.to_nat a) (List.length files)) = a) by lia.
  assert (Lb : Z.of_nat (Nat.min (Z.to_nat b)
                           (List.length files - Z.to_nat a)) = b) by lia.
  assert (Lc : Z.of_nat (List.length files - (Z.to_nat a + Z.to_nat b))
               = N - a - b) by lia.
  rewrite La, Lb.
  split; [exact Ba|]. split.
  { intros Hm. pose proof (Z.div_mod (7 * N) 10 ltac:(lia)) as Hd.
    pose proof (Z.mod_pos_bound (7 * N) 10 ltac:(lia)) as Hr.
    assert ((7 * N) mod 10 <> 0).
    { intros Hz. apply Hm. apply Z.mod_divide in Hz; [|lia].
      apply Z.mod_divide; [lia|].
      apply (Z.gauss 10 7 N Hz). reflexivity. }
    lia. }
  split; [exact Bb|]. split.
  { intros Hm. pose proof (Z.div_mod (3 * N) 20 ltac:(lia)) as Hd.
    pose proof (Z.mod_pos_bound (3 * N) 20 ltac:(lia)) as Hr.
    assert ((3 * N) mod 20 <> 0).
    { intros Hz. apply Hm. apply Z.mod_divide in Hz; [|lia].
      apply Z.mod_divide; [lia|].
      apply (Z.gauss 20 3 N Hz). reflexivity. }
    lia. }
  split.
  { rewrite Lc. lia. }
  intros Hne Hte. apply (f_equal (@List.length string)) in Hte.
  rewrite length_skipn, HL in Hte. cbn [List.length] in Hte.
  destruct files as [|f0 fs]; [congruence|]. cbn [List.length] in *. lia.
Qed.

Lemma split_sizes_witness :
  exists tr va te : list string,
    split (fun _ => 0%nat)
      ["a"; "b"; "c"; "d"; "e"; "f"; "g"; "h"; "i"; "j"; "k"]%string
    = Ok [(train, tr); (val, va); (test, te)] /\
    7 * 11 - 10 <= 10 * Z.of_nat (List.length tr) <= 7 * 11 /\
    (11 mod 10 <> 0 -> Z.of_nat (List.length tr) = 7 * 11 / 10) /\
    3 * 11 - 20 <= 20 * Z.of_nat (List.length va) <= 3 * 11 /\
    (11 mod 20 <> 0 -> Z.of_nat (List.length va) = 3 * 11 / 20) /\
    3 * 11 <= 20 * Z.of_nat (List.length te) /\
    (["a"; "b"; "c"; "d"; "e"; "f"; "g"; "h"; "i"; "j"; "k"]%string <> [] ->
     te <> []).
Proof.
  apply (split_sizes (fun _ => 0%nat)
           ["a"; "b"; "c"; "d"; "e"; "f"; "g"; "h"; "i"; "j"; "k"]%string).
  vm_compute. reflexivity.
Defined.

(** With 90 files the train set has 62 files, one below [floor(0.7 * 90)]:
    the float product [0.70 * 90] is just under 63. *)
Example train_cut_of_90 :
  rbind (float_mul_int (SPLIT_RATIOS train) 90) int_of_float = Ok 62 /\
  rbind (float_mul_int (SPLIT_RATIOS train) 10) int_of_float = Ok 7.
Proof. split; vm_compute; reflexivity. Qed.

(* ================================================================= *)
(** * Further properties of the parser *)
(* ================================================================= *)

Section SkippedObjects.

Variables (xml_path : string) (classes : list string) (size : Z * Z).
Variables (skipped : element -> bool) (warning : event -> bool).

Hypothesis skipped_object : forall obj,
  skipped obj = true ->
  exists ev, warning ev = true /\
    process_object xml_path classes size obj = ([ev], Ok None).

Hypothesis kept_object : forall obj,
  skipped obj = false ->
  forallb (fun ev => negb (warning ev))
    (trace (process_object xml_path classes size obj)) = true.

Lemma filter_all_kept (t : list event) :
  forallb (fun ev => negb (warning ev)) t = true ->
  List.filter (fun ev => negb (warning ev)) t = t.
Proof.
  induction t as [|ev t IH]; [reflexivity|].
  cbn [forallb List.filter]. intros H. apply andb_prop in H.
  destruct H as [H1 H2]. rewrite H1, (IH H2). reflexivity.
Qed.

(** Removing the skipped entries changes neither the result of the loop
    nor its other messages. *)
Lemma process_objects_skip objs : forall acc,
  outcome (process_objects xml_path classes size objs acc) =
  outcome (process_objects xml_path classes size
             (List.filter (fun o => negb (skipped o)) objs) acc) /\
  List.filter (fun ev => negb (warning ev))
    (trace (process_objects xml_path classes size objs acc)) =
  trace (process_objects xml_path classes size
           (List.filter (fun o => negb (skipped o)) objs) acc).
Proof.
  induction objs as [|obj rest IH]; intros acc.
  - split; reflexivity.
  - cbn [List.filter]. destruct (skipped obj) eqn:S; cbn [negb].
    + destruct (skipped_object obj S) as [ev [Hw E]].
      rewrite process_objects_cons, E, bind_ok. cbn [trace outcome fst snd].
      cbn [app List.filter]. rewrite Hw. cbn [negb]. apply IH.
    + rewrite !process_objects_cons.
      pose proof (kept_object obj S) as Ht.
      destruct (process_object xml_path classes size obj) as [t [r|e]].
      * rewrite !bind_ok. cbn [trace outcome fst snd] in *.
        rewrite filter_app, (filter_all_kept t Ht).
        destruct (IH (match r with Some line => acc ++ [line] | None => acc end))
          as [IH1 IH2].
        split; [exact IH1|]. rewrite IH2. reflexivity.
      * rewrite !bind_raise. cbn [trace outcome fst snd] in *.
        split; [reflexivity|]. exact (filter_all_kept t Ht).
Qed.

End SkippedObjects.

Lemma filter_filter_pred (q : element -> bool) (cs : list element) :
  List.filter is_object
    (List.filter (fun c => negb (is_object c && q c)) cs) =
  List.filter (fun o => negb (q o)) (List.filter is_object cs).
Proof.
  induction cs as [|c t IH]; [reflexivity|].
  cbn [List.filter]. destruct (is_object c) eqn:Ob; cbn [andb negb List.filter].
  - destruct (q c); cbn [negb List.filter]; rewrite ?Ob, IH; reflexivity.
  - rewrite Ob. exact IH.
Qed.

Lemma process_object_box_trace xml_path classes size obj :
  missing_box classes obj = false ->
  forallb (fun ev => negb (is_missing_box_warning ev))
    (trace (process_object xml_path classes size obj)) = true.
Proof.
  unfold missing_box, process_object. intros H.
  destruct (find obj "name") as [n|]; [|reflexivity].
  cbn [node_text]. rewrite bind_lift_ok.
  destruct (class_index classes (text n)) as [i|e] eqn:E.
  - destruct (read_box (find obj "bndbox")) as [box|e] eqn:Eb.
    + destruct (convert_to_yolo_format size box); reflexivity.
    + destruct e; try reflexivity.
      apply read_box_missing in Eb. congruence.
  - apply class_index_raise in E. subst e. reflexivity.
Qed.

Lemma process_object_bad_xmin xml_path classes size obj n class_id b c :
  find obj "name" = Some n -> class_index classes (text n) = Ok class_id ->
  find obj "bndbox" = Some b -> find b "xmin" = Some c ->
  is_int_literal (text c) = false ->
  process_object xml_path classes size obj =
  ([], Raise (literal_error (text c))).
Proof.
  intros Hn Hi Hb Hx L. unfold process_object. rewrite Hn. cbn [node_text].
  rewrite bind_lift_ok, Hi, Hb. unfold read_box, rbind.
  rewrite (int_field_bad b "xmin" c Hx L). destruct (text c); reflexivity.
Qed.

(** X5.  An object entry of a registered class whose box is missing (no
    bndbox element, or one of xmin, ymin, xmax, ymax absent from it while
    those before it in this order are integer literals) prints one warning
    and yields no line, and an entry whose box is not missing prints no
    such warning: when its xmin is there and is not an integer literal,
    whatever is absent after it, the parser raises instead.  The file
    gives the same result, and the same other messages, as without the
    entries whose box is missing. *)
Theorem missing_box_skips_object_only
  (xml_path : string) (classes : list string)
  (tg : string) (tx : option string) (cs : list element) :
  let kept c := negb (is_object c && missing_box classes c) in
  let full := process_xml_file [(xml_path, Document (Element tg tx cs))]
                xml_path classes in
  let pruned := process_xml_file
                  [(xml_path, Document (Element tg tx (List.filter kept cs)))]
                  xml_path classes in
  (forall size obj, missing_box classes obj = true ->
     process_object xml_path classes size obj =
     ([Print (MsgMissingBox xml_path)], Ok None)) /\
  (forall size obj, missing_box classes obj = false ->
     forallb (fun ev => negb (is_missing_box_warning ev))
       (trace (process_object xml_path classes size obj)) = true) /\
  (forall size obj n class_id b c,
     find obj "name" = Some n -> class_index classes (text n) = Ok class_id ->
     find obj "bndbox" = Some b -> find b "xmin" = Some c ->
     is_int_literal (text c) = false ->
     process_object xml_path classes size obj =
     ([], Raise (literal_error (text c)))) /\
  outcome full = outcome pruned /\
  List.filter (fun ev => negb (is_missing_box_warning ev)) (trace full) =
  trace pruned.
Proof.
  intros kept full pruned.
  split; [intros size obj; apply process_object_missing_box|].
  split; [intros size obj; apply process_object_box_trace|].
  split; [intros size obj; apply process_object_bad_xmin|].
  unfold full, pruned, process_xml_file. cbn [parse]. rewrite String.eqb_refl.
  assert (Hsize : find (Element tg tx (List.filter kept cs)) "size" =
                  find (Element tg tx cs) "size").
  { unfold find. cbn [children]. apply find_filter_keep.
    intros a Ha. unfold kept, is_object.
    apply String.eqb_eq in Ha. rewrite Ha. reflexivity. }
  rewrite Hsize.
  destruct (read_size (find (Element tg tx cs) "size")) as [size|[]];
    try (split; reflexivity).
  unfold findall. cbn [children].
  change (fun c : element => (tag c =? "object")%string) with is_object.
  unfold kept. rewrite filter_filter_pred.
  apply (process_objects_skip xml_path classes size (missing_box classes)
           is_missing_box_warning).
  - intros obj Hs. exists (Print (MsgMissingBox xml_path)).
    split; [reflexivity|]. apply process_object_missing_box. exact Hs.
  - intros obj Hs. apply process_object_box_trace. exact Hs.
Qed.

(** A box without its ymax is missing; with an xmin that is not a number
    it is not, whatever else it lacks. *)
Example missing_and_unreadable_boxes :
  missing_box CLASS_NAMES
    (Element "object" None
       [leaf "name" "pothole";
        Element "bndbox" None
          [leaf "xmin" "1"; leaf "ymin" "2"; leaf "xmax" "3"]]) = true /\
  missing_box CLASS_NAMES
    (Element "object" None
       [leaf "name" "pothole";
        Element "bndbox" None [leaf "xmin" "abc"]]) = false /\
  process_object "img.xml" CLASS_NAMES (640, 480)
    (Element "object" None
       [leaf "name" "pothole";
        Element "bndbox" None [leaf "xmin" "abc"]]) = ([], Raise ValueError).
Proof. repeat split; reflexivity. Qed.

(** An object without its box between two complete ones: one warning, and
    the two lines in order. *)
Example missing_box_between_two :
  process_xml_file
    [("img.xml"%string,
      Document (Element "annotation" None
        [sample_size "640" "480";
         sample_object "pothole" "100" "50" "200" "150";
         Element "object" None [leaf "name" "pothole"];
         sample_object "pothole" "0" "0" "640" "480"]))]
    "img.xml" CLASS_NAMES =
  ([Print (MsgMissingBox "img.xml")],
   Ok [sample_line;
       ("0 0.500000 0.500000 1.000000 1.000000" ++ newline)%string]).
Proof. vm_compute. reflexivity. Qed.

(** ** An object entry without a name *)

Lemma process_object_nameless xml_path classes size obj :
  find obj "name" = None ->
  process_object xml_path classes size obj = ([], Raise AttributeError).
Proof. unfold process_object. intros ->. reflexivity. Qed.

Lemma process_objects_nameless xml_path classes W H pre obj post : forall acc,
  0 < W < 2 ^ 52 -> 0 < H < 2 ^ 52 ->
  forallb object_ok pre = true -> find obj "name" = None ->
  exists t,
    process_objects xml_path classes (W, H) (pre ++ obj :: post) acc =
    (t, Raise AttributeError).
Proof.
  induction pre as [|o pre IH]; intros acc HW HH Hok Hn.
  - cbn [app]. rewrite process_objects_cons,
      (process_object_nameless _ _ _ _ Hn), bind_raise.
    eexists. reflexivity.
  - cbn [forallb] in Hok. apply andb_prop in Hok. destruct Hok as [Ho Hr].
    destruct (process_object_total xml_path classes W H o HW HH Ho)
      as [t1 [r E1]].
    cbn [app]. rewrite process_objects_cons, E1, bind_ok.
    destruct (IH (match r with Some line => acc ++ [line] | None => acc end)
                HW HH Hr Hn) as [t2 E2].
    rewrite E2. eexists. reflexivity.
Qed.

(** X6.  The name of an object entry is read outside any [try]: in a file whose
    size is readable, the first object entry without a name element makes
    the parser raise [AttributeError] (the entries before it being well
    formed), and the lines collected so far are lost. *)
Theorem nameless_object_raises
  (files : list (string * document)) (xml_path : string)
  (classes : list string) (root : element) (W H : Z)
  (pre post : list element) (obj : element) :
  parse files xml_path = Ok root ->
  read_size (find root "size") = Ok (W, H) ->
  0 < W < 2 ^ 52 -> 0 < H < 2 ^ 52 ->
  findall root "object" = pre ++ obj :: post ->
  forallb object_ok pre = true ->
  find obj "name" = None ->
  outcome (process_xml_file files xml_path classes) = Raise AttributeError.
Proof.
  intros Hp Hs HW HH Ho Hpre Hn. unfold process_xml_file.
  rewrite Hp, Hs, Ho.
  destruct (process_objects_nameless xml_path classes W H pre obj post []
              HW HH Hpre Hn) as [t E].
  rewrite E. reflexivity.
Qed.

Lemma nameless_object_raises_witness :
  outcome (process_xml_file
    [("img.xml"%string,
      Document (Element "annotation" None
        [sample_size "640" "480";
         sample_object "pothole" "100" "50" "200" "150";
         Element "object" None []]))]
    "img.xml" CLASS_NAMES) = Raise AttributeError.
Proof.
  apply (nameless_object_raises
    [("img.xml"%string,
      Document (Element "annotation" None
        [sample_size "640" "480";
         sample_object "pothole" "100" "50" "200" "150";
         Element "object" None []]))]
    "img.xml"%string CLASS_NAMES
    (Element "annotation" None
        [sample_size "640" "480";
         sample_object "pothole" "100" "50" "200" "150";
         Element "object" None []])
    640 480 [sample_object "pothole" "100" "50" "200" "150"] []
    (Element "object" None []));
    vm_compute; try split; reflexivity.
Defined.

(** ** One line or one warning for every object entry *)

Lemma process_object_cases xml_path classes size obj t r :
  process_object xml_path classes size obj = (t, Ok r) ->
  (t = [] /\ exists line, r = Some line) \/
  (r = None /\ exists msg, t = [Print msg]).
Proof.
  unfold process_object.
  destruct (find obj "name") as [n|]; [|discriminate].
  cbn [node_text]. rewrite bind_lift_ok.
  destruct (class_index classes (text n)) as [i|e] eqn:E.
  - destruct (read_box (find obj "bndbox")) as [box|[]]; try discriminate.
    + destruct (convert_to_yolo_format size box) as [b|e].
      * rewrite bind_lift_ok. intros H. inversion H. left.
        split; [reflexivity|]. eexists. reflexivity.
      * rewrite bind_lift_raise. discriminate.
    + intros H. inversion H. right. split; [reflexivity|].
      eexists. reflexivity.
  - apply class_index_raise in E. subst e. intros H. inversion H. right.
    split; [reflexivity|]. eexists. reflexivity.
Qed.

Lemma process_objects_count xml_path classes size objs : forall acc t lines,
  process_objects xml_path classes size objs acc = (t, Ok lines) ->
  (List.length lines + List.length t = List.length acc + List.length objs)%nat.
Proof.
  induction objs as [|obj rest IH]; intros acc t lines H.
  - inversion H. cbn [List.length]. lia.
  - rewrite process_objects_cons in H.
    destruct (process_object xml_path classes size obj) as [t1 [r|e]] eqn:E1.
    2:{ rewrite bind_raise in H. discriminate H. }
    rewrite bind_ok in H.
    destruct (process_objects xml_path classes size rest
                (match r with Some l => acc ++ [l] | None => acc end))
      as [t2 [lines2|e2]] eqn:E2; cbn [trace outcome fst snd] in H;
      [|discriminate H].
    inversion H; subst. apply IH in E2.
    destruct (process_object_cases _ _ _ _ _ _ E1)
      as [[-> [line ->]]|[-> [msg ->]]];
      rewrite ?length_app in *; cbn [List.length app] in *; lia.
Qed.

(** X8.  When the parser returns, either the file was skipped as a whole (one
    message, no line) or every object entry of the file is accounted for:
    it gave one line or one warning, so that lines and warnings together
    are as many as the object entries. *)
Theorem lines_and_warnings_count
  (files : list (string * document)) (xml_path : string)
  (classes : list string) (t : list event) (lines : list string) :
  process_xml_file files xml_path classes = (t, Ok lines) ->
  (lines = [] /\ exists msg, t = [Print msg]) \/
  exists root,
    parse files xml_path = Ok root /\
    (List.length lines + List.length t
     = List.length (findall root "object"))%nat.
Proof.
  unfold process_xml_file.
  destruct (parse files xml_path) as [root|[]]; try discriminate.
  - destruct (read_size (find root "size")) as [size|[]]; try discriminate.
    + intros H. right. exists root. split; [reflexivity|].
      apply process_objects_count in H. cbn [List.length] in H. lia.
    + intros H. inversion H. left. split; [reflexivity|].
      eexists. reflexivity.
  - intros H. inversion H. left. split; [reflexivity|].
    eexists. reflexivity.
Qed.

Lemma lines_and_warnings_count_witness :
  ([sample_line] = [] /\
   exists msg, [Print (MsgUnknownClass (Some "car"%string))] = [Print msg]) \/
  exists root,
    parse [("img.xml"%string, Document sample_two_classes)] "img.xml" = Ok root /\
    (List.length [sample_line] +
     List.length [Print (MsgUnknownClass (Some "car"%string))]
     = List.length (findall root "object"))%nat.
Proof.
  apply (lines_and_warnings_count
           [("img.xml"%string, Document sample_two_classes)] "img.xml"
           CLASS_NAMES).
  vm_compute. reflexivity.
Defined.

(** ** The parser only prints *)

Lemma process_object_warnings xml_path classes size obj :
  forallb is_warning (trace (process_object xml_path classes size obj)) = true.
Proof.
  unfold process_object.
  destruct (find obj "name") as [n|]; [|reflexivity].
  cbn [node_text]. rewrite bind_lift_ok.
  destruct (class_index classes (text n)) as [i|[]]; try reflexivity.
  destruct (read_box (find obj "bndbox")) as [box|[]]; try reflexivity.
  destruct (convert_to_yolo_format size box); reflexivity.
Qed.

Lemma process_objects_warnings xml_path classes size objs : forall acc,
  forallb is_warning (trace (process_objects xml_path classes size objs acc))
  = true.
Proof.
  induction objs as [|obj rest IH]; intros acc; [reflexivity|].
  rewrite process_objects_cons.
  pose proof (process_object_warnings xml_path classes size obj) as H1.
  destruct (process_object xml_path classes size obj) as [t [r|e]].
  - rewrite bind_ok. cbn [trace fst] in *. rewrite forallb_app, H1.
    apply IH.
  - rewrite bind_raise. exact H1.
Qed.

Lemma process_xml_file_warnings files xml_path classes :
  forallb is_warning (trace (process_xml_file files xml_path classes)) = true.
Proof.
  unfold process_xml_file.
  destruct (parse files xml_path) as [root|[]]; try reflexivity.
  destruct (read_size (find root "size")) as [size|[]]; try reflexivity.
  apply process_objects_warnings.
Qed.

Lemma warnings_are_prints (t : list event) :
  forallb is_warning t = true -> forallb is_print t = true.
Proof.
  induction t as [|ev t IH]; [reflexivity|].
  cbn [forallb]. intros H. apply andb_prop in H. destruct H as [H1 H2].
  rewrite (IH H2). destruct ev; try discriminate H1. reflexivity.
Qed.

Lemma prints_are_no_output (t : list event) :
  forallb is_print t = true -> List.filter is_output t = [].
Proof.
  induction t as [|ev t IH]; [reflexivity|].
  cbn [forallb List.filter]. intros H. apply andb_prop in H.
  destruct H as [H1 H2]. destruct ev; try discriminate H1.
  cbn [is_output]. exact (IH H2).
Qed.

Lemma process_xml_file_prints files xml_path classes :
  forallb is_print (trace (process_xml_file files xml_path classes)) = true.
Proof. apply warnings_are_prints, process_xml_file_warnings. Qed.

(** ** The exceptions that leave the parser *)

Lemma Raise_inj {A} (e e' : exn) : @Raise A e = Raise e' -> e = e'.
Proof. congruence. Qed.

Lemma float_of_int_raise n e :
  float_of_int n = Raise e -> e = OverflowError.
Proof.
  unfold float_of_int.
  destruct (binary_normalize prec emax n 0 false); intros H;
    inversion H; reflexivity.
Qed.

Lemma int_truediv_float_raise n y e :
  int_truediv_float n y = Raise e ->
  e = ZeroDivisionError \/ e = OverflowError.
Proof.
  unfold int_truediv_float, rbind, float_truediv.
  destruct (float_of_int n) as [x|e'] eqn:E.
  - destruct (is_zero y); intros H; inversion H. left. reflexivity.
  - intros H. apply Raise_inj in H. subst e'.
    apply float_of_int_raise in E. right. exact E.
Qed.

Lemma float_mul_int_raise x n e :
  float_mul_int x n = Raise e -> e = ZeroDivisionError \/ e = OverflowError.
Proof.
  unfold float_mul_int, rbind. destruct (float_of_int n) as [y|e'] eqn:E.
  - discriminate.
  - intros H. apply Raise_inj in H. subst e'.
    apply float_of_int_raise in E. right. exact E.
Qed.

Lemma int_truediv_raise a b e :
  int_truediv a b = Raise e -> e = ZeroDivisionError \/ e = OverflowError.
Proof.
  unfold int_truediv. destruct (b =? 0).
  - intros H. apply Raise_inj in H. left. congruence.
  - destruct (fdiv (exact_of_int a) (exact_of_int b)); intros H;
      try discriminate H.
    apply Raise_inj in H. right. congruence.
Qed.

(** The converter raises nothing but [ZeroDivisionError] and
    [OverflowError]. *)
Lemma convert_raise size box e :
  convert_to_yolo_format size box = Raise e ->
  e = ZeroDivisionError \/ e = OverflowError.
Proof.
  destruct size as [img_w img_h]. destruct box as [[[xmin xmax] ymin] ymax].
  unfold convert_to_yolo_format, rbind.
  destruct (float_mul_int lit_2_0 img_w) as [dx|e1] eqn:E1.
  2:{ intros H. apply Raise_inj in H. subst e1.
      exact (float_mul_int_raise _ _ _ E1). }
  destruct (int_truediv_float (xmin + xmax) dx) as [xc|e2] eqn:E2.
  2:{ intros H. apply Raise_inj in H. subst e2.
      exact (int_truediv_float_raise _ _ _ E2). }
  destruct (float_mul_int lit_2_0 img_h) as [dy|e3] eqn:E3.
  2:{ intros H. apply Raise_inj in H. subst e3.
      exact (float_mul_int_raise _ _ _ E3). }
  destruct (int_truediv_float (ymin + ymax) dy) as [yc|e4] eqn:E4.
  2:{ intros H. apply Raise_inj in H. subst e4.
      exact (int_truediv_float_raise _ _ _ E4). }
  destruct (int_truediv (xmax - xmin) img_w) as [w|e5] eqn:E5.
  2:{ intros H. apply Raise_inj in H. subst e5.
      exact (int_truediv_raise _ _ _ E5). }
  destruct (int_truediv (ymax - ymin) img_h) as [h|e6] eqn:E6.
  2:{ intros H. apply Raise_inj in H. subst e6.
      exact (int_truediv_raise _ _ _ E6). }
  discriminate.
Qed.

Lemma int_field_raise node t e :
  int_field node t = Raise e ->
  e = AttributeError \/ e = ValueError \/ e = TypeError.
Proof.
  unfold int_field, node_find, node_text, int_of_text, rbind.
  destruct node as [el|]; [|intros H; inversion H; auto].
  destruct (find el t) as [c|]; [|intros H; inversion H; auto].
  destruct (text c) as [s|]; [|intros H; inversion H; auto].
  destruct (parse_int s); intros H; inversion H; auto.
Qed.

Lemma read_size_raise node e :
  read_size node = Raise e ->
  e = AttributeError \/ e = ValueError \/ e = TypeError.
Proof.
  unfold read_size, rbind.
  destruct (int_field node "width") as [w|e1] eqn:E1.
  2:{ intros H. apply Raise_inj in H. subst e1. exact (int_field_raise _ _ _ E1). }
  destruct (int_field node "height") as [h|e2] eqn:E2; [discriminate|].
  intros H. apply Raise_inj in H. subst e2. exact (int_field_raise _ _ _ E2).
Qed.

Lemma read_box_raise node e :
  read_box node = Raise e ->
  e = AttributeError \/ e = ValueError \/ e = TypeError.
Proof.
  unfold read_box, rbind.
  destruct (int_field node "xmin") as [x1|e1] eqn:E1.
  2:{ intros H. apply Raise_inj in H. subst e1. exact (int_field_raise _ _ _ E1). }
  destruct (int_field node "ymin") as [y1|e2] eqn:E2.
  2:{ intros H. apply Raise_inj in H. subst e2. exact (int_field_raise _ _ _ E2). }
  destruct (int_field node "xmax") as [x2|e3] eqn:E3.
  2:{ intros H. apply Raise_inj in H. subst e3. exact (int_field_raise _ _ _ E3). }
  destruct (int_field node "ymax") as [y2|e4] eqn:E4; [discriminate|].
  intros H. apply Raise_inj in H. subst e4. exact (int_field_raise _ _ _ E4).
Qed.

Lemma process_object_raise xml_path classes size obj e :
  outcome (process_object xml_path classes size obj) = Raise e ->
  object_raises classes size obj e.
Proof.
  unfold process_object, object_raises.
  destruct (find obj "name") as [n|];
    [|intros H; apply Raise_inj in H; subst e; left; auto].
  cbn [node_text]. rewrite bind_lift_ok.
  destruct (class_index classes (text n)) as [i|e1] eqn:E1.
  - intros H. right. exists n, i. split; [reflexivity|]. split; [exact E1|].
    destruct (read_box (find obj "bndbox")) as [box|e2] eqn:E2.
    + right. exists box. split; [reflexivity|].
      destruct (convert_to_yolo_format size box) as [b|e3] eqn:E3.
      * rewrite bind_lift_ok in H. discriminate H.
      * rewrite bind_lift_raise in H. apply Raise_inj in H. subst e3.
        split; [reflexivity|exact (convert_raise _ _ _ E3)].
    + left. destruct (read_box_raise _ _ E2) as [->|[->| ->]];
        try discriminate H; apply Raise_inj in H; subst e; auto.
  - apply class_index_raise in E1. subst e1. discriminate.
Qed.

Lemma process_objects_raise xml_path classes size objs : forall acc e,
  outcome (process_objects xml_path classes size objs acc) = Raise e ->
  exists obj, In obj objs /\ object_raises classes size obj e.
Proof.
  induction objs as [|obj rest IH]; intros acc e; [discriminate|].
  rewrite process_objects_cons.
  pose proof (process_object_raise xml_path classes size obj) as H1.
  destruct (process_object xml_path classes size obj) as [t [r|e1]].
  - rewrite bind_ok. cbn [outcome snd]. intros H.
    destruct (IH _ _ H) as [o [Ho Hr]]. exists o. split; [right; exact Ho|exact Hr].
  - rewrite bind_raise. cbn [outcome snd] in *. intros H.
    apply Raise_inj in H. subst e1. exists obj.
    split; [left; reflexivity|exact (H1 e eq_refl)].
Qed.

Lemma parse_raise files xml_path e :
  parse files xml_path = Raise e ->
  e = ParseError \/ e = ValueError \/ e = LookupError \/ e = OSError \/
  (e = FileNotFoundError /\ ~ In xml_path (map fst files)).
Proof.
  induction files as [|[n doc] rest IH]; cbn [parse map fst].
  - intros H. apply Raise_inj in H. subst e. right. right. right. right.
    split; [reflexivity|intros []].
  - destruct (String.eqb_spec n xml_path) as [->|Hne].
    + destruct doc; intros H; try discriminate H; apply Raise_inj in H;
        subst e; auto.
    + intros H. destruct (IH H) as [->|[->|[->|[->|[-> Hn]]]]]; auto.
      right. right. right. right. split; [reflexivity|].
      intros [Hin|Hin]; [contradiction|exact (Hn Hin)].
Qed.

(** X9.  The effects of the parser are messages only, of its four kinds
    (unparsable file, size not found, unknown class, missing box): it
    creates, writes and copies nothing, whatever the file and whether it
    returns or raises. *)
Theorem parser_only_prints
  (files : list (string * document)) (xml_path : string)
  (classes : list string) :
  forallb is_warning (trace (process_xml_file files xml_path classes)) = true
  /\ List.filter is_output (trace (process_xml_file files xml_path classes))
     = [].
Proof.
  split; [apply process_xml_file_warnings|].
  apply prints_are_no_output, process_xml_file_prints.
Qed.

(** X10.  An exception that leaves the parser has one of these causes:
    [ET.parse] raised it, and it is not a [ParseError] (a [ValueError] or
    a [LookupError] for the declared encoding, an [OSError] for an entry
    that cannot be opened, or a [FileNotFoundError] for a path that is
    not in the directory); the reading of the size
    raised it, a [ValueError] or a [TypeError]; or an object entry raised
    it: an [AttributeError] for want of a name element, a [ValueError] or
    a [TypeError] from the reading of its box, or a [ZeroDivisionError] or
    an [OverflowError] from the converter. *)
Theorem parser_exceptions
  (files : list (string * document)) (xml_path : string)
  (classes : list string) (e : exn) :
  outcome (process_xml_file files xml_path classes) = Raise e ->
  (parse files xml_path = Raise e /\
   (e = ValueError \/ e = LookupError \/ e = OSError \/
    (e = FileNotFoundError /\ ~ In xml_path (map fst files)))) \/
  exists root,
    parse files xml_path = Ok root /\
    ((read_size (find root "size") = Raise e /\
      (e = ValueError \/ e = TypeError)) \/
     exists size obj,
       read_size (find root "size") = Ok size /\
       In obj (findall root "object") /\
       object_raises classes size obj e).
Proof.
  unfold process_xml_file.
  destruct (parse files xml_path) as [root|e0] eqn:Ep.
  - intros H. right. exists root. split; [reflexivity|].
    destruct (read_size (find root "size")) as [size|e1] eqn:Es.
    + right. destruct (process_objects_raise _ _ _ _ _ _ H) as [obj [Ho Hr]].
      exists size, obj. auto.
    + left. destruct (read_size_raise _ _ Es) as [->|[->| ->]];
        try discriminate H; apply Raise_inj in H; subst e; auto.
  - intros H. left.
    destruct (parse_raise _ _ _ Ep) as [->|[->|[->|[->|[-> Hn]]]]];
      try discriminate H; apply Raise_inj in H; subst e; auto 10.
Qed.

Lemma parser_exceptions_witness :
  (parse [("img.xml"%string, Document sample_bad_width)] "img.xml"
   = Raise ValueError /\
   (ValueError = ValueError \/ ValueError = LookupError \/
    ValueError = OSError \/
    (ValueError = FileNotFoundError /\
     ~ In "img.xml"%string
         (map fst [("img.xml"%string, Document sample_bad_width)])))) \/
  exists root,
    parse [("img.xml"%string, Document sample_bad_width)] "img.xml" = Ok root /\
    ((read_size (find root "size") = Raise ValueError /\
      (ValueError = ValueError \/ ValueError = TypeError)) \/
     exists size obj,
       read_size (find root "size") = Ok size /\
       In obj (findall root "object") /\
       object_raises CLASS_NAMES size obj ValueError).
Proof.
  apply (parser_exceptions
           [("img.xml"%string, Document sample_bad_width)] "img.xml"
           CLASS_NAMES ValueError).
  vm_compute. reflexivity.
Defined.

(** ** A dimension that is not a number *)

(** X7.  Only a missing element is caught when the size is read: a width
    element that is there with an empty content makes the parser raise
    [TypeError], and one whose text is not an integer literal makes it
    raise [ValueError]; in both cases nothing is printed and nothing is
    returned. *)
Theorem unreadable_width_raises
  (files : list (string * document)) (xml_path : string)
  (classes : list string) (root size_node width_node : element) :
  parse files xml_path = Ok root ->
  find root "size" = Some size_node ->
  find size_node "width" = Some width_node ->
  (text width_node = None ->
   process_xml_file files xml_path classes = ([], Raise TypeError)) /\
  (forall s, text width_node = Some s -> parse_int s = None ->
   process_xml_file files xml_path classes = ([], Raise ValueError)).
Proof.
  intros Hp Hs Hw. unfold process_xml_file. rewrite Hp, Hs.
  unfold read_size, int_field, node_find, node_text, int_of_text, rbind.
  rewrite Hw. split.
  - intros ->. reflexivity.
  - intros s -> ->. reflexivity.
Qed.

Lemma unreadable_width_raises_witness :
  (text (leaf "width" "64O") = None ->
   process_xml_file [("img.xml"%string, Document sample_bad_width)]
     "img.xml" CLASS_NAMES = ([], Raise TypeError)) /\
  (forall s, text (leaf "width" "64O") = Some s -> parse_int s = None ->
   process_xml_file [("img.xml"%string, Document sample_bad_width)]
     "img.xml" CLASS_NAMES = ([], Raise ValueError)).
Proof.
  apply (unreadable_width_raises
           [("img.xml"%string, Document sample_bad_width)] "img.xml"
           CLASS_NAMES sample_bad_width (sample_size "64O" "480")
           (leaf "width" "64O")); reflexivity.
Defined.

(* ================================================================= *)
(** * Further properties of the pipeline *)
(* ================================================================= *)

Lemma process_item_raise w files s name t e :
  process_xml_file files name CLASS_NAMES = (t, Raise e) ->
  process_item w files s name = (t, Raise e).
Proof. intros E. unfold process_item. rewrite E, bind_raise. reflexivity. Qed.

Lemma item_outputs_eq w files s name t lines :
  process_xml_file files name CLASS_NAMES = (t, Ok lines) ->
  List.filter is_output (trace (process_item w files s name)) =
  item_outputs w files s name.
Proof.
  intros E. rewrite (process_item_eq w files s name t lines E).
  cbn [trace fst]. rewrite filter_app.
  pose proof (process_xml_file_prints files name CLASS_NAMES) as Hp.
  rewrite E in Hp. cbn [trace fst] in Hp.
  rewrite (prints_are_no_output t Hp). unfold item_outputs, parsed_lines.
  rewrite E. reflexivity.
Qed.

(** A loop over items that ends normally has written, for each item in
    order, its label file and the copy of its image. *)
Lemma items_outputs w files s names :
  outcome (for_each (process_item w files s) names) = Ok tt ->
  (forall n, In n names ->
     exists lines, outcome (process_xml_file files n CLASS_NAMES) = Ok lines) /\
  List.filter is_output (trace (for_each (process_item w files s) names)) =
  flat_map (item_outputs w files s) names.
Proof.
  induction names as [|name rest IH]; intros H.
  - split; [intros n []|reflexivity].
  - rewrite for_each_cons in H |- *.
    destruct (process_xml_file files name CLASS_NAMES) as [t [lines|e]] eqn:E.
    + pose proof (item_outputs_eq w files s name t lines E) as Ho.
      rewrite (process_item_eq w files s name t lines E) in H, Ho |- *.
      rewrite bind_ok in H |- *. cbn [trace outcome fst snd] in *.
      destruct (IH H) as [IH1 IH2]. split.
      * intros n [<-|Hn]; [rewrite E; exists lines; reflexivity|exact (IH1 n Hn)].
      * rewrite filter_app, Ho, IH2. reflexivity.
    + rewrite (process_item_raise w files s name t e E), bind_raise in H.
      discriminate H.
Qed.

(** Conversely the loop ends normally when the parser returns on every
    item. *)
Lemma items_complete w files s names :
  (forall n, In n names ->
     exists lines, outcome (process_xml_file files n CLASS_NAMES) = Ok lines) ->
  outcome (for_each (process_item w files s) names) = Ok tt.
Proof.
  induction names as [|name rest IH]; intros H; [reflexivity|].
  rewrite for_each_cons.
  destruct (H name (or_introl eq_refl)) as [lines E].
  destruct (process_xml_file files name CLASS_NAMES) as [t r] eqn:E0.
  cbn [outcome snd] in E. subst r.
  rewrite (process_item_eq w files s name t lines E0), bind_ok.
  apply IH. intros n Hn. apply H. right. exact Hn.
Qed.

Lemma subset_outcome w files s names :
  outcome (process_subset w files (s, names)) =
  outcome (for_each (process_item w files s) names).
Proof. unfold process_subset. rewrite bind_emit. reflexivity. Qed.

Lemma subset_outputs w files s names :
  List.filter is_output (trace (process_subset w files (s, names))) =
  List.filter is_output (trace (for_each (process_item w files s) names)).
Proof. unfold process_subset. rewrite bind_emit. reflexivity. Qed.

(** The run after discovery, once the split is known. *)
Lemma main_after_split w files n0 names tr va te :
  xml_dir w = Some files -> xml_names files = n0 :: names ->
  split (gen w) (n0 :: names) = Ok [(train, tr); (val, va); (test, te)] ->
  main w =
  bind (setup_trace ++
        [Print MsgSummary;
         Print (MsgTotal (Z.of_nat (List.length (n0 :: names))));
         Print (MsgCount train (Z.of_nat (List.length tr)));
         Print (MsgCount val (Z.of_nat (List.length va)));
         Print (MsgCount test (Z.of_nat (List.length te)));
         Print MsgRule], Ok tt)
    (fun _ =>
       bind (process_subset w files (train, tr)) (fun _ =>
       bind (process_subset w files (val, va)) (fun _ =>
       bind (process_subset w files (test, te)) (fun _ =>
       emit (Print MsgComplete))))).
Proof.
  intros Hd En Es. unfold main. rewrite Hd. fold (xml_names files).
  rewrite En, Es, bind_lift_ok. cbn [for_each].
  destruct (process_subset w files (train, tr)) as [t1 [[]|e1]];
    destruct (process_subset w files (val, va)) as [t2 [[]|e2]];
    destruct (process_subset w files (test, te)) as [t3 [[]|e3]];
    unfold report, make_dirs, subsets, setup_trace, bind, emit, ret;
    cbn [for_each fst snd app bind emit ret];
    rewrite <- ?app_assoc; cbn [app]; rewrite ?app_nil_r; reflexivity.
Qed.

Lemma no_complete_in_warnings (t : list event) :
  forallb is_warning t = true -> ~ In (Print MsgComplete) t.
Proof.
  intros H Hin. rewrite forallb_forall in H. specialize (H _ Hin).
  discriminate H.
Qed.

Lemma no_complete_in_item w files s name :
  ~ In (Print MsgComplete) (trace (process_item w files s name)).
Proof.
  pose proof (process_xml_file_warnings files name CLASS_NAMES) as Hw.
  destruct (process_xml_file files name CLASS_NAMES) as [t [lines|e]] eqn:E;
    cbn [trace fst] in Hw.
  - rewrite (process_item_eq w files s name t lines E). cbn [trace fst].
    intros Hin. apply in_app_or in Hin. destruct Hin as [Hin|Hin].
    + exact (no_complete_in_warnings t Hw Hin).
    + destruct Hin as [Hin|[Hin|[]]]; [discriminate Hin|].
      unfold image_event in Hin.
      destruct (List.find _ image_extensions); discriminate Hin.
  - rewrite (process_item_raise w files s name t e E). cbn [trace fst].
    exact (no_complete_in_warnings t Hw).
Qed.

Lemma no_complete_in_subset w files s names :
  ~ In (Print MsgComplete) (trace (process_subset w files (s, names))).
Proof.
  unfold process_subset. rewrite bind_emit. cbn [trace fst].
  intros [Hin|Hin]; [discriminate Hin|]. revert Hin.
  induction names as [|name rest IH]; [intros []|].
  rewrite for_each_cons.
  pose proof (no_complete_in_item w files s name) as Hi.
  destruct (process_item w files s name) as [t [[]|e]]; cbn [trace fst] in Hi.
  - rewrite bind_ok. cbn [trace fst]. intros Hin.
    apply in_app_or in Hin. destruct Hin as [Hin|Hin]; [exact (Hi Hin)|].
    exact (IH Hin).
  - rewrite bind_raise. exact Hi.
Qed.

Lemma subset_complete_iff w files s names :
  outcome (process_subset w files (s, names)) = Ok tt <->
  forall n, In n names ->
    exists lines, outcome (process_xml_file files n CLASS_NAMES) = Ok lines.
Proof.
  rewrite subset_outcome. split.
  - intros H. exact (proj1 (items_outputs w files s names H)).
  - apply items_complete.
Qed.

(** What decides the end of a run that got past discovery. *)
Lemma main_outcome_cases w files n0 names tr va te :
  xml_dir w = Some files -> xml_names files = n0 :: names ->
  split (gen w) (n0 :: names) = Ok [(train, tr); (val, va); (test, te)] ->
  (outcome (main w) = Ok tt /\
   In (Print MsgComplete) (trace (main w)) /\
   outcome (process_subset w files (train, tr)) = Ok tt /\
   outcome (process_subset w files (val, va)) = Ok tt /\
   outcome (process_subset w files (test, te)) = Ok tt /\
   List.filter is_output (trace (main w)) =
   List.filter is_output (trace (process_subset w files (train, tr))) ++
   List.filter is_output (trace (process_subset w files (val, va))) ++
   List.filter is_output (trace (process_subset w files (test, te)))) \/
  (exists e, outcome (main w) = Raise e /\
     ~ In (Print MsgComplete) (trace (main w)) /\
     (outcome (process_subset w files (train, tr)) = Raise e \/
      outcome (process_subset w files (val, va)) = Raise e \/
      outcome (process_subset w files (test, te)) = Raise e)).
Proof.
  intros Hd En Es. rewrite (main_after_split w files n0 names tr va te Hd En Es).
  pose proof (no_complete_in_subset w files train tr) as N1.
  pose proof (no_complete_in_subset w files val va) as N2.
  pose proof (no_complete_in_subset w files test te) as N3.
  assert (N0 : forall l,
    In (Print MsgComplete)
      ((setup_trace ++
        [Print MsgSummary;
         Print (MsgTotal (Z.of_nat (List.length (n0 :: names))));
         Print (MsgCount train (Z.of_nat (List.length tr)));
         Print (MsgCount val (Z.of_nat (List.length va)));
         Print (MsgCount test (Z.of_nat (List.length te)));
         Print MsgRule]) ++ l) -> In (Print MsgComplete) l).
  { intros l Hin. apply in_app_or in Hin. destruct Hin as [Hin|Hin];
      [|exact Hin].
    exfalso. unfold setup_trace in Hin. cbn [app] in Hin.
    repeat (destruct Hin as [Hin|Hin]; [discriminate Hin|]). exact Hin. }
  assert (F0 : List.filter is_output
      (setup_trace ++
        [Print MsgSummary;
         Print (MsgTotal (Z.of_nat (List.length (n0 :: names))));
         Print (MsgCount train (Z.of_nat (List.length tr)));
         Print (MsgCount val (Z.of_nat (List.length va)));
         Print (MsgCount test (Z.of_nat (List.length te)));
         Print MsgRule]) = []) by reflexivity.
  destruct (process_subset w files (train, tr)) as [t1 [[]|e1]];
    cbn [trace outcome fst snd] in *.
  2:{ right. exists e1. rewrite bind_ok, bind_raise. cbn [trace outcome fst snd].
      split; [reflexivity|]. split; [|left; reflexivity].
      intros Hin. exact (N1 (N0 _ Hin)). }
  destruct (process_subset w files (val, va)) as [t2 [[]|e2]];
    cbn [trace outcome fst snd] in *.
  2:{ right. exists e2. rewrite !bind_ok, bind_raise.
      cbn [trace outcome fst snd].
      split; [reflexivity|]. split; [|right; left; reflexivity].
      intros Hin. apply N0, in_app_or in Hin. tauto. }
  destruct (process_subset w files (test, te)) as [t3 [[]|e3]];
    cbn [trace outcome fst snd] in *.
  2:{ right. exists e3. rewrite !bind_ok, bind_raise.
      cbn [trace outcome fst snd].
      split; [reflexivity|]. split; [|right; right; reflexivity].
      intros Hin. apply N0, in_app_or in Hin. destruct Hin as [Hin|Hin];
        [tauto|]. apply in_app_or in Hin. tauto. }
  left. rewrite !bind_ok. unfold emit. cbn [trace outcome fst snd].
  split; [reflexivity|]. split.
  { apply in_or_app. right. apply in_or_app. right. apply in_or_app. right.
    apply in_or_app. right. left. reflexivity. }
  repeat (split; [reflexivity|]).
  rewrite filter_app, F0, !filter_app. cbn [app List.filter is_output].
  rewrite app_nil_r. reflexivity.
Qed.

(** X11.  A run that gets past discovery ends normally exactly when the parser
    returns on every annotation file of the directory, and it prints its
    final message in that case only. *)
Theorem run_completes_iff_parser_returns
  (w : world) (files : list (string * document)) :
  xml_dir w = Some files -> xml_names files <> [] ->
  Z.of_nat (List.length (xml_names files)) < 2 ^ 63 ->
  (outcome (main w) = Ok tt <->
   forall n, In n (xml_names files) ->
     exists lines, outcome (process_xml_file files n CLASS_NAMES) = Ok lines)
  /\
  (In (Print MsgComplete) (trace (main w)) <-> outcome (main w) = Ok tt).
Proof.
  intros Hd Hne HN.
  destruct (split_parts (gen w) (xml_names files) HN) as [tr [va [te [Es Hp]]]].
  destruct (xml_names files) as [|n0 names] eqn:En; [contradiction|].
  pose proof (subset_complete_iff w files train tr) as I1.
  pose proof (subset_complete_iff w files val va) as I2.
  pose proof (subset_complete_iff w files test te) as I3.
  destruct (main_outcome_cases w files n0 names tr va te Hd En Es)
    as [[Ho [Hc [O1 [O2 [O3 _]]]]]|[e [Ho [Hc Hr]]]].
  - split; [|tauto]. split; [|intros _; exact Ho].
    intros _ n Hn. apply (Permutation_in n (Permutation_sym Hp)) in Hn.
    apply in_app_or in Hn. destruct Hn as [Hn|Hn];
      [exact (proj1 I1 O1 n Hn)|].
    apply in_app_or in Hn. destruct Hn as [Hn|Hn];
      [exact (proj1 I2 O2 n Hn)|exact (proj1 I3 O3 n Hn)].
  - rewrite Ho. split; [|split; [intros H; destruct (Hc H)|discriminate]].
    split; [discriminate|]. intros Hall. exfalso.
    assert (A1 : outcome (process_subset w files (train, tr)) = Ok tt).
    { apply I1. intros n Hn. apply Hall, (Permutation_in n Hp).
      apply in_or_app. left. exact Hn. }
    assert (A2 : outcome (process_subset w files (val, va)) = Ok tt).
    { apply I2. intros n Hn. apply Hall, (Permutation_in n Hp).
      apply in_or_app. right. apply in_or_app. left. exact Hn. }
    assert (A3 : outcome (process_subset w files (test, te)) = Ok tt).
    { apply I3. intros n Hn. apply Hall, (Permutation_in n Hp).
      apply in_or_app. right. apply in_or_app. right. exact Hn. }
    rewrite A1, A2, A3 in Hr. destruct Hr as [Hr|[Hr|Hr]]; discriminate Hr.
Qed.

Lemma run_completes_iff_parser_returns_witness :
  (outcome (main (sample_world
                    [("img.xml"%string, Document sample_annotation);
                     ("bad.xml"%string, Document sample_bad_width)])) = Ok tt
   <->
   forall n,
     In n (xml_names [("img.xml"%string, Document sample_annotation);
                      ("bad.xml"%string, Document sample_bad_width)]) ->
     exists lines,
       outcome (process_xml_file
                  [("img.xml"%string, Document sample_annotation);
                   ("bad.xml"%string, Document sample_bad_width)]
                  n CLASS_NAMES) = Ok lines)
  /\
  (In (Print MsgComplete)
      (trace (main (sample_world
                      [("img.xml"%string, Document sample_annotation);
                       ("bad.xml"%string, Document sample_bad_width)])))
   <-> outcome (main (sample_world
                        [("img.xml"%string, Document sample_annotation);
                         ("bad.xml"%string, Document sample_bad_width)]))
       = Ok tt).
Proof.
  apply (run_completes_iff_parser_returns
           (sample_world [("img.xml"%string, Document sample_annotation);
                          ("bad.xml"%string, Document sample_bad_width)])
           [("img.xml"%string, Document sample_annotation);
            ("bad.xml"%string, Document sample_bad_width)]).
  - reflexivity.
  - vm_compute. discriminate.
  - vm_compute. reflexivity.
Defined.

(** X12.  The files that a completed run has written are, for each annotation
    file once and in the order of the split (train, then val, then test),
    its label file in the directory of its subset, holding the lines that
    the parser returned, followed by the copy of its image when there is
    one; nothing else is written. *)
Theorem completed_run_outputs
  (w : world) (files : list (string * document)) :
  xml_dir w = Some files -> xml_names files <> [] ->
  Z.of_nat (List.length (xml_names files)) < 2 ^ 63 ->
  outcome (main w) = Ok tt ->
  exists tr va te : list string,
    split (gen w) (xml_names files) = Ok [(train, tr); (val, va); (test, te)] /\
    Permutation (tr ++ va ++ te) (xml_names files) /\
    List.filter is_output (trace (main w)) =
    flat_map (item_outputs w files train) tr ++
    flat_map (item_outputs w files val) va ++
    flat_map (item_outputs w files test) te.
Proof.
  intros Hd Hne HN Hok.
  destruct (split_parts (gen w) (xml_names files) HN) as [tr [va [te [Es Hp]]]].
  exists tr, va, te. split; [exact Es|]. split; [exact Hp|].
  destruct (xml_names files) as [|n0 names] eqn:En; [contradiction|].
  destruct (main_outcome_cases w files n0 names tr va te Hd En Es)
    as [[_ [_ [O1 [O2 [O3 F]]]]]|[e [Ho _]]].
  2:{ rewrite Ho in Hok. discriminate Hok. }
  rewrite F, !subset_outputs. rewrite subset_outcome in O1, O2, O3.
  rewrite (proj2 (items_outputs w files train tr O1)),
          (proj2 (items_outputs w files val va O2)),
          (proj2 (items_outputs w files test te O3)).
  reflexivity.
Qed.

Lemma completed_run_outputs_witness :
  exists tr va te : list string,
    split (gen (sample_world
                  [("img.xml"%string, Document sample_annotation);
                   ("bad.xml"%string, Malformed);
                   ("notes.txt"%string, Malformed)]))
      (xml_names [("img.xml"%string, Document sample_annotation);
                  ("bad.xml"%string, Malformed);
                  ("notes.txt"%string, Malformed)])
    = Ok [(train, tr); (val, va); (test, te)] /\
    Permutation (tr ++ va ++ te)
      (xml_names [("img.xml"%string, Document sample_annotation);
                  ("bad.xml"%string, Malformed);
                  ("notes.txt"%string, Malformed)]) /\
    List.filter is_output
      (trace (main (sample_world
                      [("img.xml"%string, Document sample_annotation);
                       ("bad.xml"%string, Malformed);
                       ("notes.txt"%string, Malformed)]))) =
    flat_map (item_outputs
                (sample_world
                   [("img.xml"%string, Document sample_annotation);
                    ("bad.xml"%string, Malformed);
                    ("notes.txt"%string, Malformed)])
                [("img.xml"%string, Document sample_annotation);
                 ("bad.xml"%string, Malformed);
                 ("notes.txt"%string, Malformed)] train) tr ++
    flat_map (item_outputs
                (sample_world
                   [("img.xml"%string, Document sample_annotation);
                    ("bad.xml"%string, Malformed);
                    ("notes.txt"%string, Malformed)])
                [("img.xml"%string, Document sample_annotation);
                 ("bad.xml"%string, Malformed);
                 ("notes.txt"%string, Malformed)] val) va ++
    flat_map (item_outputs
                (sample_world
                   [("img.xml"%string, Document sample_annotation);
                    ("bad.xml"%string, Malformed);
                    ("notes.txt"%string, Malformed)])
                [("img.xml"%string, Document sample_annotation);
                 ("bad.xml"%string, Malformed);
                 ("notes.txt"%string, Malformed)] test) te.
Proof.
  apply (completed_run_outputs
           (sample_world [("img.xml"%string, Document sample_annotation);
                          ("bad.xml"%string, Malformed);
                          ("notes.txt"%string, Malformed)])
           [("img.xml"%string, Document sample_annotation);
            ("bad.xml"%string, Malformed);
            ("notes.txt"%string, Malformed)]).
  - reflexivity.
  - vm_compute. discriminate.
  - vm_compute. reflexivity.
  - vm_compute. reflexivity.
Defined.

(** The two annotation files of that run, one of them unparsable: two
    label files in the test set, the second one empty, and one image. *)
Example outputs_of_sample_run :
  List.filter is_output
    (trace (main (sample_world
                    [("img.xml"%string, Document sample_annotation);
                     ("bad.xml"%string, Malformed);
                     ("notes.txt"%string, Malformed)]))) =
  [WriteLabel train "bad.txt" [];
   WriteLabel test "img.txt" [sample_line];
   CopyImage "img.jpg" test "img.jpg"].
Proof. vm_compute. reflexivity. Qed.

(** ** Files that are not annotations *)

Lemma xml_names_only_xml files : xml_names (only_xml files) = xml_names files.
Proof.
  unfold xml_names, only_xml. induction files as [|[n d] rest IH];
    [reflexivity|].
  cbn [List.filter map fst]. destruct (endswith n ".xml") eqn:E.
  - cbn [map fst List.filter]. rewrite E, IH. reflexivity.
  - exact IH.
Qed.

Lemma parse_only_xml files name :
  endswith name ".xml" = true -> parse (only_xml files) name = parse files name.
Proof.
  intros Hn. unfold only_xml. induction files as [|[n d] rest IH];
    [reflexivity|].
  cbn [List.filter fst parse]. destruct (endswith n ".xml") eqn:E.
  - cbn [parse]. rewrite IH. reflexivity.
  - destruct (String.eqb_spec n name) as [->|Hne]; [congruence|exact IH].
Qed.

Lemma process_item_only_xml w w' files s name :
  image_exists w' = image_exists w -> endswith name ".xml" = true ->
  process_item w' (only_xml files) s name = process_item w files s name.
Proof.
  intros Hi Hn. unfold process_item, process_xml_file.
  rewrite (parse_only_xml files name Hn), Hi. reflexivity.
Qed.

Lemma for_each_ext {A} (f g : A -> M unit) (l : list A) :
  (forall a, In a l -> f a = g a) -> for_each f l = for_each g l.
Proof.
  induction l as [|a rest IH]; intros H; [reflexivity|].
  rewrite !for_each_cons, (H a (or_introl eq_refl)), IH; [reflexivity|].
  intros b Hb. apply H. right. exact Hb.
Qed.

Lemma in_slice {A} (l : list A) lo hi x : In x (slice l lo hi) -> In x l.
Proof.
  unfold slice. intros H.
  rewrite <- (firstn_skipn
                (Z.to_nat
                   match lo with
                   | Some i => clamp_index (Z.of_nat (List.length l)) i
                   | None => 0
                   end) l).
  apply in_or_app. right.
  match goal with
  | H : In x (firstn ?k ?r) |- In x ?r =>
      rewrite <- (firstn_skipn k r); apply in_or_app; left; exact H
  end.
Qed.

(** The names of a split come from the list that was split. *)
Lemma split_names g l ds s names n :
  split g l = Ok ds -> In (s, names) ds -> In n names -> In n l.
Proof.
  unfold split, rbind.
  destruct (float_mul_int (SPLIT_RATIOS train)
              (Z.of_nat (List.length (shuffle g l)))) as [t|]; [|discriminate].
  destruct (int_of_float t) as [a|]; [|discriminate].
  destruct (float_mul_int (SPLIT_RATIOS val)
              (Z.of_nat (List.length (shuffle g l)))) as [v|]; [|discriminate].
  destruct (int_of_float v) as [b|]; [|discriminate].
  intros H. apply Ok_inj in H. subst ds. intros Hin Hn.
  apply (Permutation_in n (shuffle_perm g l)).
  destruct Hin as [Hin|[Hin|[Hin|[]]]]; inversion Hin; subst;
    exact (in_slice _ _ _ _ Hn).
Qed.

Lemma for_each_subsets_only_xml w w' files ds :
  image_exists w' = image_exists w ->
  (forall s names n, In (s, names) ds -> In n names ->
     endswith n ".xml" = true) ->
  for_each (process_subset w' (only_xml files)) ds =
  for_each (process_subset w files) ds.
Proof.
  intros Hi H. apply for_each_ext. intros [s names] Hin.
  unfold process_subset. rewrite !bind_emit.
  rewrite (for_each_ext (process_item w' (only_xml files) s)
             (process_item w files s) names); [reflexivity|].
  intros n Hn. apply process_item_only_xml; [exact Hi|].
  exact (H s names n Hin Hn).
Qed.

(** X14.  The entries of the annotation directory that do not end in [.xml]
    play no part: the run is the same, event for event, as on the
    directory without them. *)
Theorem main_ignores_other_files (w : world) :
  main w =
  main {| xml_dir := option_map only_xml (xml_dir w);
          image_exists := image_exists w;
          gen := gen w |}.
Proof.
  unfold main. cbn [xml_dir gen].
  destruct (xml_dir w) as [files|]; [|reflexivity].
  cbn [option_map]. fold (xml_names files). fold (xml_names (only_xml files)).
  rewrite xml_names_only_xml.
  destruct (xml_names files) as [|n0 names] eqn:En; [reflexivity|].
  destruct (split (gen w) (n0 :: names)) as [ds|e] eqn:Es; [|reflexivity].
  rewrite !bind_lift_ok.
  rewrite (for_each_subsets_only_xml w
             {| xml_dir := Some (only_xml files);
                image_exists := image_exists w; gen := gen w |} files ds);
    [reflexivity|reflexivity|].
  intros s nm n Hin Hn.
  pose proof (split_names _ _ _ _ _ _ Es Hin Hn) as Hl.
  rewrite <- En in Hl. unfold xml_names in Hl. apply filter_In in Hl.
  tauto.
Qed.

(** A run over a directory that also holds a text file and a picture. *)
Example other_files_are_ignored :
  main (sample_world [("notes.txt"%string, Malformed);
                      ("img.xml"%string, Document sample_annotation);
                      ("img.jpg"%string, Malformed)]) =
  main (sample_world [("img.xml"%string, Document sample_annotation)]).
Proof. vm_compute. reflexivity. Qed.

(** ** The image of an item *)

(** X15.  After the label file of an item, the image copied is the first of
    [<base>.jpg], [<base>.jpeg] and [<base>.png] that exists, copied
    under its own name into the images of the same subset; when none
    exists a warning is printed instead and nothing is copied. *)
Theorem image_copied_is_first_match
  (w : world) (files : list (string * document)) (s : subset)
  (name : string) (t : list event) (lines : list string) :
  process_xml_file files name CLASS_NAMES = (t, Ok lines) ->
  process_item w files s name =
  (t ++ [WriteLabel s (splitext_root name ++ ".txt") lines;
         if image_exists w (splitext_root name ++ ".jpg")
         then CopyImage (splitext_root name ++ ".jpg") s
                (splitext_root name ++ ".jpg")
         else if image_exists w (splitext_root name ++ ".jpeg")
         then CopyImage (splitext_root name ++ ".jpeg") s
                (splitext_root name ++ ".jpeg")
         else if image_exists w (splitext_root name ++ ".png")
         then CopyImage (splitext_root name ++ ".png") s
                (splitext_root name ++ ".png")
         else Print (MsgNoImage (splitext_root name))],
   Ok tt).
Proof.
  intros E. rewrite (process_item_eq w files s name t lines E).
  unfold image_event, image_extensions. cbn [List.find].
  destruct (image_exists w (splitext_root name ++ ".jpg")); [reflexivity|].
  destruct (image_exists w (splitext_root name ++ ".jpeg")); [reflexivity|].
  destruct (image_exists w (splitext_root name ++ ".png")); reflexivity.
Qed.

Lemma image_copied_is_first_match_witness :
  process_item
    {| xml_dir := Some [("a.xml"%string, Malformed)];
       image_exists := fun n => String.eqb n "a.png" || String.eqb n "a.jpeg";
       gen := fun _ => 0%nat |}
    [("a.xml"%string, Malformed)] val "a.xml" =
  ([Print (MsgParseError "a.xml")] ++
   [WriteLabel val (splitext_root "a.xml" ++ ".txt") [];
    if (fun n => String.eqb n "a.png" || String.eqb n "a.jpeg")
         (splitext_root "a.xml" ++ ".jpg")%string
    then CopyImage (splitext_root "a.xml" ++ ".jpg") val
           (splitext_root "a.xml" ++ ".jpg")
    else if (fun n => String.eqb n "a.png" || String.eqb n "a.jpeg")
              (splitext_root "a.xml" ++ ".jpeg")%string
    then CopyImage (splitext_root "a.xml" ++ ".jpeg") val
           (splitext_root "a.xml" ++ ".jpeg")
    else if (fun n => String.eqb n "a.png" || String.eqb n "a.jpeg")
              (splitext_root "a.xml" ++ ".png")%string
    then CopyImage (splitext_root "a.xml" ++ ".png") val
           (splitext_root "a.xml" ++ ".png")
    else Print (MsgNoImage (splitext_root "a.xml"))],
   Ok tt).
Proof.
  apply (image_copied_is_first_match
           {| xml_dir := Some [("a.xml"%string, Malformed)];
              image_exists :=
                fun n => String.eqb n "a.png" || String.eqb n "a.jpeg";
              gen := fun _ => 0%nat |}
           [("a.xml"%string, Malformed)] val "a.xml"
           [Print (MsgParseError "a.xml")] []).
  reflexivity.
Defined.

(** With both [a.png] and [a.jpeg] in the image directory the JPEG is the
    one copied. *)
Example jpeg_before_png :
  process_item
    {| xml_dir := Some [("a.xml"%string, Malformed)];
       image_exists := fun n => String.eqb n "a.png" || String.eqb n "a.jpeg";
       gen := fun _ => 0%nat |}
    [("a.xml"%string, Malformed)] val "a.xml" =
  ([Print (MsgParseError "a.xml"); WriteLabel val "a.txt" [];
    CopyImage "a.jpeg" val "a.jpeg"], Ok tt).
Proof. reflexivity. Qed.

(** ** Directory creation *)

(** X17.  Every run starts with its greeting and the creation of the six output
    directories, images and labels for train, val and test in this order,
    before it looks at the annotation directory: they exist also after a
    run that stops early or fails. *)
Theorem main_creates_directories_first (w : world) :
  exists t, trace (main w) = setup_trace ++ t.
Proof.
  unfold main.
  match goal with
  | |- context [bind (for_each make_dirs subsets) ?k] => set (K := k)
  end.
  destruct (K tt) as [t r] eqn:EK. exists t.
  unfold subsets, make_dirs, setup_trace, bind, emit, ret.
  cbn [for_each bind emit ret app fst snd trace]. unfold bind. rewrite EK.
  reflexivity.
Qed.

(** ** A run that fails *)

Lemma items_abort w files s pre bad post e :
  (forall n, In n pre ->
     exists lines, outcome (process_xml_file files n CLASS_NAMES) = Ok lines) ->
  outcome (process_xml_file files bad CLASS_NAMES) = Raise e ->
  outcome (for_each (process_item w files s) (pre ++ bad :: post)) = Raise e /\
  List.filter is_output
    (trace (for_each (process_item w files s) (pre ++ bad :: post))) =
  flat_map (item_outputs w files s) pre.
Proof.
  intros Hpre Hbad. induction pre as [|name rest IH].
  - cbn [app flat_map]. rewrite for_each_cons.
    pose proof (process_xml_file_prints files bad CLASS_NAMES) as Hp.
    destruct (process_xml_file files bad CLASS_NAMES) as [t r] eqn:E.
    cbn [outcome snd trace fst] in Hbad, Hp. subst r.
    rewrite (process_item_raise w files s bad t e E), bind_raise.
    split; [reflexivity|]. exact (prints_are_no_output t Hp).
  - cbn [app flat_map]. rewrite for_each_cons.
    destruct (Hpre name (or_introl eq_refl)) as [lines El].
    destruct (process_xml_file files name CLASS_NAMES) as [t r] eqn:E.
    cbn [outcome snd] in El. subst r.
    pose proof (item_outputs_eq w files s name t lines E) as Ho.
    rewrite (process_item_eq w files s name t lines E) in Ho |- *.
    rewrite bind_ok. cbn [trace outcome fst snd] in *.
    destruct IH as [IH1 IH2]; [intros n Hn; apply Hpre; right; exact Hn|].
    split; [exact IH1|]. rewrite filter_app, Ho, IH2. reflexivity.
Qed.

(** X13.  The processing of a subset stops at the first annotation file on which
    the parser raises, with that exception: the label files and images of
    the items before it have been written, and no file is written for the
    failing item nor for those after it. *)
Theorem subset_stops_at_first_failure
  (w : world) (files : list (string * document)) (s : subset)
  (pre post : list string) (bad : string) (e : exn) :
  (forall n, In n pre ->
     exists lines, outcome (process_xml_file files n CLASS_NAMES) = Ok lines) ->
  outcome (process_xml_file files bad CLASS_NAMES) = Raise e ->
  outcome (process_subset w files (s, pre ++ bad :: post)) = Raise e /\
  List.filter is_output
    (trace (process_subset w files (s, pre ++ bad :: post))) =
  flat_map (item_outputs w files s) pre.
Proof.
  intros Hpre Hbad. rewrite subset_outcome, subset_outputs.
  apply items_abort; assumption.
Qed.

Lemma subset_stops_at_first_failure_witness :
  outcome (process_subset
             (sample_world [("img.xml"%string, Document sample_annotation);
                            ("bad.xml"%string, Document sample_bad_width);
                            ("c.xml"%string, Malformed)])
             [("img.xml"%string, Document sample_annotation);
              ("bad.xml"%string, Document sample_bad_width);
              ("c.xml"%string, Malformed)]
             (train, ["img.xml"%string] ++ "bad.xml"%string :: ["c.xml"%string]))
  = Raise ValueError /\
  List.filter is_output
    (trace (process_subset
              (sample_world [("img.xml"%string, Document sample_annotation);
                             ("bad.xml"%string, Document sample_bad_width);
                             ("c.xml"%string, Malformed)])
              [("img.xml"%string, Document sample_annotation);
               ("bad.xml"%string, Document sample_bad_width);
               ("c.xml"%string, Malformed)]
              (train, ["img.xml"%string] ++ "bad.xml"%string :: ["c.xml"%string])))
  = flat_map
      (item_outputs
         (sample_world [("img.xml"%string, Document sample_annotation);
                        ("bad.xml"%string, Document sample_bad_width);
                        ("c.xml"%string, Malformed)])
         [("img.xml"%string, Document sample_annotation);
          ("bad.xml"%string, Document sample_bad_width);
          ("c.xml"%string, Malformed)] train)
      ["img.xml"%string].
Proof.
  apply (subset_stops_at_first_failure
           (sample_world [("img.xml"%string, Document sample_annotation);
                          ("bad.xml"%string, Document sample_bad_width);
                          ("c.xml"%string, Malformed)])
           [("img.xml"%string, Document sample_annotation);
            ("bad.xml"%string, Document sample_bad_width);
            ("c.xml"%string, Malformed)]
           train ["img.xml"%string] ["c.xml"%string] "bad.xml" ValueError).
  - intros n [<-|[]]. exists [sample_line]. vm_compute. reflexivity.
  - vm_compute. reflexivity.
Defined.

(** ** The summary *)

(** X18.  A run that gets past discovery prints, right after the creation of the
    directories, a summary whose total is the number of annotation files
    and whose three counts are the sizes of the subsets that it then
    processes; the counts add up to the total. *)
Theorem summary_reports_split_sizes
  (w : world) (files : list (string * document)) :
  xml_dir w = Some files -> xml_names files <> [] ->
  Z.of_nat (List.length (xml_names files)) < 2 ^ 63 ->
  exists (tr va te : list string) (t : list event),
    split (gen w) (xml_names files) = Ok [(train, tr); (val, va); (test, te)] /\
    trace (main w) =
    setup_trace ++
    [Print MsgSummary;
     Print (MsgTotal (Z.of_nat (List.length (xml_names files))));
     Print (MsgCount train (Z.of_nat (List.length tr)));
     Print (MsgCount val (Z.of_nat (List.length va)));
     Print (MsgCount test (Z.of_nat (List.length te)));
     Print MsgRule; Print (MsgProcessing train)] ++ t /\
    Z.of_nat (List.length tr) + Z.of_nat (List.length va)
    + Z.of_nat (List.length te) = Z.of_nat (List.length (xml_names files)).
Proof.
  intros Hd Hne HN.
  destruct (split_parts (gen w) (xml_names files) HN) as [tr [va [te [Es Hp]]]].
  exists tr, va, te.
  assert (Hlen : Z.of_nat (List.length tr) + Z.of_nat (List.length va)
                 + Z.of_nat (List.length te)
                 = Z.of_nat (List.length (xml_names files))).
  { rewrite <- (Permutation_length Hp), !length_app. lia. }
  destruct (xml_names files) as [|n0 names] eqn:En; [contradiction|].
  rewrite (main_after_split w files n0 names tr va te Hd En Es), bind_ok.
  cbn [trace fst]. unfold process_subset at 1. rewrite bind_emit.
  destruct (for_each (process_item w files train) tr) as [t1 r1].
  cbn [trace outcome fst snd].
  destruct r1 as [[]|e1].
  - rewrite bind_ok. cbn [trace fst]. eexists. split; [exact Es|].
    split; [|exact Hlen]. rewrite <- !app_assoc. cbn [app]. reflexivity.
  - rewrite bind_raise. cbn [trace fst]. eexists. split; [exact Es|].
    split; [|exact Hlen]. rewrite <- !app_assoc. cbn [app]. reflexivity.
Qed.

Lemma summary_reports_split_sizes_witness :
  exists (tr va te : list string) (t : list event),
    split (gen (sample_world
                  [("img.xml"%string, Document sample_annotation);
                   ("bad.xml"%string, Malformed)]))
      (xml_names [("img.xml"%string, Document sample_annotation);
                  ("bad.xml"%string, Malformed)])
    = Ok [(train, tr); (val, va); (test, te)] /\
    trace (main (sample_world
                   [("img.xml"%string, Document sample_annotation);
                    ("bad.xml"%string, Malformed)])) =
    setup_trace ++
    [Print MsgSummary;
     Print (MsgTotal (Z.of_nat (List.length
        (xml_names [("img.xml"%string, Document sample_annotation);
                    ("bad.xml"%string, Malformed)]))));
     Print (MsgCount train (Z.of_nat (List.length tr)));
     Print (MsgCount val (Z.of_nat (List.length va)));
     Print (MsgCount test (Z.of_nat (List.length te)));
     Print MsgRule; Print (MsgProcessing train)] ++ t /\
    Z.of_nat (List.length tr) + Z.of_nat (List.length va)
    + Z.of_nat (List.length te) =
    Z.of_nat (List.length
      (xml_names [("img.xml"%string, Document sample_annotation);
                  ("bad.xml"%string, Malformed)])).
Proof.
  apply (summary_reports_split_sizes
           (sample_world [("img.xml"%string, Document sample_annotation);
                          ("bad.xml"%string, Malformed)])
           [("img.xml"%string, Document sample_annotation);
            ("bad.xml"%string, Malformed)]).
  - reflexivity.
  - vm_compute. discriminate.
  - vm_compute. reflexivity.
Defined.

(* ================================================================= *)
(** * The names of the output files *)
(* ================================================================= *)

Lemma list_ascii_app (a b : string) :
  list_ascii_of_string (a ++ b) =
  list_ascii_of_string a ++ list_ascii_of_string b.
Proof.
  induction a as [|c a IH]; [reflexivity|].
  cbn [String.append list_ascii_of_string app]. rewrite IH. reflexivity.
Qed.

Lemma last_dot_found (cs : list ascii) : forall pos d,
  last_dot cs pos (Some d) <> None.
Proof.
  induction cs as [|c cs IH]; intros pos d; cbn [last_dot]; [discriminate|].
  destruct (Ascii.eqb c "."); apply IH.
Qed.

Lemma last_dot_app (cs tl : list ascii) : forall pos found,
  last_dot (cs ++ tl) pos found = last_dot tl (pos + List.length cs)%nat
    (match last_dot cs pos found with Some d => Some d | None => found end).
Proof.
  induction cs as [|c cs IH]; intros pos found.
  - cbn [app last_dot List.length]. rewrite Nat.add_0_r.
    destruct found; reflexivity.
  - cbn [app last_dot List.length]. rewrite IH. f_equal; [lia|].
    destruct (last_dot cs (S pos) (if Ascii.eqb c "." then Some pos else found))
      as [d|] eqn:E; [reflexivity|].
    destruct (Ascii.eqb c "."); [|reflexivity].
    destruct (last_dot_found cs (S pos) pos E).
Qed.

Lemma splitext_root_xml (stem : string) :
  all_dots (list_ascii_of_string stem) = false ->
  splitext_root (stem ++ ".xml") = stem.
Proof.
  intros Hd. unfold splitext_root.
  rewrite list_ascii_app, last_dot_app.
  cbn [list_ascii_of_string last_dot Ascii.eqb Bool.eqb].
  rewrite Nat.add_0_l, firstn_app, Nat.sub_diag, firstn_all.
  cbn [firstn]. rewrite app_nil_r, Hd.
  apply string_of_list_ascii_of_string.
Qed.

Lemma substring_all (b : string) : String.substring 0 (String.length b) b = b.
Proof.
  induction b as [|c b IH]; [reflexivity|].
  cbn [String.length String.substring]. rewrite IH. reflexivity.
Qed.

Lemma substring_suffix (a b : string) :
  String.substring (String.length a) (String.length b) (a ++ b) = b.
Proof.
  induction a as [|c a IH]; [apply substring_all|].
  cbn [String.length String.append String.substring]. exact IH.
Qed.

Lemma length_append (a b : string) :
  String.length (a ++ b) = (String.length a + String.length b)%nat.
Proof.
  induction a as [|c a IH]; [reflexivity|].
  cbn [String.length String.append]. rewrite IH. reflexivity.
Qed.

Lemma endswith_suffix (a b : string) : endswith (a ++ b) b = true.
Proof.
  unfold endswith. rewrite length_append.
  replace (String.length a + String.length b - String.length b)%nat
    with (String.length a) by lia.
  rewrite substring_suffix, String.eqb_refl.
  replace (String.length b <=? String.length a + String.length b)%nat
    with true by (symmetry; apply Nat.leb_le; lia).
  reflexivity.
Qed.

(** X16.  An annotation file [<stem>.xml], whose stem is not made of dots only,
    is taken by the discovery and gets the label file [<stem>.txt] in the
    directory of its subset, whatever dots the stem contains. *)
Theorem label_file_of_annotation
  (w : world) (files : list (string * document)) (s : subset)
  (stem : string) (t : list event) (lines : list string) :
  all_dots (list_ascii_of_string stem) = false ->
  process_xml_file files (stem ++ ".xml") CLASS_NAMES = (t, Ok lines) ->
  endswith (stem ++ ".xml") ".xml" = true /\
  splitext_root (stem ++ ".xml") = stem /\
  process_item w files s (stem ++ ".xml") =
  (t ++ [WriteLabel s (stem ++ ".txt") lines; image_event w s stem], Ok tt).
Proof.
  intros Hd E. split; [apply endswith_suffix|].
  pose proof (splitext_root_xml stem Hd) as Hr. split; [exact Hr|].
  rewrite (process_item_eq w files s _ t lines E), Hr. reflexivity.
Qed.

Lemma label_file_of_annotation_witness :
  endswith ("road.v2" ++ ".xml") ".xml" = true /\
  splitext_root ("road.v2" ++ ".xml") = "road.v2"%string /\
  process_item (sample_world [("road.v2.xml"%string, Malformed)])
    [("road.v2.xml"%string, Malformed)] test ("road.v2" ++ ".xml") =
  ([Print (MsgParseError "road.v2.xml")] ++
   [WriteLabel test ("road.v2" ++ ".txt") [];
    image_event (sample_world [("road.v2.xml"%string, Malformed)]) test
      "road.v2"], Ok tt).
Proof.
  apply (label_file_of_annotation
           (sample_world [("road.v2.xml"%string, Malformed)])
           [("road.v2.xml"%string, Malformed)] test "road.v2"
           [Print (MsgParseError "road.v2.xml")] []); reflexivity.
Defined.

(** A file named [.xml] is an annotation file for the discovery; its name
    has no extension for [splitext], so its label file is [.xml.txt]. *)
Example label_of_dot_xml :
  endswith ".xml" ".xml" = true /\ splitext_root ".xml" = ".xml"%string.
Proof. split; reflexivity. Qed.

(* ================================================================= *)
(** * The cut points, the label files and the end of a run *)
(* ================================================================= *)

(** ** C5: the cut points *)

Lemma floor_of_tenths n a :
  7 * n - 10 <= 10 * a <= 7 * n -> n mod 10 <> 0 -> a = 7 * n / 10.
Proof.
  intros Hb Hm. pose proof (Z.div_mod (7 * n) 10 ltac:(lia)) as Hd.
  pose proof (Z.mod_pos_bound (7 * n) 10 ltac:(lia)) as Hr.
  assert ((7 * n) mod 10 <> 0).
  { intros Hz. apply Hm. apply Z.mod_divide in Hz; [|lia].
    apply Z.mod_divide; [lia|]. apply (Z.gauss 10 7 n Hz). reflexivity. }
  lia.
Qed.

Lemma floor_of_twentieths n b :
  3 * n - 20 <= 20 * b <= 3 * n -> n mod 20 <> 0 -> b = 3 * n / 20.
Proof.
  intros Hb Hm. pose proof (Z.div_mod (3 * n) 20 ltac:(lia)) as Hd.
  pose proof (Z.mod_pos_bound (3 * n) 20 ltac:(lia)) as Hr.
  assert ((3 * n) mod 20 <> 0).
  { intros Hz. apply Hm. apply Z.mod_divide in Hz; [|lia].
    apply Z.mod_divide; [lia|]. apply (Z.gauss 20 3 n Hz). reflexivity. }
  lia.
Qed.

(** The claim as stated fails: of 90 files the train set receives 62, and
    not [floor(0.70 * 90) = 63], because the product [0.70 * 90] computed
    in double precision is just below 63; val receives
    [floor(0.15 * 90) = 13] and test the remaining 15. *)
Lemma train_set_of_90_files :
  split (fun _ => 0%nat) (List.repeat "a.xml"%string 90) =
  Ok [(train, List.repeat "a.xml"%string 62);
      (val, List.repeat "a.xml"%string 13);
      (test, List.repeat "a.xml"%string 15)] /\
  7 * 90 / 10 = 63 /\ 3 * 90 / 20 = 13.
Proof. repeat split; vm_compute; reflexivity. Qed.

(** C5 (amended).  For a list of [N < 2^48] identifiers, shuffled into
    [items], the splitter cuts at [train_end = int(train_ratio * N)] and
    [val_end = train_end + int(val_ratio * N)], the products being those
    that the script computes in double precision: train is
    [items[0:train_end]], val is [items[train_end:val_end]] and test is
    [items[val_end:N]], of lengths [train_end], [val_end - train_end] and
    [N - val_end].  [train_end] is [floor(7 N / 10)] or one less, and it
    is that floor when [N] is not a multiple of 10; [int(val_ratio * N)]
    is [floor(3 N / 20)] or one less, and it is that floor when [N] is not
    a multiple of 20. *)
Theorem split_cuts_near_floors (g : nat -> nat) (files : list string) :
  let N := Z.of_nat (List.length files) in
  let items := shuffle g files in
  N < 2 ^ 48 ->
  exists (p_train p_val : float) (train_end k : Z) (tr va te : list string),
    float_mul_int (SPLIT_RATIOS train) N = Ok p_train /\
    floor_of p_train train_end /\
    float_mul_int (SPLIT_RATIOS val) N = Ok p_val /\
    floor_of p_val k /\
    split g files = Ok [(train, tr); (val, va); (test, te)] /\
    tr = items_between items 0 train_end /\
    va = items_between items train_end (train_end + k) /\
    te = items_between items (train_end + k) N /\
    Z.of_nat (List.length tr) = train_end /\
    Z.of_nat (List.length va) = k /\
    Z.of_nat (List.length te) = N - (train_end + k) /\
    7 * N - 10 <= 10 * train_end <= 7 * N /\
    (N mod 10 <> 0 -> train_end = 7 * N / 10) /\
    3 * N - 20 <= 20 * k <= 3 * N /\
    (N mod 20 <> 0 -> k = 3 * N / 20).
Proof.
  intros N items HN.
  assert (H63 : 2 ^ 48 < 2 ^ 63) by (apply Z.pow_lt_mono_r; lia).
  destruct (split_eq g files ltac:(fold N; lia))
    as [t [v [a [b [Et [Fa [Ev [Fb [Ha [Hb [Hab E]]]]]]]]]]].
  fold N in Et, Ev, Hab. fold items in E.
  assert (HL : List.length items = List.length files) by apply shuffle_length.
  pose proof (train_cut_bounds N t a ltac:(unfold N in *; lia) Et Fa) as Ba.
  pose proof (val_cut_bounds N v b ltac:(unfold N in *; lia) Ev Fb) as Bb.
  exists t, v, a, b. do 3 eexists.
  split; [exact Et|]. split; [exact Fa|]. split; [exact Ev|]. split; [exact Fb|].
  split; [exact E|].
  unfold items_between.
  split; [rewrite Z.sub_0_r; reflexivity|].
  split; [replace (a + b - a) with b by lia; reflexivity|].
  split.
  { replace (Z.to_nat (a + b)) with (Z.to_nat a + Z.to_nat b)%nat by lia.
    symmetry. apply firstn_all2. rewrite length_skipn. unfold N in *. lia. }
  rewrite !length_firstn, !length_skipn, HL.
  split; [unfold N in *; lia|]. split; [unfold N in *; lia|].
  split; [unfold N in *; lia|].
  split; [exact Ba|]. split; [exact (floor_of_tenths N a Ba)|].
  split; [exact Bb|exact (floor_of_twentieths N b Bb)].
Qed.

Lemma split_cuts_near_floors_witness :
  exists (p_train p_val : float) (train_end k : Z) (tr va te : list string),
    float_mul_int (SPLIT_RATIOS train) 10 = Ok p_train /\
    floor_of p_train train_end /\
    float_mul_int (SPLIT_RATIOS val) 10 = Ok p_val /\
    floor_of p_val k /\
    split (fun _ => 0%nat)
      ["a"; "b"; "c"; "d"; "e"; "f"; "g"; "h"; "i"; "j"]%string
    = Ok [(train, tr); (val, va); (test, te)] /\
    tr = items_between
           ["b"; "c"; "d"; "e"; "f"; "g"; "h"; "i"; "j"; "a"]%string 0 train_end /\
    va = items_between
           ["b"; "c"; "d"; "e"; "f"; "g"; "h"; "i"; "j"; "a"]%string
           train_end (train_end + k) /\
    te = items_between
           ["b"; "c"; "d"; "e"; "f"; "g"; "h"; "i"; "j"; "a"]%string
           (train_end + k) 10 /\
    Z.of_nat (List.length tr) = train_end /\
    Z.of_nat (List.length va) = k /\
    Z.of_nat (List.length te) = 10 - (train_end + k) /\
    7 * 10 - 10 <= 10 * train_end <= 7 * 10 /\
    (10 mod 10 <> 0 -> train_end = 7 * 10 / 10) /\
    3 * 10 - 20 <= 20 * k <= 3 * 10 /\
    (10 mod 20 <> 0 -> k = 3 * 10 / 20).
Proof.
  apply (split_cuts_near_floors (fun _ => 0%nat)
           ["a"; "b"; "c"; "d"; "e"; "f"; "g"; "h"; "i"; "j"]%string).
  vm_compute. reflexivity.
Defined.

(** ** C7: a label file for every item *)

Lemma splitext_root_stem (stem : string) :
  splitext_root (stem ++ ".xml") = base_of_stem stem.
Proof.
  unfold base_of_stem.
  destruct (all_dots (list_ascii_of_string stem)) eqn:Hd;
    [|exact (splitext_root_xml stem Hd)].
  unfold splitext_root.
  rewrite list_ascii_app, last_dot_app.
  cbn [list_ascii_of_string last_dot Ascii.eqb Bool.eqb].
  rewrite Nat.add_0_l, firstn_app, Nat.sub_diag, firstn_all.
  cbn [firstn]. rewrite app_nil_r, Hd. reflexivity.
Qed.

(** The claim as stated fails: on an annotation whose width is not a
    number the parser raises, so that no label file is written for it, and
    the file after it, a sound one, is not processed. *)
Lemma no_label_file_when_parser_raises :
  for_each
    (process_item
       (sample_world [("bad.xml"%string, Document sample_bad_width);
                      ("img.xml"%string, Document sample_annotation)])
       [("bad.xml"%string, Document sample_bad_width);
        ("img.xml"%string, Document sample_annotation)] train)
    ["bad.xml"; "img.xml"]%string
  = ([], Raise ValueError).
Proof. vm_compute. reflexivity. Qed.

(** C7 (amended).  For every identifier [<stem>.xml] processed in a subset
    on which the parser returns, with zero lines or more, the lines are
    written to [labels/<subset>/<base>.txt], where the base is the stem
    (the whole name when the stem is empty or made of dots), the image is
    then dealt with, and the files that follow are processed; on a file
    that is not well-formed XML the parser returns zero lines after its
    warning, so that the label file is written empty rather than left
    out.  When the parser raises on an identifier, nothing is written for
    it and the files that follow are not processed. *)
Theorem label_file_always_written :
  (forall (w : world) (files : list (string * document)) (s : subset)
          (stem : string) (rest : list string)
          (t : list event) (lines : list string),
     process_xml_file files (stem ++ ".xml") CLASS_NAMES = (t, Ok lines) ->
     process_item w files s (stem ++ ".xml") =
     (t ++ [WriteLabel s (base_of_stem stem ++ ".txt") lines;
            image_event w s (base_of_stem stem)], Ok tt) /\
     for_each (process_item w files s) ((stem ++ ".xml")%string :: rest) =
     ((t ++ [WriteLabel s (base_of_stem stem ++ ".txt") lines;
             image_event w s (base_of_stem stem)]) ++
      trace (for_each (process_item w files s) rest),
      outcome (for_each (process_item w files s) rest))) /\
  (forall (files : list (string * document)) (name : string),
     parse files name = Raise ParseError ->
     process_xml_file files name CLASS_NAMES =
     ([Print (MsgParseError name)], Ok [])) /\
  (forall (w : world) (files : list (string * document)) (s : subset)
          (name : string) (rest : list string) (t : list event) (e : exn),
     process_xml_file files name CLASS_NAMES = (t, Raise e) ->
     for_each (process_item w files s) (name :: rest) = (t, Raise e) /\
     List.filter is_output t = []).
Proof.
  split; [|split].
  - intros w files s stem rest t lines E.
    pose proof (process_item_eq w files s _ t lines E) as Ei.
    rewrite splitext_root_stem in Ei. split; [exact Ei|].
    rewrite for_each_cons, Ei, bind_ok. reflexivity.
  - intros files name Hp. exact (process_xml_file_unparsable _ _ _ Hp).
  - intros w files s name rest t e E. split.
    + rewrite for_each_cons, (process_item_raise w files s name t e E),
        bind_raise. reflexivity.
    + pose proof (process_xml_file_prints files name CLASS_NAMES) as Hp.
      rewrite E in Hp. exact (prints_are_no_output t Hp).
Qed.

Lemma label_file_always_written_witness :
  process_item
    (sample_world [("a.xml"%string, Malformed);
                   ("img.xml"%string, Document sample_annotation)])
    [("a.xml"%string, Malformed);
     ("img.xml"%string, Document sample_annotation)] val ("a" ++ ".xml") =
  ([Print (MsgParseError "a.xml")] ++
   [WriteLabel val (base_of_stem "a" ++ ".txt") [];
    image_event
      (sample_world [("a.xml"%string, Malformed);
                     ("img.xml"%string, Document sample_annotation)])
      val (base_of_stem "a")], Ok tt) /\
  for_each
    (process_item
       (sample_world [("a.xml"%string, Malformed);
                      ("img.xml"%string, Document sample_annotation)])
       [("a.xml"%string, Malformed);
        ("img.xml"%string, Document sample_annotation)] val)
    (("a" ++ ".xml")%string :: ["img.xml"%string]) =
  (([Print (MsgParseError "a.xml")] ++
    [WriteLabel val (base_of_stem "a" ++ ".txt") [];
     image_event
       (sample_world [("a.xml"%string, Malformed);
                      ("img.xml"%string, Document sample_annotation)])
       val (base_of_stem "a")]) ++
   trace (for_each
            (process_item
               (sample_world [("a.xml"%string, Malformed);
                              ("img.xml"%string, Document sample_annotation)])
               [("a.xml"%string, Malformed);
                ("img.xml"%string, Document sample_annotation)] val)
            ["img.xml"%string]),
   outcome (for_each
              (process_item
                 (sample_world [("a.xml"%string, Malformed);
                                ("img.xml"%string, Document sample_annotation)])
                 [("a.xml"%string, Malformed);
                  ("img.xml"%string, Document sample_annotation)] val)
              ["img.xml"%string])).
Proof.
  apply (proj1 label_file_always_written
           (sample_world [("a.xml"%string, Malformed);
                          ("img.xml"%string, Document sample_annotation)])
           [("a.xml"%string, Malformed);
            ("img.xml"%string, Document sample_annotation)] val
           "a"%string ["img.xml"%string]
           [Print (MsgParseError "a.xml")] []).
  reflexivity.
Defined.

(** The loop of that witness, in full: the empty label file of the
    unparsable [a.xml], then the label file and the image of
    [img.xml]. *)
Example empty_label_then_next_file :
  for_each
    (process_item
       (sample_world [("a.xml"%string, Malformed);
                      ("img.xml"%string, Document sample_annotation)])
       [("a.xml"%string, Malformed);
        ("img.xml"%string, Document sample_annotation)] val)
    ["a.xml"; "img.xml"]%string =
  ([Print (MsgParseError "a.xml"); WriteLabel val "a.txt" [];
    Print (MsgNoImage "a");
    WriteLabel val "img.txt" [sample_line];
    CopyImage "img.jpg" val "img.jpg"], Ok tt).
Proof. vm_compute. reflexivity. Qed.

(** ** C8: when the run stops early *)

Lemma substring_split (s : string) : forall m,
  (m <= String.length s)%nat ->
  s = (String.substring 0 m s
       ++ String.substring m (String.length s - m) s)%string.
Proof.
  induction s as [|c s IH]; intros m Hm.
  - destruct m; reflexivity.
  - destruct m as [|m].
    + cbn [String.substring String.append String.length Nat.sub].
      rewrite substring_all. reflexivity.
    + cbn [String.length] in Hm.
      cbn [String.substring String.append String.length Nat.sub].
      rewrite <- IH by lia. reflexivity.
Qed.

(** A name that the discovery takes is some stem followed by [.xml]. *)
Lemma endswith_stem (n : string) :
  endswith n ".xml" = true -> exists stem, n = (stem ++ ".xml")%string.
Proof.
  unfold endswith. change (String.length ".xml") with 4%nat.
  intros H. apply andb_prop in H. destruct H as [Hk He].
  apply Nat.leb_le in Hk. apply String.eqb_eq in He.
  exists (String.substring 0 (String.length n - 4) n).
  pose proof (substring_split n (String.length n - 4) ltac:(lia)) as Hs.
  replace (String.length n - (String.length n - 4))%nat with 4%nat in Hs
    by lia.
  rewrite He in Hs. exact Hs.
Qed.

Lemma xml_names_stem files n :
  In n (xml_names files) -> exists stem, n = (stem ++ ".xml")%string.
Proof.
  unfold xml_names. intros H. apply filter_In in H.
  apply endswith_stem. tauto.
Qed.

Lemma subset_label_files w files s names t :
  process_subset w files (s, names) = (t, Ok tt) ->
  forall n, In n names ->
    In (WriteLabel s (splitext_root n ++ ".txt") (parsed_lines files n)) t.
Proof.
  intros E n Hn.
  assert (Ho : outcome (for_each (process_item w files s) names) = Ok tt).
  { rewrite <- subset_outcome, E. reflexivity. }
  pose proof (proj2 (items_outputs w files s names Ho)) as Hf.
  rewrite <- subset_outputs, E in Hf. cbn [trace fst] in Hf.
  assert (Hin : In (WriteLabel s (splitext_root n ++ ".txt")
                      (parsed_lines files n))
                   (List.filter is_output t)).
  { rewrite Hf. apply in_flat_map. exists n. split; [exact Hn|].
    left. reflexivity. }
  apply filter_In in Hin. tauto.
Qed.

Lemma main_completes w files :
  xml_dir w = Some files -> xml_names files <> [] ->
  Z.of_nat (List.length (xml_names files)) < 2 ^ 63 ->
  (forall n, In n (xml_names files) ->
     exists lines, outcome (process_xml_file files n CLASS_NAMES) = Ok lines) ->
  exists t,
    main w = (setup_trace ++ t ++ [Print MsgComplete], Ok tt) /\
    forall n, In n (xml_names files) ->
      exists stem s,
        n = (stem ++ ".xml")%string /\
        In (WriteLabel s (base_of_stem stem ++ ".txt") (parsed_lines files n))
           t.
Proof.
  intros Hd Hne HN Hall.
  assert (Hstem : forall n, In n (xml_names files) ->
            exists stem, n = (stem ++ ".xml")%string /\
                         splitext_root n = base_of_stem stem).
  { intros n Hn. destruct (xml_names_stem files n Hn) as [stem ->].
    exists stem. split; [reflexivity|apply splitext_root_stem]. }
  destruct (split_parts (gen w) (xml_names files) HN) as [tr [va [te [Es Hp]]]].
  assert (Hsub : forall n, In n (tr ++ va ++ te) ->
            exists lines,
              outcome (process_xml_file files n CLASS_NAMES) = Ok lines).
  { intros n Hn. apply Hall. exact (Permutation_in n Hp Hn). }
  assert (O1 : outcome (process_subset w files (train, tr)) = Ok tt).
  { apply subset_complete_iff. intros n Hn. apply Hsub.
    apply in_or_app. left. exact Hn. }
  assert (O2 : outcome (process_subset w files (val, va)) = Ok tt).
  { apply subset_complete_iff. intros n Hn. apply Hsub.
    apply in_or_app. right. apply in_or_app. left. exact Hn. }
  assert (O3 : outcome (process_subset w files (test, te)) = Ok tt).
  { apply subset_complete_iff. intros n Hn. apply Hsub.
    apply in_or_app. right. apply in_or_app. right. exact Hn. }
  pose proof (subset_label_files w files train tr) as W1.
  pose proof (subset_label_files w files val va) as W2.
  pose proof (subset_label_files w files test te) as W3.
  destruct (xml_names files) as [|n0 names] eqn:En; [contradiction|].
  rewrite (main_after_split w files n0 names tr va te Hd En Es).
  destruct (process_subset w files (train, tr)) as [t1 r1].
  destruct (process_subset w files (val, va)) as [t2 r2].
  destruct (process_subset w files (test, te)) as [t3 r3].
  cbn [outcome snd] in O1, O2, O3. subst r1 r2 r3.
  rewrite !bind_ok. unfold emit. cbn [trace outcome fst snd].
  exists ([Print MsgSummary;
           Print (MsgTotal (Z.of_nat (List.length (n0 :: names))));
           Print (MsgCount train (Z.of_nat (List.length tr)));
           Print (MsgCount val (Z.of_nat (List.length va)));
           Print (MsgCount test (Z.of_nat (List.length te)));
           Print MsgRule] ++ t1 ++ t2 ++ t3).
  split.
  - rewrite <- !app_assoc. reflexivity.
  - intros n Hn. destruct (Hstem n Hn) as [stem [En' Eb]].
    exists stem.
    apply (Permutation_in n (Permutation_sym Hp)) in Hn.
    apply in_app_or in Hn. destruct Hn as [Hn|Hn].
    { exists train. split; [exact En'|]. rewrite <- Eb.
      apply in_or_app. right. apply in_or_app. left.
      exact (W1 t1 eq_refl n Hn). }
    apply in_app_or in Hn. destruct Hn as [Hn|Hn].
    { exists val. split; [exact En'|]. rewrite <- Eb.
      apply in_or_app. right. apply in_or_app. right.
      apply in_or_app. left. exact (W2 t2 eq_refl n Hn). }
    exists test. split; [exact En'|]. rewrite <- Eb.
    apply in_or_app. right. apply in_or_app. right.
    apply in_or_app. right. exact (W3 t3 eq_refl n Hn).
Qed.

Lemma main_fails w files n e :
  xml_dir w = Some files ->
  Z.of_nat (List.length (xml_names files)) < 2 ^ 63 ->
  In n (xml_names files) ->
  outcome (process_xml_file files n CLASS_NAMES) = Raise e ->
  exists e', outcome (main w) = Raise e' /\
             ~ In (Print MsgComplete) (trace (main w)).
Proof.
  intros Hd HN Hn He.
  destruct (split_parts (gen w) (xml_names files) HN) as [tr [va [te [Es Hp]]]].
  destruct (xml_names files) as [|n0 names] eqn:En; [destruct Hn|].
  destruct (main_outcome_cases w files n0 names tr va te Hd En Es)
    as [[_ [_ [O1 [O2 [O3 _]]]]]|[e' [Ho [Hc _]]]].
  - exfalso. apply (Permutation_in n (Permutation_sym Hp)) in Hn.
    assert (Hret : exists lines,
              outcome (process_xml_file files n CLASS_NAMES) = Ok lines).
    { apply in_app_or in Hn. destruct Hn as [Hn|Hn];
        [exact (proj1 (subset_complete_iff w files train tr) O1 n Hn)|].
      apply in_app_or in Hn. destruct Hn as [Hn|Hn];
        [exact (proj1 (subset_complete_iff w files val va) O2 n Hn)
        |exact (proj1 (subset_complete_iff w files test te) O3 n Hn)]. }
    destruct Hret as [lines Hl]. rewrite He in Hl. discriminate Hl.
  - exists e'. split; [exact Ho|exact Hc].
Qed.

Lemma parser_returns_on_sound_file files n :
  parse files n = Raise ParseError \/
  (exists root, parse files n = Ok root /\
                (size_missing root || well_formed root) = true) ->
  exists lines, outcome (process_xml_file files n CLASS_NAMES) = Ok lines.
Proof.
  intros [E|[root [E Hd]]].
  - rewrite (process_xml_file_unparsable _ _ _ E). exists []. reflexivity.
  - apply orb_prop in Hd. destruct Hd as [Hs|Hw].
    + rewrite (process_xml_file_no_size _ _ _ _ E Hs). exists []. reflexivity.
    + destruct (process_xml_file_well_formed _ _ CLASS_NAMES _ E Hw)
        as [t [lines El]].
      rewrite El. exists lines. reflexivity.
Qed.

(** The claim as stated fails: with an annotation directory that exists and
    holds one annotation file, whose width is not a number, the run neither
    stops at discovery nor completes: the [ValueError] of the parser ends
    it before any label file is written and before the final message. *)
Lemma main_aborts_on_malformed_size :
  xml_names [("img.xml"%string, Document sample_bad_width)] = ["img.xml"%string]
  /\
  main (sample_world [("img.xml"%string, Document sample_bad_width)]) =
  (setup_trace ++
   [Print MsgSummary; Print (MsgTotal 1); Print (MsgCount train 0);
    Print (MsgCount val 0); Print (MsgCount test 1); Print MsgRule;
    Print (MsgProcessing train); Print (MsgProcessing val);
    Print (MsgProcessing test)],
   Raise ValueError).
Proof. split; vm_compute; reflexivity. Qed.

(** C8 (amended).  The run stops early, after the creation of the
    directories and a diagnostic and with no label or image written, when
    the annotation directory is missing and when it holds no annotation
    file.  Otherwise, for a directory of fewer than [2^63] annotation
    files: when the parser returns on every annotation file the run goes
    to completion, writing for every annotation file a label file with the
    lines that the parser returned and ending with the final message; the
    parser returns on a file that is not well-formed XML ([ParseError]),
    on a document whose size is missing (no size section, no width
    element, or an integer width and no height element) and on a
    well-formed document; and when the parser raises on some annotation
    file the run ends with an exception and does not print the final
    message. *)
Theorem main_stops_early_or_completes :
  (forall w, xml_dir w = None ->
     main w = (setup_trace ++ [Print MsgFatalNoDir], Ok tt)) /\
  (forall w files, xml_dir w = Some files -> xml_names files = [] ->
     main w = (setup_trace ++ [Print MsgFatalNoXml], Ok tt)) /\
  (forall w files,
     xml_dir w = Some files -> xml_names files <> [] ->
     Z.of_nat (List.length (xml_names files)) < 2 ^ 63 ->
     (forall n, In n (xml_names files) ->
        exists lines,
          outcome (process_xml_file files n CLASS_NAMES) = Ok lines) ->
     exists t,
       main w = (setup_trace ++ t ++ [Print MsgComplete], Ok tt) /\
       forall n, In n (xml_names files) ->
         exists stem s,
           n = (stem ++ ".xml")%string /\
           In (WriteLabel s (base_of_stem stem ++ ".txt")
                 (parsed_lines files n)) t) /\
  (forall files n,
     parse files n = Raise ParseError \/
     (exists root, parse files n = Ok root /\
                   (size_missing root || well_formed root) = true) ->
     exists lines,
       outcome (process_xml_file files n CLASS_NAMES) = Ok lines) /\
  (forall w files n e,
     xml_dir w = Some files ->
     Z.of_nat (List.length (xml_names files)) < 2 ^ 63 ->
     In n (xml_names files) ->
     outcome (process_xml_file files n CLASS_NAMES) = Raise e ->
     exists e', outcome (main w) = Raise e' /\
                ~ In (Print MsgComplete) (trace (main w))).
Proof.
  split; [exact main_no_directory|].
  split; [exact main_no_annotation|].
  split; [exact main_completes|].
  split; [exact parser_returns_on_sound_file|exact main_fails].
Qed.

Lemma main_stops_early_or_completes_witness :
  exists t,
    main (sample_world [("img.xml"%string, Document sample_annotation);
                        ("bad.xml"%string, Malformed);
                        ("notes.txt"%string, Malformed)]) =
    (setup_trace ++ t ++ [Print MsgComplete], Ok tt) /\
    forall n,
      In n (xml_names [("img.xml"%string, Document sample_annotation);
                       ("bad.xml"%string, Malformed);
                       ("notes.txt"%string, Malformed)]) ->
      exists stem s,
        n = (stem ++ ".xml")%string /\
        In (WriteLabel s (base_of_stem stem ++ ".txt")
              (parsed_lines [("img.xml"%string, Document sample_annotation);
                             ("bad.xml"%string, Malformed);
                             ("notes.txt"%string, Malformed)] n)) t.
Proof.
  apply (proj1 (proj2 (proj2 main_stops_early_or_completes))
           (sample_world [("img.xml"%string, Document sample_annotation);
                          ("bad.xml"%string, Malformed);
                          ("notes.txt"%string, Malformed)])
           [("img.xml"%string, Document sample_annotation);
            ("bad.xml"%string, Malformed);
            ("notes.txt"%string, Malformed)]).
  - reflexivity.
  - vm_compute. discriminate.
  - vm_compute. reflexivity.
  - intros n [<-|[<-|[]]]; eexists; vm_compute; reflexivity.
Defined.

(** A run over one well-formed annotation with its image. *)
Example main_on_sample :
  main (sample_world [("img.xml"%string, Document sample_annotation)]) =
  (setup_trace ++
   [Print MsgSummary; Print (MsgTotal 1); Print (MsgCount train 0);
    Print (MsgCount val 0); Print (MsgCount test 1); Print MsgRule;
    Print (MsgProcessing train); Print (MsgProcessing val);
    Print (MsgProcessing test);
    WriteLabel test "img.txt" [sample_line];
    CopyImage "img.jpg" test "img.jpg";
    Print MsgComplete],
   Ok tt).
Proof. vm_compute. reflexivity. Qed.

(** A run over one annotation that declares a multi-byte encoding:
    [ET.parse] raises [ValueError], which nothing catches. *)
Example main_on_unsupported_encoding :
  main (sample_world [("img.xml"%string, MultiByteEncoding)]) =
  (setup_trace ++
   [Print MsgSummary; Print (MsgTotal 1); Print (MsgCount train 0);
    Print (MsgCount val 0); Print (MsgCount test 1); Print MsgRule;
    Print (MsgProcessing train); Print (MsgProcessing val);
    Print (MsgProcessing test)],
   Raise ValueError).
Proof. vm_compute. reflexivity. Qed.

Example setup_writes_nothing :
  existsb is_output (setup_trace ++ [Print MsgFatalNoDir]) = false /\
  existsb is_output (setup_trace ++ [Print MsgFatalNoXml]) = false.
Proof. split; reflexivity. Qed.
